(** * loggedio: a reporting proxy for io.Reader, io.Writer, io.Closer and net.Conn

    A shallow embedding of the Go package [loggedio] and of the part of the Go
    runtime and standard library it relies on.

    Two revisions of the package are embedded, each in a module of its own:
    - [LoggedioGo] follows [src/loggedio.go];
    - [Part001] follows [src/unnamed/part_001], the revision with the
      template guards [byteFunc], [errFunc], [closeFunc] and the dump
      constructors.
    The test doubles of [src/unnamed/part_000] ([MockIO] and its wrappers) are
    embedded in [Mocks] and drive the concrete runs. *)

From Stdlib Require Import ZArith NArith List Bool Lia.
From Stdlib.Strings Require Import String Ascii Byte.
Import ListNotations.
Local Open Scope Z_scope.

(* ===================================================================== *)
(** * Go values: bytes, slices, strings, errors *)
(* ===================================================================== *)

(** An [int] is an integer of [Z]: the package compares byte counts with
    zero and slices by them, and does no arithmetic on them. *)

(** The numeric value of a [uint8]. *)
Definition byte_val (c : byte) : Z := Z.of_N (Byte.to_N c).

(** [[]byte]: a view of a backing array. [arr] is the backing array from the
    slice's first element up to its capacity, [len] the number of elements of
    the view. A slice made by [make([]byte, n)], by a literal or by a
    conversion has [len = cap]. *)
Record slice : Type := mkSlice { arr : list byte; len : nat }.

Definition cap (s : slice) : nat := List.length (arr s).

(** The elements [b[0], ..., b[len(b)-1]]. *)
Definition elems (s : slice) : list byte := firstn (len s) (arr s).

(** [[]byte{...}] and [[]byte(str)]: a fresh slice with [len = cap]. *)
Definition slice_of (l : list byte) : slice := mkSlice l (List.length l).

(** Go strings are byte sequences; [string(b)] and [[]byte(s)]. *)
Definition string_of_bytes (l : list byte) : string := string_of_list_byte l.
Definition bytes_of_string (s : string) : list byte := list_byte_of_string s.

(** [error]: [None] is [nil], [Some msg] an error whose [Error()] is [msg]. *)
Definition error : Type := option string.
Definition is_nil (e : error) : bool :=
  match e with None => true | Some _ => false end.

(** [net.Addr] ([nil], or the network and the address) and [time.Time]
    (an instant); the proxy only hands them through. *)
Definition Addr : Type := option (string * string).
Definition Time : Type := Z.

(* ===================================================================== *)
(** * toHex (shared by both revisions, same text in both) *)
(* ===================================================================== *)

(** [var hexDigits = []byte{'0', ..., '9', 'a', ..., 'f'}] *)
Definition hexDigits : list byte := bytes_of_string "0123456789abcdef".

(** [l[i]] on a list of bytes. Both index expressions of [toHex] are in
    range ([toHex_indices_in_range]), so the default is never returned. *)
Definition at_index (l : list byte) (i : Z) : byte := nth (Z.to_nat i) l x00.

(** [strings.Builder.WriteByte] *)
Definition WriteByte (builder : list byte) (c : byte) : list byte :=
  (builder ++ [c])%list.

(** The [for i := 0; i < len(b); i++] loop of [toHex]; one unit of [fuel]
    per evaluation of the loop condition. *)
Fixpoint toHex_loop (fuel : nat) (b : list byte) (i : Z) (builder : list byte)
  : list byte :=
  match fuel with
  | O => builder
  | S fuel' =>
      if i <? Z.of_nat (List.length b) then
        let ch := at_index b i in
        let builder := WriteByte builder (at_index hexDigits (Z.shiftr (byte_val ch) 4)) in
        let builder := WriteByte builder (at_index hexDigits (Z.land (byte_val ch) 15)) in
        let builder :=
          if i <? Z.of_nat (List.length b) - 1
          then WriteByte builder " "%byte
          else builder in
        toHex_loop fuel' b (i + 1) builder
      else builder
  end.

(** [func toHex(b []byte) string]; the loop condition is evaluated
    [len(b) + 1] times. *)
Definition toHex (b : list byte) : string :=
  string_of_bytes (toHex_loop (S (List.length b)) b 0 []).

(** ** What the documentation says of the hex format *)

(** The lowercase hexadecimal digit of a value below 16. *)
Definition lower_hex_digit (d : N) : ascii :=
  if (d <? 10)%N then ascii_of_N (48 + d) else ascii_of_N (87 + d).

(** Two lowercase hex digits for one byte, high nibble first. *)
Definition hex_pair (c : byte) : string :=
  String (lower_hex_digit (Byte.to_N c / 16))
    (String (lower_hex_digit (Byte.to_N c mod 16)) EmptyString).

(** The value of a lowercase hex digit. *)
Definition hex_digit_value (a : ascii) : option N :=
  let n := N_of_ascii a in
  if ((48 <=? n) && (n <=? 57))%N then Some (n - 48)%N
  else if ((97 <=? n) && (n <=? 102))%N then Some (n - 87)%N
  else None.

(** Reading a two-digit group back as a number. *)
Definition hex_pair_value (s : string) : option N :=
  match s with
  | String h (String l EmptyString) =>
      match hex_digit_value h, hex_digit_value l with
      | Some x, Some y => Some (16 * x + y)%N
      | _, _ => None
      end
  | _ => None
  end.

(** The bytes rendered as groups joined by single spaces. *)
Definition hex_groups (b : list byte) : string :=
  String.concat " " (map hex_pair b).

(* ===================================================================== *)
(** * The Go runtime: panics and effects *)
(* ===================================================================== *)

(** The values a run can panic with. *)
Inductive panic : Type :=
| InterfaceConversion (iface : string)
    (** a failed type assertion [x.(iface)] *)
| SliceBoundsOutOfRange (hi : Z) (capacity : nat)
    (** [b[:hi]] with [hi] outside [0 .. cap(b)] *)
| PanicValue (v : string)
    (** [panic(v)] raised by code outside the package *).

Inductive outcome (A : Type) : Type :=
| Returned (a : A)
| Panicked (p : panic).
Arguments Returned {A} a.
Arguments Panicked {A} p.

(** A Go call over the state [W] of everything outside the proxy (the proxied
    object, the sinks, the process log). A panic keeps the state reached. *)
Definition M (W A : Type) : Type := W -> outcome A * W.

Definition ret {W A : Type} (a : A) : M W A := fun w => (Returned a, w).

Definition throw {W A : Type} (p : panic) : M W A := fun w => (Panicked p, w).

Definition bind {W A B : Type} (c : M W A) (k : A -> M W B) : M W B :=
  fun w =>
    match c w with
    | (Returned a, w') => k a w'
    | (Panicked p, w') => (Panicked p, w')
    end.

Declare Scope go_scope.
Delimit Scope go_scope with go.
Notation "x <- c ;; k" := (bind c (fun x => k))
  (at level 61, c at next level, right associativity) : go_scope.
Notation "' pat <- c ;; k" := (bind c (fun x => match x with pat => k end))
  (at level 61, pat pattern, c at next level, right associativity) : go_scope.
Notation "c ;; k" := (bind c (fun _ => k))
  (at level 61, right associativity) : go_scope.
Local Open Scope go_scope.

(** A statement guarded by [if cond { ... }] with no [else]. *)
Definition when {W : Type} (cond : bool) (body : M W unit) : M W unit :=
  if cond then body else ret tt.

(** [b[:n]]: the runtime checks [0 <= n <= cap(b)]. *)
Definition slice_to {W : Type} (b : slice) (n : Z) : M W slice :=
  if (0 <=? n) && (n <=? Z.of_nat (cap b))
  then ret (mkSlice (arr b) (Z.to_nat n))
  else throw (SliceBoundsOutOfRange n (cap b)).

(** ** Dynamically typed values and type assertions *)

(** The method types of [io.Reader], [io.Writer], [io.Closer] and [net.Conn].
    [Read] stores into the caller's buffer: it returns the buffer as it stands
    after the call beside [n] and [err]. [Write] "must not modify the slice
    data" (io.Writer) and returns only [n] and [err]. *)
Definition ReadFunc (W : Type) : Type := slice -> M W (slice * Z * error).
Definition WriteFunc (W : Type) : Type := slice -> M W (Z * error).
Definition CloseFunc (W : Type) : Type := M W error.
Definition AddrFunc (W : Type) : Type := M W Addr.
Definition DeadlineFunc (W : Type) : Type := Time -> M W error.

(** An [interface{}] value, seen through the method set of its dynamic type:
    [None] where the type has no such method. The [nil] interface has none. *)
Record Object (W : Type) : Type := mkObject {
  method_Read : option (ReadFunc W);
  method_Write : option (WriteFunc W);
  method_Close : option (CloseFunc W);
  method_LocalAddr : option (AddrFunc W);
  method_RemoteAddr : option (AddrFunc W);
  method_SetDeadline : option (DeadlineFunc W);
  method_SetReadDeadline : option (DeadlineFunc W);
  method_SetWriteDeadline : option (DeadlineFunc W)
}.
Arguments mkObject {W}.
Arguments method_Read {W}.
Arguments method_Write {W}.
Arguments method_Close {W}.
Arguments method_LocalAddr {W}.
Arguments method_RemoteAddr {W}.
Arguments method_SetDeadline {W}.
Arguments method_SetReadDeadline {W}.
Arguments method_SetWriteDeadline {W}.

(** A value of interface type [net.Conn]: all eight methods. *)
Record Conn (W : Type) : Type := mkConn {
  conn_Read : ReadFunc W;
  conn_Write : WriteFunc W;
  conn_Close : CloseFunc W;
  conn_LocalAddr : AddrFunc W;
  conn_RemoteAddr : AddrFunc W;
  conn_SetDeadline : DeadlineFunc W;
  conn_SetReadDeadline : DeadlineFunc W;
  conn_SetWriteDeadline : DeadlineFunc W
}.
Arguments mkConn {W}.
Arguments conn_Read {W}.
Arguments conn_Write {W}.
Arguments conn_Close {W}.
Arguments conn_LocalAddr {W}.
Arguments conn_RemoteAddr {W}.
Arguments conn_SetDeadline {W}.
Arguments conn_SetReadDeadline {W}.
Arguments conn_SetWriteDeadline {W}.

(** The method set of [net.Conn] is complete in [o]. *)
Definition as_Conn {W : Type} (o : Object W) : option (Conn W) :=
  match method_Read o, method_Write o, method_Close o,
        method_LocalAddr o, method_RemoteAddr o,
        method_SetDeadline o, method_SetReadDeadline o,
        method_SetWriteDeadline o with
  | Some r, Some w, Some c, Some la, Some ra, Some d, Some rd, Some wd =>
      Some (mkConn r w c la ra d rd wd)
  | _, _, _, _, _, _, _, _ => None
  end.

(** [o.(io.Reader)], [o.(io.Writer)], [o.(io.Closer)], [o.(net.Conn)]: the
    single-value form of the type assertion, which panics on a mismatch. *)
Definition assert_Reader {W : Type} (o : Object W) : M W (ReadFunc W) :=
  match method_Read o with
  | Some f => ret f
  | None => throw (InterfaceConversion "io.Reader")
  end.

Definition assert_Writer {W : Type} (o : Object W) : M W (WriteFunc W) :=
  match method_Write o with
  | Some f => ret f
  | None => throw (InterfaceConversion "io.Writer")
  end.

Definition assert_Closer {W : Type} (o : Object W) : M W (CloseFunc W) :=
  match method_Close o with
  | Some f => ret f
  | None => throw (InterfaceConversion "io.Closer")
  end.

Definition assert_Conn {W : Type} (o : Object W) : M W (Conn W) :=
  match as_Conn o with
  | Some c => ret c
  | None => throw (InterfaceConversion "net.Conn")
  end.

(** ** The callbacks' vocabulary *)

(** One invocation of a reporting callback, with its arguments. *)
Inductive report : Type :=
| ReportRead (readContents : slice)
| ReportWrite (writeContents : slice)
| ReportError (location : string) (err : error)
| ReportClose.

(** ** fmt and log *)

(** The operands the package hands to [fmt]: strings and errors. *)
Inductive arg : Type :=
| ArgString (s : string)
| ArgError (e : error).

(** [fmt.Fprintf(w, format, a...)]: formats, then one [w.Write] of the
    result; [Sprintf] is the formatter in use. *)
Definition Fprintf {W : Type} (Sprintf : string -> list arg -> string)
    (w : WriteFunc W) (format : string) (a : list arg) : M W (Z * error) :=
  w (slice_of (bytes_of_string (Sprintf format a))).

(** [log.Printf(format, v...)]: formats, then hands the line to the standard
    logger's [Output]. *)
Definition log_Printf {W : Type} (Sprintf : string -> list arg -> string)
    (Output : string -> M W unit) (format : string) (v : list arg) : M W unit :=
  Output (Sprintf format v).

(* ===================================================================== *)
(** * src/unnamed/part_001 *)
(* ===================================================================== *)

Module Part001.
Section Package.
Context {W : Type}.

(** [fmt.Sprintf] and the standard logger's [Output], as the program finds
    them in the Go standard library. *)
Variable Sprintf : string -> list arg -> string.
Variable log_Output : string -> M W unit.

(** [type LoggedIOProxy struct]. The four callbacks are function values (not
    nil); a callback may run any effect on the state, and is handed the
    slice to look at: the callbacks this package builds only read it. A
    proxy is built only by [Generic], which stores what it is given. *)
Record LoggedIOProxy : Type := mkProxy {
  reportReadEvent : slice -> M W unit;
  reportWriteEvent : slice -> M W unit;
  reportCloseEvent : M W unit;
  reportErrorEvent : string -> error -> M W unit;
  proxiedObject : Object W;
  location : string
}.

(** [func Generic(proxiedObject interface{}, reportReadEvent, reportWriteEvent
    func(b []byte), reportErrorEvent func(location string, err error),
    reportCloseEvent func()) *LoggedIOProxy] *)
Definition Generic (proxiedObject : Object W)
    (reportReadEvent reportWriteEvent : slice -> M W unit)
    (reportErrorEvent : string -> error -> M W unit)
    (reportCloseEvent : M W unit) : LoggedIOProxy :=
  {| reportReadEvent := reportReadEvent;
     reportWriteEvent := reportWriteEvent;
     reportCloseEvent := reportCloseEvent;
     reportErrorEvent := reportErrorEvent;
     proxiedObject := proxiedObject;
     location := EmptyString |}.

(** [func (this *LoggedIOProxy) Read(b []byte) (n int, err error)] *)
Definition Read (this : LoggedIOProxy) (b : slice) : M W (slice * Z * error) :=
  reader <- assert_Reader (proxiedObject this) ;;
  ' (b, n, err) <- reader b ;;
  when (n >? 0) (s <- slice_to b n ;; reportReadEvent this s) ;;
  when (negb (is_nil err)) (reportErrorEvent this "Read()" err) ;;
  ret (b, n, err).

(** [func (this *LoggedIOProxy) Write(b []byte) (n int, err error)] *)
Definition Write (this : LoggedIOProxy) (b : slice) : M W (Z * error) :=
  writer <- assert_Writer (proxiedObject this) ;;
  ' (n, err) <- writer b ;;
  when (n >? 0) (s <- slice_to b n ;; reportWriteEvent this s) ;;
  when (negb (is_nil err)) (reportErrorEvent this "Write()" err) ;;
  ret (n, err).

(** [func (this *LoggedIOProxy) Close() (err error)] *)
Definition Close (this : LoggedIOProxy) : M W error :=
  closer <- assert_Closer (proxiedObject this) ;;
  err <- closer ;;
  reportCloseEvent this ;;
  when (negb (is_nil err)) (reportErrorEvent this "Close()" err) ;;
  ret err.

(** [func (this *LoggedIOProxy) LocalAddr() net.Addr] *)
Definition LocalAddr (this : LoggedIOProxy) : M W Addr :=
  conn <- assert_Conn (proxiedObject this) ;;
  conn_LocalAddr conn.

(** [func (this *LoggedIOProxy) RemoteAddr() net.Addr] *)
Definition RemoteAddr (this : LoggedIOProxy) : M W Addr :=
  conn <- assert_Conn (proxiedObject this) ;;
  conn_RemoteAddr conn.

(** [func (this *LoggedIOProxy) SetDeadline(t time.Time) (err error)] *)
Definition SetDeadline (this : LoggedIOProxy) (t : Time) : M W error :=
  conn <- assert_Conn (proxiedObject this) ;;
  err <- conn_SetDeadline conn t ;;
  when (negb (is_nil err)) (reportErrorEvent this "SetDeadline()" err) ;;
  ret err.

(** [func (this *LoggedIOProxy) SetReadDeadline(t time.Time) (err error)] *)
Definition SetReadDeadline (this : LoggedIOProxy) (t : Time) : M W error :=
  conn <- assert_Conn (proxiedObject this) ;;
  err <- conn_SetReadDeadline conn t ;;
  when (negb (is_nil err)) (reportErrorEvent this "SetReadDeadline()" err) ;;
  ret err.

(** [func (this *LoggedIOProxy) SetWriteDeadline(t time.Time) (err error)] *)
Definition SetWriteDeadline (this : LoggedIOProxy) (t : Time) : M W error :=
  conn <- assert_Conn (proxiedObject this) ;;
  err <- conn_SetWriteDeadline conn t ;;
  when (negb (is_nil err)) (reportErrorEvent this "SetWriteDeadline()" err) ;;
  ret err.

(** A [*LoggedIOProxy] stored in an [interface{}]: its method set is the
    eight methods above, so a proxy can be the proxied object of another. *)
Definition as_Object (this : LoggedIOProxy) : Object W :=
  {| method_Read := Some (Read this);
     method_Write := Some (Write this);
     method_Close := Some (Close this);
     method_LocalAddr := Some (LocalAddr this);
     method_RemoteAddr := Some (RemoteAddr this);
     method_SetDeadline := Some (SetDeadline this);
     method_SetReadDeadline := Some (SetReadDeadline this);
     method_SetWriteDeadline := Some (SetWriteDeadline this) |}.

(** [func byteFunc(format string, function func([]byte)) func([]byte)] *)
Definition byteFunc (format : string) (function : slice -> M W unit)
  : slice -> M W unit :=
  if String.eqb format "" then (fun _ => ret tt) else function.

(** [func errFunc(format string, function func(string, error)) func(string, error)] *)
Definition errFunc (format : string) (function : string -> error -> M W unit)
  : string -> error -> M W unit :=
  if String.eqb format "" then (fun _ _ => ret tt) else function.

(** [func closeFunc(msg string, function func()) func()] *)
Definition closeFunc (msg : string) (function : M W unit) : M W unit :=
  if String.eqb msg "" then ret tt else function.

(** A call statement whose results are dropped. *)
Definition discard {A : Type} (c : M W A) : M W unit := c ;; ret tt.

(** [func StringToLog(proxiedObject interface{}, readFmt, writeFmt, errorFmt,
    closeMsg string) *LoggedIOProxy] *)
Definition StringToLog (proxiedObject : Object W)
    (readFmt writeFmt errorFmt closeMsg : string) : LoggedIOProxy :=
  Generic proxiedObject
    (byteFunc readFmt (fun b =>
       log_Printf Sprintf log_Output readFmt [ArgString (string_of_bytes (elems b))]))
    (byteFunc writeFmt (fun b =>
       log_Printf Sprintf log_Output writeFmt [ArgString (string_of_bytes (elems b))]))
    (errFunc errorFmt (fun location err =>
       log_Printf Sprintf log_Output errorFmt [ArgString location; ArgError err]))
    (closeFunc closeMsg (log_Printf Sprintf log_Output "%v" [ArgString closeMsg])).

(** [func HexToLog(proxiedObject interface{}, readFmt, writeFmt, errorFmt,
    closeMsg string) *LoggedIOProxy] *)
Definition HexToLog (proxiedObject : Object W)
    (readFmt writeFmt errorFmt closeMsg : string) : LoggedIOProxy :=
  Generic proxiedObject
    (byteFunc readFmt (fun b =>
       log_Printf Sprintf log_Output readFmt [ArgString (toHex (elems b))]))
    (byteFunc readFmt (fun b =>
       log_Printf Sprintf log_Output writeFmt [ArgString (toHex (elems b))]))
    (errFunc errorFmt (fun location err =>
       log_Printf Sprintf log_Output errorFmt [ArgString location; ArgError err]))
    (closeFunc closeMsg (log_Printf Sprintf log_Output "%v" [ArgString closeMsg])).

(** [func StringToWriter(proxiedObject interface{}, writer io.Writer, readFmt,
    writeFmt, errorFmt, closeMsg string) *LoggedIOProxy] *)
Definition StringToWriter (proxiedObject : Object W) (writer : WriteFunc W)
    (readFmt writeFmt errorFmt closeMsg : string) : LoggedIOProxy :=
  Generic proxiedObject
    (byteFunc readFmt (fun b =>
       discard (Fprintf Sprintf writer readFmt [ArgString (string_of_bytes (elems b))])))
    (byteFunc readFmt (fun b =>
       discard (Fprintf Sprintf writer writeFmt [ArgString (string_of_bytes (elems b))])))
    (errFunc errorFmt (fun location err =>
       discard (Fprintf Sprintf writer errorFmt [ArgString location; ArgError err])))
    (closeFunc closeMsg (discard (writer (slice_of (bytes_of_string closeMsg))))).

(** [func HexToWriter(proxiedObject interface{}, writer io.Writer, readFmt,
    writeFmt, errorFmt, closeMsg string) *LoggedIOProxy] *)
Definition HexToWriter (proxiedObject : Object W) (writer : WriteFunc W)
    (readFmt writeFmt errorFmt closeMsg : string) : LoggedIOProxy :=
  Generic proxiedObject
    (byteFunc readFmt (fun b =>
       discard (Fprintf Sprintf writer readFmt [ArgString (toHex (elems b))])))
    (byteFunc readFmt (fun b =>
       discard (Fprintf Sprintf writer writeFmt [ArgString (toHex (elems b))])))
    (errFunc errorFmt (fun location err =>
       discard (Fprintf Sprintf writer errorFmt [ArgString location; ArgError err])))
    (closeFunc closeMsg (discard (writer (slice_of (bytes_of_string closeMsg))))).

(** [func DumpToWriters(proxiedObject interface{}, readWriter, writeWriter,
    notifyWriter io.Writer, errorFmt, closeMsg string) *LoggedIOProxy] *)
Definition DumpToWriters (proxiedObject : Object W)
    (readWriter writeWriter notifyWriter : WriteFunc W)
    (errorFmt closeMsg : string) : LoggedIOProxy :=
  let errorFunc := errFunc errorFmt (fun location err =>
    discard (Fprintf Sprintf notifyWriter errorFmt [ArgString location; ArgError err])) in
  Generic proxiedObject
    (fun b =>
       ' (_, err) <- readWriter b ;;
       when (negb (is_nil err)) (errorFunc "LoggedIO readWriter"%string err))
    (fun b =>
       ' (_, err) <- writeWriter b ;;
       when (negb (is_nil err)) (errorFunc "LoggedIO writeWriter"%string err))
    (errFunc errorFmt (fun location err =>
       discard (Fprintf Sprintf notifyWriter errorFmt [ArgString location; ArgError err])))
    (closeFunc closeMsg (discard (notifyWriter (slice_of (bytes_of_string closeMsg))))).

(** [os.Stdout], [os.Stderr], [ioutil.Discard] as writers, and [os.Create],
    which returns the new file as a writer, or an error. *)
Variable os_Stdout os_Stderr ioutil_Discard : WriteFunc W.
Variable os_Create : string -> M W (WriteFunc W * error).

(** [func writerForFile(filename string) io.Writer] *)
Definition writerForFile (filename : string) : M W (WriteFunc W) :=
  if String.eqb filename "stdout" then ret os_Stdout
  else if String.eqb filename "stderr" then ret os_Stderr
  else if String.eqb filename "null" then ret ioutil_Discard
  else
    ' (writer, err) <- os_Create filename ;;
    if negb (is_nil err) then
      log_Printf Sprintf log_Output "LoggedIO: Error creating %v: %v"
        [ArgString filename; ArgError err] ;;
      ret ioutil_Discard
    else ret writer.

(** [func DumpToFiles(proxiedObject interface{}, readFilename, writeFilename,
    notifyFilename string, errorFmt, closeMsg string) *LoggedIOProxy]; the
    three writers are opened left to right before the proxy is built. *)
Definition DumpToFiles (proxiedObject : Object W)
    (readFilename writeFilename notifyFilename : string)
    (errorFmt closeMsg : string) : M W LoggedIOProxy :=
  readWriter <- writerForFile readFilename ;;
  writeWriter <- writerForFile writeFilename ;;
  notifyWriter <- writerForFile notifyFilename ;;
  ret (DumpToWriters proxiedObject readWriter writeWriter notifyWriter
         errorFmt closeMsg).

End Package.
End Part001.

(* ===================================================================== *)
(** * src/loggedio.go *)
(* ===================================================================== *)

Module LoggedioGo.
Section Package.
Context {W : Type}.

Variable Sprintf : string -> list arg -> string.
Variable log_Output : string -> M W unit.

(** [type LoggedIOProxy struct] *)
Record LoggedIOProxy : Type := mkProxy {
  reportReadEvent : slice -> M W unit;
  reportWriteEvent : slice -> M W unit;
  reportCloseEvent : M W unit;
  reportErrorEvent : string -> error -> M W unit;
  proxiedObject : Object W;
  location : string
}.

(** [func Generic(...) *LoggedIOProxy] *)
Definition Generic (proxiedObject : Object W)
    (reportReadEvent reportWriteEvent : slice -> M W unit)
    (reportErrorEvent : string -> error -> M W unit)
    (reportCloseEvent : M W unit) : LoggedIOProxy :=
  {| reportReadEvent := reportReadEvent;
     reportWriteEvent := reportWriteEvent;
     reportCloseEvent := reportCloseEvent;
     reportErrorEvent := reportErrorEvent;
     proxiedObject := proxiedObject;
     location := EmptyString |}.

(** [func (this *LoggedIOProxy) Read(b []byte) (n int, err error)] *)
Definition Read (this : LoggedIOProxy) (b : slice) : M W (slice * Z * error) :=
  reader <- assert_Reader (proxiedObject this) ;;
  ' (b, n, err) <- reader b ;;
  when (n >? 0) (s <- slice_to b n ;; reportReadEvent this s) ;;
  when (negb (is_nil err)) (reportErrorEvent this "Read()" err) ;;
  ret (b, n, err).

(** [func (this *LoggedIOProxy) Write(b []byte) (n int, err error)] *)
Definition Write (this : LoggedIOProxy) (b : slice) : M W (Z * error) :=
  writer <- assert_Writer (proxiedObject this) ;;
  ' (n, err) <- writer b ;;
  when (n >? 0) (s <- slice_to b n ;; reportWriteEvent this s) ;;
  when (negb (is_nil err)) (reportErrorEvent this "Write()" err) ;;
  ret (n, err).

(** [func (this *LoggedIOProxy) Close() (err error)] *)
Definition Close (this : LoggedIOProxy) : M W error :=
  closer <- assert_Closer (proxiedObject this) ;;
  err <- closer ;;
  reportCloseEvent this ;;
  when (negb (is_nil err)) (reportErrorEvent this "Close()" err) ;;
  ret err.

(** [func (this *LoggedIOProxy) LocalAddr() net.Addr] *)
Definition LocalAddr (this : LoggedIOProxy) : M W Addr :=
  conn <- assert_Conn (proxiedObject this) ;;
  conn_LocalAddr conn.

(** [func (this *LoggedIOProxy) RemoteAddr() net.Addr] *)
Definition RemoteAddr (this : LoggedIOProxy) : M W Addr :=
  conn <- assert_Conn (proxiedObject this) ;;
  conn_RemoteAddr conn.

(** [func (this *LoggedIOProxy) SetDeadline(t time.Time) (err error)] *)
Definition SetDeadline (this : LoggedIOProxy) (t : Time) : M W error :=
  conn <- assert_Conn (proxiedObject this) ;;
  err <- conn_SetDeadline conn t ;;
  when (negb (is_nil err)) (reportErrorEvent this "SetDeadline()" err) ;;
  ret err.

(** [func (this *LoggedIOProxy) SetReadDeadline(t time.Time) (err error)] *)
Definition SetReadDeadline (this : LoggedIOProxy) (t : Time) : M W error :=
  conn <- assert_Conn (proxiedObject this) ;;
  err <- conn_SetReadDeadline conn t ;;
  when (negb (is_nil err)) (reportErrorEvent this "SetReadDeadline()" err) ;;
  ret err.

(** [func (this *LoggedIOProxy) SetWriteDeadline(t time.Time) (err error)] *)
Definition SetWriteDeadline (this : LoggedIOProxy) (t : Time) : M W error :=
  conn <- assert_Conn (proxiedObject this) ;;
  err <- conn_SetWriteDeadline conn t ;;
  when (negb (is_nil err)) (reportErrorEvent this "SetWriteDeadline()" err) ;;
  ret err.

(** A call statement whose results are dropped. *)
Definition discard {A : Type} (c : M W A) : M W unit := c ;; ret tt.

(** [func StringToLog(...)]: this revision installs the callbacks as they
    are, whatever the templates. *)
Definition StringToLog (proxiedObject : Object W)
    (readFmt writeFmt errorFmt closeMsg : string) : LoggedIOProxy :=
  Generic proxiedObject
    (fun b => log_Printf Sprintf log_Output readFmt [ArgString (string_of_bytes (elems b))])
    (fun b => log_Printf Sprintf log_Output writeFmt [ArgString (string_of_bytes (elems b))])
    (fun location err =>
       log_Printf Sprintf log_Output errorFmt [ArgString location; ArgError err])
    (log_Printf Sprintf log_Output "%v" [ArgString closeMsg]).

(** [func HexToLog(...)] *)
Definition HexToLog (proxiedObject : Object W)
    (readFmt writeFmt errorFmt closeMsg : string) : LoggedIOProxy :=
  Generic proxiedObject
    (fun b => log_Printf Sprintf log_Output readFmt [ArgString (toHex (elems b))])
    (fun b => log_Printf Sprintf log_Output writeFmt [ArgString (toHex (elems b))])
    (fun location err =>
       log_Printf Sprintf log_Output errorFmt [ArgString location; ArgError err])
    (log_Printf Sprintf log_Output "%v" [ArgString closeMsg]).

(** [func StringToWriter(...)] *)
Definition StringToWriter (proxiedObject : Object W) (writer : WriteFunc W)
    (readFmt writeFmt errorFmt closeMsg : string) : LoggedIOProxy :=
  Generic proxiedObject
    (fun b =>
       discard (Fprintf Sprintf writer readFmt [ArgString (string_of_bytes (elems b))]))
    (fun b =>
       discard (Fprintf Sprintf writer writeFmt [ArgString (string_of_bytes (elems b))]))
    (fun location err =>
       discard (Fprintf Sprintf writer errorFmt [ArgString location; ArgError err]))
    (discard (Fprintf Sprintf writer "%v" [ArgString closeMsg])).

(** [func HexToWriter(...)] *)
Definition HexToWriter (proxiedObject : Object W) (writer : WriteFunc W)
    (readFmt writeFmt errorFmt closeMsg : string) : LoggedIOProxy :=
  Generic proxiedObject
    (fun b => discard (Fprintf Sprintf writer readFmt [ArgString (toHex (elems b))]))
    (fun b => discard (Fprintf Sprintf writer writeFmt [ArgString (toHex (elems b))]))
    (fun location err =>
       discard (Fprintf Sprintf writer errorFmt [ArgString location; ArgError err]))
    (discard (Fprintf Sprintf writer "%v" [ArgString closeMsg])).

End Package.
End LoggedioGo.

(* ===================================================================== *)
(** * src/unnamed/part_000: the test doubles *)
(* ===================================================================== *)

Module Mocks.

(** [byte(x)] for an [int] [x]: the low eight bits. *)
Definition byte_of_Z (x : Z) : byte :=
  match Byte.of_N (Z.to_N (x mod 256)) with
  | Some c => c
  | None => x00
  end.

(** [copy(dst, src)]: the first [min(len(dst), len(src))] elements of [dst]
    are overwritten. *)
Definition copy (dst : slice) (src : list byte) : slice :=
  let k := Nat.min (len dst) (List.length src) in
  mkSlice (firstn k src ++ skipn k (arr dst))%list (len dst).

(** [func generateBytes(length int) []byte]; [charRange] is ['z' - 'a']. *)
Definition generateBytes (length : Z) : list byte :=
  let charRange := 122 - 97 in
  map (fun i => byte_of_Z (Z.of_nat i mod charRange + 97))
      (seq 0 (Z.to_nat length)).

(** The range of an [int] (64 bits, two's complement) and [x++] on it, which
    wraps from the top of the range to the bottom. *)
Definition int_min : Z := -9223372036854775808.
Definition int_max : Z := 9223372036854775807.

Definition wrap_int (z : Z) : Z :=
  (z - int_min) mod 18446744073709551616 + int_min.

Definition incr (x : Z) : Z := wrap_int (x + 1).

(** [func generateError() error] *)
Definition generateError : error := Some "ERROR!"%string.

(** [type MockIO struct] *)
Record MockIO : Type := mkMockIO {
  WriteContents : list byte;
  CloseCallCount : Z;
  LocalAddrCallCount : Z;
  RemoteAddrCallCount : Z;
  SetDeadlineCallCount : Z;
  SetReadDeadlineCallCount : Z;
  SetWriteDeadlineCallCount : Z;
  FailAfterWriteByteCount : Z;
  FailAfterReadByteCount : Z;
  FailNextOperations : bool
}.

(** [&MockIO{}] *)
Definition MockIO_zero : MockIO := mkMockIO [] 0 0 0 0 0 0 0 0 false.

(** What a test run touches: the one [*MockIO] behind the proxied object, the
    [bytes.Buffer] the writer constructors print to, the lines handed to the
    standard logger, and the invocations seen by recording callbacks (each
    with the name of the proxy it was installed in). *)
Record World : Type := mkWorld {
  mock : MockIO;
  buffer : list byte;
  stdlog : list string;
  calls : list (string * report)
}.

Definition get_mock : M World MockIO := fun w => (Returned (mock w), w).

Definition set_mock (m : MockIO) : M World unit :=
  fun w => (Returned tt, mkWorld m (buffer w) (stdlog w) (calls w)).

(** [func (this *MockIO) Read(b []byte) (n int, err error)] *)
Definition MockIO_Read (b : slice) : M World (slice * Z * error) :=
  this <- get_mock ;;
  if FailNextOperations this then ret (b, 0, generateError)
  else
    let n := Z.of_nat (len b) in
    let n := if (n >=? FailAfterReadByteCount this) && (FailAfterReadByteCount this >? 0)
             then FailAfterReadByteCount this else n in
    let b := copy b (generateBytes n) in
    let err := if (n >=? FailAfterReadByteCount this) && (FailAfterReadByteCount this >? 0)
               then generateError else None in
    ret (b, n, err).

(** [func (this *MockIO) Write(b []byte) (n int, err error)] *)
Definition MockIO_Write (b : slice) : M World (Z * error) :=
  this <- get_mock ;;
  if FailNextOperations this then ret (0, generateError)
  else
    let n := Z.of_nat (len b) in
    let n := if (n >=? FailAfterWriteByteCount this) && (FailAfterWriteByteCount this >? 0)
             then FailAfterWriteByteCount this else n in
    b <- slice_to b n ;;
    set_mock (mkMockIO (WriteContents this ++ elems b)%list
                (CloseCallCount this) (LocalAddrCallCount this)
                (RemoteAddrCallCount this) (SetDeadlineCallCount this)
                (SetReadDeadlineCallCount this) (SetWriteDeadlineCallCount this)
                (FailAfterWriteByteCount this) (FailAfterReadByteCount this)
                (FailNextOperations this)) ;;
    let err := if (n >=? FailAfterWriteByteCount this) && (FailAfterWriteByteCount this >? 0)
               then generateError else None in
    ret (n, err).

(** [func (this *MockIO) Close() (err error)] *)
Definition MockIO_Close : M World error :=
  this <- get_mock ;;
  set_mock (mkMockIO (WriteContents this)
              (incr (CloseCallCount this)) (LocalAddrCallCount this)
              (RemoteAddrCallCount this) (SetDeadlineCallCount this)
              (SetReadDeadlineCallCount this) (SetWriteDeadlineCallCount this)
              (FailAfterWriteByteCount this) (FailAfterReadByteCount this)
              (FailNextOperations this)) ;;
  if FailNextOperations this then ret generateError else ret None.

(** [func (this *MockIO) LocalAddr() net.Addr] *)
Definition MockIO_LocalAddr : M World Addr :=
  this <- get_mock ;;
  set_mock (mkMockIO (WriteContents this)
              (CloseCallCount this) (incr (LocalAddrCallCount this))
              (RemoteAddrCallCount this) (SetDeadlineCallCount this)
              (SetReadDeadlineCallCount this) (SetWriteDeadlineCallCount this)
              (FailAfterWriteByteCount this) (FailAfterReadByteCount this)
              (FailNextOperations this)) ;;
  ret None.

(** [func (this *MockIO) RemoteAddr() net.Addr] *)
Definition MockIO_RemoteAddr : M World Addr :=
  this <- get_mock ;;
  set_mock (mkMockIO (WriteContents this)
              (CloseCallCount this) (LocalAddrCallCount this)
              (incr (RemoteAddrCallCount this)) (SetDeadlineCallCount this)
              (SetReadDeadlineCallCount this) (SetWriteDeadlineCallCount this)
              (FailAfterWriteByteCount this) (FailAfterReadByteCount this)
              (FailNextOperations this)) ;;
  ret None.

(** [func (this *MockIO) SetDeadline(t time.Time) (err error)] *)
Definition MockIO_SetDeadline (t : Time) : M World error :=
  this <- get_mock ;;
  set_mock (mkMockIO (WriteContents this)
              (CloseCallCount this) (LocalAddrCallCount this)
              (RemoteAddrCallCount this) (incr (SetDeadlineCallCount this))
              (SetReadDeadlineCallCount this) (SetWriteDeadlineCallCount this)
              (FailAfterWriteByteCount this) (FailAfterReadByteCount this)
              (FailNextOperations this)) ;;
  if FailNextOperations this then ret generateError else ret None.

(** [func (this *MockIO) SetReadDeadline(t time.Time) (err error)] *)
Definition MockIO_SetReadDeadline (t : Time) : M World error :=
  this <- get_mock ;;
  set_mock (mkMockIO (WriteContents this)
              (CloseCallCount this) (LocalAddrCallCount this)
              (RemoteAddrCallCount this) (SetDeadlineCallCount this)
              (incr (SetReadDeadlineCallCount this)) (SetWriteDeadlineCallCount this)
              (FailAfterWriteByteCount this) (FailAfterReadByteCount this)
              (FailNextOperations this)) ;;
  if FailNextOperations this then ret generateError else ret None.

(** [func (this *MockIO) SetWriteDeadline(t time.Time) (err error)] *)
Definition MockIO_SetWriteDeadline (t : Time) : M World error :=
  this <- get_mock ;;
  set_mock (mkMockIO (WriteContents this)
              (CloseCallCount this) (LocalAddrCallCount this)
              (RemoteAddrCallCount this) (SetDeadlineCallCount this)
              (SetReadDeadlineCallCount this) (incr (SetWriteDeadlineCallCount this))
              (FailAfterWriteByteCount this) (FailAfterReadByteCount this)
              (FailNextOperations this)) ;;
  if FailNextOperations this then ret generateError else ret None.

(** A [*MockIO] as an [interface{}]: all eight methods. *)
Definition MockIO_object : Object World :=
  mkObject (Some MockIO_Read) (Some MockIO_Write) (Some MockIO_Close)
    (Some MockIO_LocalAddr) (Some MockIO_RemoteAddr)
    (Some MockIO_SetDeadline) (Some MockIO_SetReadDeadline)
    (Some MockIO_SetWriteDeadline).

(** [&MockReader{implementation: ...}]: [Read] only. *)
Definition MockReader_object : Object World :=
  mkObject (Some MockIO_Read) None None None None None None None.

(** [&MockWriter{implementation: ...}]: [Write] only. *)
Definition MockWriter_object : Object World :=
  mkObject None (Some MockIO_Write) None None None None None None.

(** [&MockCloser{implementation: ...}]: [Close] only. *)
Definition MockCloser_object : Object World :=
  mkObject None None (Some MockIO_Close) None None None None None.

(** [func (this *NullWriter) Write(b []byte) (n int, err error) { return }] *)
Definition NullWriter_Write (b : slice) : M World (Z * error) := ret (0, None).

(** The [Write] of the test's [bytes.Buffer]: appends, never fails. *)
Definition Buffer_Write (b : slice) : M World (Z * error) :=
  fun w =>
    (Returned (Z.of_nat (len b), None),
     mkWorld (mock w) (buffer w ++ elems b)%list (stdlog w) (calls w)).

(** The standard logger, keeping the messages it is handed. *)
Definition Logger_Output (s : string) : M World unit :=
  fun w => (Returned tt, mkWorld (mock w) (buffer w) (stdlog w ++ [s])%list (calls w)).

(** Recording callbacks for [Generic]: each appends its invocation to
    [calls] under the proxy's [name]. *)
Definition record_call (name : string) (r : report) : M World unit :=
  fun w =>
    (Returned tt,
     mkWorld (mock w) (buffer w) (stdlog w) (calls w ++ [(name, r)])%list).

Definition recording (name : string) (o : Object World)
  : @Part001.LoggedIOProxy World :=
  Part001.Generic o
    (fun b => record_call name (ReportRead b))
    (fun b => record_call name (ReportWrite b))
    (fun location err => record_call name (ReportError location err))
    (record_call name ReportClose).

(** ** A formatter for the runs: the [%v] fragment of [fmt.Sprintf] *)

Definition arg_text (a : arg) : string :=
  match a with
  | ArgString s => s
  | ArgError (Some msg) => msg
  | ArgError None => "<nil>"
  end.

(** The operand's type as [fmt] names it; the errors of the runs are made by
    [fmt.Errorf] without wrapping. *)
Definition arg_type (a : arg) : string :=
  match a with
  | ArgString _ => "string"
  | ArgError (Some _) => "*errors.errorString"
  | ArgError None => "<nil>"
  end.

Definition typed (a : arg) : string :=
  match a with
  | ArgError None => "<nil>"
  | _ => arg_type a ++ "=" ++ arg_text a
  end.

(** Operands left over when the format ends. *)
Definition extra (a : list arg) : string :=
  match a with
  | [] => ""
  | _ => "%!(EXTRA " ++ String.concat ", " (map typed a) ++ ")"
  end.

(** Formats made of text, [%v], [%s] and [%%] are rendered as [fmt] renders
    them for string and error operands, including its [MISSING], [EXTRA] and
    [NOVERB] marks; any other verb is rendered as [fmt] renders a verb its
    operand does not support. Flags, widths and argument indexes are outside
    the fragment and do not occur in the runs. *)
Fixpoint Sprintf (format : string) (a : list arg) : string :=
  match format with
  | EmptyString => extra a
  | String "%" EmptyString => "%!(NOVERB)" ++ extra a
  | String "%" (String verb rest) =>
      if Ascii.eqb verb "%" then "%" ++ Sprintf rest a
      else
        match a with
        | [] => "%!" ++ String verb "(MISSING)" ++ Sprintf rest []
        | x :: a' =>
            if Ascii.eqb verb "v" || Ascii.eqb verb "s"
            then arg_text x ++ Sprintf rest a'
            else "%!" ++ String verb ("(" ++ typed x ++ ")") ++ Sprintf rest a'
        end
  | String c rest => String c (Sprintf rest a)
  end.

(** ** The states the runs start from *)

(** A fresh [&MockIO{}], an empty buffer, an empty log, nothing recorded. *)
Definition fresh : World := mkWorld MockIO_zero [] [] [].

(** [&MockIO{FailNextOperations: true}] *)
Definition failing : World :=
  mkWorld (mkMockIO [] 0 0 0 0 0 0 0 0 true) [] [] [].

(** [&MockIO{FailAfterReadByteCount: 2}] *)
Definition short_reads : World :=
  mkWorld (mkMockIO [] 0 0 0 0 0 0 0 2 false) [] [] [].

(** [&MockIO{FailAfterWriteByteCount: 2}] *)
Definition short_writes : World :=
  mkWorld (mkMockIO [] 0 0 0 0 0 0 2 0 false) [] [] [].

(** The [net.Conn] a [*MockIO] is. *)
Definition MockIO_conn : Conn World :=
  mkConn MockIO_Read MockIO_Write MockIO_Close MockIO_LocalAddr
    MockIO_RemoteAddr MockIO_SetDeadline MockIO_SetReadDeadline
    MockIO_SetWriteDeadline.

(** [[]byte("test")] and [[]byte("Testing")] *)
Definition test_bytes : slice := slice_of (bytes_of_string "test").
Definition Testing_bytes : slice := slice_of (bytes_of_string "Testing").

(** The chain of the README (its templates without the line ends): a
    string-mode proxy around the target, a hex-mode proxy around that, both
    printing to the same writer. *)
Definition stringProxy : @Part001.LoggedIOProxy World :=
  Part001.StringToWriter Sprintf MockIO_object Buffer_Write
    "RS [%v]" "WS [%v]" "E [%v: %v]" "C".
Definition hexProxy : @Part001.LoggedIOProxy World :=
  Part001.HexToWriter Sprintf (Part001.as_Object stringProxy) Buffer_Write
    "RH [%v]" "WH [%v]" "" "".

(** The proxy of [TestWrongInterface] around [intf]:
    [StringToWriter(intf, nullWriter, "%v", "%v", "%v", "")]. *)
Definition TestWrongInterface_logged (intf : Object World)
  : @Part001.LoggedIOProxy World :=
  Part001.StringToWriter Sprintf intf NullWriter_Write "%v" "%v" "%v" "".

End Mocks.

(* ===================================================================== *)
(** * Vocabulary of the statements *)
(* ===================================================================== *)

(** The two digits [toHex] writes for one byte. *)
Definition hex_hi (c : byte) : byte := at_index hexDigits (Z.shiftr (byte_val c) 4).
Definition hex_lo (c : byte) : byte := at_index hexDigits (Z.land (byte_val c) 15).

(** What the loop of [toHex] appends for the bytes still to visit. *)
Fixpoint loop_output (rest : list byte) : list byte :=
  match rest with
  | [] => []
  | c :: tl =>
      hex_hi c :: hex_lo c ::
        match tl with
        | [] => []
        | _ :: _ => " "%byte :: loop_output tl
        end
  end.

(** [b[0:n]] for [0 <= n <= cap(b)]: the same backing array, [n] elements. *)
Definition slice_prefix (b : slice) (n : Z) : slice := mkSlice (arr b) (Z.to_nat n).

Section Invocations.
Context {W : Type}.

(** Calling the callback of [this] that a report names. *)
Definition invoke (this : @Part001.LoggedIOProxy W) (r : report) : M W unit :=
  match r with
  | ReportRead b => Part001.reportReadEvent this b
  | ReportWrite b => Part001.reportWriteEvent this b
  | ReportError location err => Part001.reportErrorEvent this location err
  | ReportClose => Part001.reportCloseEvent this
  end.

(** Calling the callbacks for a list of reports, first to last; a callback
    that panics ends the sequence. *)
Fixpoint invoke_all (this : @Part001.LoggedIOProxy W) (rs : list report) : M W unit :=
  match rs with
  | [] => ret tt
  | r :: rs' => invoke this r ;; invoke_all this rs'
  end.

End Invocations.

(** ** Reading a hex dump back *)

(** The byte two lowercase hex digits stand for. *)
Definition byte_of_hex_digits (h l : ascii) : option byte :=
  match hex_digit_value h, hex_digit_value l with
  | Some x, Some y => Byte.of_N (16 * x + y)
  | _, _ => None
  end.

(** The bytes of a dump in the format of [toHex]: two-digit groups, one
    space between two groups, nothing before the first or after the last. *)
Fixpoint fromHex (s : string) : option (list byte) :=
  match s with
  | EmptyString => Some []
  | String h (String l rest) =>
      match byte_of_hex_digits h l with
      | None => None
      | Some c =>
          match rest with
          | EmptyString => Some [c]
          | String sep rest' =>
              if Ascii.eqb sep " " then
                match rest' with
                | EmptyString => None
                | String _ _ => option_map (cons c) (fromHex rest')
                end
              else None
          end
      end
  | String _ EmptyString => None
  end.

(** ** Doubles that break the interfaces' contracts *)

Module Doubles.

(** A reader and a writer that claim one byte more than the buffer's
    capacity. *)
Definition Greedy_Read (b : slice) : M Mocks.World (slice * Z * error) :=
  ret (b, Z.of_nat (cap b) + 1, None).

Definition Greedy_Write (b : slice) : M Mocks.World (Z * error) :=
  ret (Z.of_nat (cap b) + 1, None).

Definition Greedy_object : Object Mocks.World :=
  mkObject (Some Greedy_Read) (Some Greedy_Write) None None None None None None.

(** A connection whose every method panics. *)
Definition Broken_object : Object Mocks.World :=
  mkObject (Some (fun _ => throw (PanicValue "boom")))
    (Some (fun _ => throw (PanicValue "boom")))
    (Some (throw (PanicValue "boom")))
    (Some (throw (PanicValue "boom")))
    (Some (throw (PanicValue "boom")))
    (Some (fun _ => throw (PanicValue "boom")))
    (Some (fun _ => throw (PanicValue "boom")))
    (Some (fun _ => throw (PanicValue "boom"))).

(** A proxy whose data and close callbacks panic and whose error callback
    records. *)
Definition fragile (o : Object Mocks.World) : @Part001.LoggedIOProxy Mocks.World :=
  Part001.Generic o
    (fun _ => throw (PanicValue "read callback"))
    (fun _ => throw (PanicValue "write callback"))
    (fun location err => Mocks.record_call "fragile" (ReportError location err))
    (throw (PanicValue "close callback")).

(** A writer that takes nothing and fails. *)
Definition Full_Write (b : slice) : M Mocks.World (Z * error) :=
  ret (0, Some "disk full"%string).

End Doubles.

(** A proxy whose four callbacks are the no-ops. *)
Definition quiet {W : Type} (this : @Part001.LoggedIOProxy W) : Prop :=
  Part001.reportReadEvent this = (fun _ => ret tt)
  /\ Part001.reportWriteEvent this = (fun _ => ret tt)
  /\ Part001.reportErrorEvent this = (fun _ _ => ret tt)
  /\ Part001.reportCloseEvent this = ret tt.

(** The line the dump constructors send to the notify writer for an error at
    a location: nothing for a nil error or an empty error template. *)
Definition notification {W : Type} (Sprintf : string -> list arg -> string)
    (notifyWriter : WriteFunc W) (errorFmt location : string) (err : error)
  : M W unit :=
  if is_nil err || String.eqb errorFmt "" then ret tt
  else Part001.discard
         (notifyWriter
            (slice_of (bytes_of_string
                         (Sprintf errorFmt [ArgString location; ArgError err])))).

(** One formatted line sent to a sink, its result dropped; nothing for an
    empty template. *)
Definition print {W : Type} (Sprintf : string -> list arg -> string)
    (sink : WriteFunc W) (format : string) (a : list arg) : M W unit :=
  if String.eqb format "" then ret tt
  else Part001.discard (Fprintf Sprintf sink format a).

(** The same for an error, if there is one. *)
Definition print_error {W : Type} (Sprintf : string -> list arg -> string)
    (sink : WriteFunc W) (errorFmt location : string) (err : error) : M W unit :=
  if is_nil err then ret tt
  else print Sprintf sink errorFmt [ArgString location; ArgError err].

(** A proxy of [src/loggedio.go] and a proxy of [src/unnamed/part_001] whose
    eight operations are the same computations. *)
Definition same_operations {W : Type} (old : @LoggedioGo.LoggedIOProxy W)
    (new : @Part001.LoggedIOProxy W) : Prop :=
  (forall b, LoggedioGo.Read old b = Part001.Read new b)
  /\ (forall b, LoggedioGo.Write old b = Part001.Write new b)
  /\ LoggedioGo.Close old = Part001.Close new
  /\ LoggedioGo.LocalAddr old = Part001.LocalAddr new
  /\ LoggedioGo.RemoteAddr old = Part001.RemoteAddr new
  /\ (forall t, LoggedioGo.SetDeadline old t = Part001.SetDeadline new t)
  /\ (forall t, LoggedioGo.SetReadDeadline old t = Part001.SetReadDeadline new t)
  /\ (forall t, LoggedioGo.SetWriteDeadline old t = Part001.SetWriteDeadline new t).

(** ** A file system for the runs of [DumpToFiles] *)

Module Files.

(** Where a byte written by a dump ends up. *)
Inductive handle : Type :=
| Stdout
| Stderr
| File (name : string).

(** What [DumpToFiles] and its proxy can touch: the paths [os.Create] was
    called with, the lines handed to the standard logger, and the writes
    made to the standard streams and to created files. *)
Record World : Type := mkWorld {
  attempts : list string;
  warnings : list string;
  journal : list (handle * list byte)
}.

(** [Write] on a standard stream or on a created file: takes all bytes. *)
Definition handle_Write (h : handle) (b : slice) : M World (Z * error) :=
  fun w =>
    (Returned (Z.of_nat (len b), None),
     mkWorld (attempts w) (warnings w) (journal w ++ [(h, elems b)])%list).

(** [ioutil.Discard]: takes all bytes, keeps none. *)
Definition Discard_Write (b : slice) : M World (Z * error) :=
  ret (Z.of_nat (len b), None).

(** [Write] on the nil [*os.File] that [os.Create] returns beside an error. *)
Definition nil_File_Write (b : slice) : M World (Z * error) :=
  ret (0, Some "invalid argument"%string).

Definition create_error (name : string) : error :=
  Some ("open " ++ name ++ ": permission denied")%string.

(** [os.Create] where [creatable] says which paths can be created. *)
Definition Create (creatable : string -> bool) (name : string)
  : M World (WriteFunc World * error) :=
  fun w =>
    let w' := mkWorld (attempts w ++ [name])%list (warnings w) (journal w) in
    if creatable name
    then (Returned (handle_Write (File name), None), w')
    else (Returned (nil_File_Write, create_error name), w').

(** The standard logger. *)
Definition Output (s : string) : M World unit :=
  fun w => (Returned tt, mkWorld (attempts w) (warnings w ++ [s])%list (journal w)).

(** For the runs: paths under [/ro/] cannot be created, and a reader that
    fills three bytes. *)
Definition outside_ro (name : string) : bool :=
  negb (String.prefix "/ro/" name).

Definition three_bytes_Read (b : slice) : M World (slice * Z * error) :=
  ret (Mocks.copy b (Mocks.generateBytes 3), 3, None).

Definition three_bytes_object : Object World :=
  mkObject (Some three_bytes_Read) None None None None None None None.

(** Nothing created, logged or written yet. *)
Definition untouched : World := mkWorld [] [] [].

End Files.

(** The three names [writerForFile] does not take for paths. *)
Definition special_name (filename : string) : bool :=
  String.eqb filename "stdout" || String.eqb filename "stderr"
  || String.eqb filename "null".

(** The writer a file name stands for, given which paths can be created. *)
Definition writer_named (creatable : string -> bool) (filename : string)
  : WriteFunc Files.World :=
  if String.eqb filename "stdout" then Files.handle_Write Files.Stdout
  else if String.eqb filename "stderr" then Files.handle_Write Files.Stderr
  else if String.eqb filename "null" then Files.Discard_Write
  else if creatable filename then Files.handle_Write (Files.File filename)
  else Files.Discard_Write.

(** The paths among [names] that are created, and the warnings logged for
    those that cannot be. *)
Definition created_paths (names : list string) : list string :=
  filter (fun f => negb (special_name f)) names.

Definition creation_warnings (Sprintf : string -> list arg -> string)
    (creatable : string -> bool) (names : list string) : list string :=
  map (fun f => Sprintf "LoggedIO: Error creating %v: %v"%string
                  [ArgString f; ArgError (Files.create_error f)])
      (filter (fun f => negb (special_name f) && negb (creatable f)) names).

(** Where the bytes sent to the writer of a file name end up: nowhere for
    ["null"] and for a path that cannot be created. *)
Definition lands_in (creatable : string -> bool) (filename : string)
  : option Files.handle :=
  if String.eqb filename "stdout" then Some Files.Stdout
  else if String.eqb filename "stderr" then Some Files.Stderr
  else if String.eqb filename "null" then None
  else if creatable filename then Some (Files.File filename)
  else None.

(** [DumpToFiles] on this file system. *)
Definition DumpToFiles_on (Sprintf : string -> list arg -> string)
    (creatable : string -> bool) (o : Object Files.World)
    (readFilename writeFilename notifyFilename errorFmt closeMsg : string)
  : M Files.World (@Part001.LoggedIOProxy Files.World) :=
  Part001.DumpToFiles Sprintf Files.Output
    (Files.handle_Write Files.Stdout) (Files.handle_Write Files.Stderr)
    Files.Discard_Write (Files.Create creatable)
    o readFilename writeFilename notifyFilename errorFmt closeMsg.

(** One formatted line handed to the logger; nothing for an empty
    template. *)
Definition log_line {W : Type} (Sprintf : string -> list arg -> string)
    (Output : string -> M W unit) (format : string) (a : list arg) : M W unit :=
  if String.eqb format "" then ret tt else Output (Sprintf format a).

(** The same for an error, if there is one. *)
Definition log_error {W : Type} (Sprintf : string -> list arg -> string)
    (Output : string -> M W unit) (errorFmt location : string) (err : error)
  : M W unit :=
  if is_nil err then ret tt
  else log_line Sprintf Output errorFmt [ArgString location; ArgError err].

(** The six call counters of a [MockIO], in the order [Close], [LocalAddr],
    [RemoteAddr], [SetDeadline], [SetReadDeadline], [SetWriteDeadline]. *)
Definition call_counts (m : Mocks.MockIO) : list Z :=
  [Mocks.CloseCallCount m; Mocks.LocalAddrCallCount m;
   Mocks.RemoteAddrCallCount m; Mocks.SetDeadlineCallCount m;
   Mocks.SetReadDeadlineCallCount m; Mocks.SetWriteDeadlineCallCount m].

(** The callbacks of [this] do not touch the mock behind the proxy. *)
Definition leaves_mock_alone (this : @Part001.LoggedIOProxy Mocks.World) : Prop :=
  forall (r : report) (w : Mocks.World),
    Mocks.mock (snd (invoke this r w)) = Mocks.mock w.

(** The four callbacks of [this] return, from every state and on every
    argument: none of them panics. *)
Definition callbacks_return {W : Type} (this : @Part001.LoggedIOProxy W) : Prop :=
  forall (r : report) (w : W), exists w', invoke this r w = (Returned tt, w').

(** ** Proof steps *)

(** Case analysis on every call whose result the goal inspects. *)
Ltac by_cases_on_calls :=
  repeat match goal with
         | |- context [match ?c ?w with (_, _) => _ end] =>
             destruct (c w) as [[[]|?] ?]
         | |- context [match ?c ?w with (_, _) => _ end] =>
             destruct (c w) as [[?|?] ?]
         end.

Ltac run_callbacks :=
  cbn [invoke_all invoke app when negb is_nil];
  unfold bind, ret; by_cases_on_calls; reflexivity.

(** Case analysis on every call whose result a hypothesis inspects. *)
Ltac invert_run H :=
  repeat match type of H with
         | context [match ?c ?w with (_, _) => _ end] =>
             let r := fresh "r" in
             let w' := fresh "w" in
             destruct (c w) as [[r|?] w'] eqn:?; cbn [ret] in H
         | context [if ?c then _ else _] => destruct c eqn:?; cbn [ret] in H
         end;
  try discriminate H.

(* ===================================================================== *)
(** * toHex *)
(* ===================================================================== *)

Lemma string_of_bytes_app (a b : list byte) :
  string_of_bytes (a ++ b) = (string_of_bytes a ++ string_of_bytes b)%string.
Proof.
  unfold string_of_bytes, string_of_list_byte.
  induction a as [|x a IH]; simpl; [reflexivity | now rewrite IH].
Qed.

(** Both index expressions of [toHex] into [hexDigits] stay below 16. *)
Lemma toHex_indices_in_range (c : byte) :
  0 <= Z.shiftr (byte_val c) 4 < 16 /\ 0 <= Z.land (byte_val c) 15 < 16.
Proof. destruct c; vm_compute; repeat split; congruence. Qed.

Lemma hex_digits_of_byte (c : byte) :
  string_of_bytes [hex_hi c; hex_lo c] = hex_pair c.
Proof. destruct c; reflexivity. Qed.

Lemma hex_pair_reads_back (c : byte) :
  hex_pair_value (hex_pair c) = Some (Byte.to_N c).
Proof. destruct c; reflexivity. Qed.

Lemma toHex_loop_output (rest : list byte) :
  forall (pre acc : list byte) (fuel : nat),
    (List.length rest < fuel)%nat ->
    toHex_loop fuel (pre ++ rest) (Z.of_nat (List.length pre)) acc
    = (acc ++ loop_output rest)%list.
Proof.
  induction rest as [|c tl IH]; intros pre acc fuel Hfuel.
  - destruct fuel as [|fuel]; [simpl in Hfuel; lia|].
    simpl. rewrite !app_nil_r.
    destruct (Z.ltb_spec (Z.of_nat (List.length pre)) (Z.of_nat (List.length pre)));
      [lia | reflexivity].
  - destruct fuel as [|fuel]; [simpl in Hfuel; lia|].
    cbn [toHex_loop].
    assert (Hlen : List.length (pre ++ c :: tl) = (List.length pre + S (List.length tl))%nat)
      by (rewrite length_app; reflexivity).
    rewrite Hlen.
    destruct (Z.ltb_spec (Z.of_nat (List.length pre))
                (Z.of_nat (List.length pre + S (List.length tl)))) as [_|Hge]; [|lia].
    assert (Hch : at_index (pre ++ c :: tl) (Z.of_nat (List.length pre)) = c).
    { unfold at_index. rewrite Nat2Z.id. apply nth_middle. }
    rewrite Hch.
    assert (Hstep : (pre ++ c :: tl = (pre ++ [c]) ++ tl)%list)
      by (rewrite <- app_assoc; reflexivity).
    assert (Hi : Z.of_nat (List.length pre) + 1 = Z.of_nat (List.length (pre ++ [c])))
      by (rewrite length_app; simpl; lia).
    assert (Hlast : (Z.of_nat (List.length pre)
                     <? Z.of_nat (List.length pre + S (List.length tl)) - 1)
                    = match tl with [] => false | _ :: _ => true end).
    { destruct tl; simpl List.length; [apply Z.ltb_ge | apply Z.ltb_lt]; lia. }
    rewrite Hlast, Hstep, Hi.
    rewrite (IH (pre ++ [c])%list _ fuel) by (simpl in Hfuel; lia).
    unfold WriteByte, hex_hi, hex_lo.
    destruct tl as [|d tl']; cbn [loop_output]; rewrite <- !app_assoc; reflexivity.
Qed.

Lemma loop_output_groups (b : list byte) :
  string_of_bytes (loop_output b) = hex_groups b.
Proof.
  unfold hex_groups.
  induction b as [|c tl IH]; [reflexivity|].
  change (loop_output (c :: tl))
    with ([hex_hi c; hex_lo c]
          ++ match tl with [] => [] | _ :: _ => " "%byte :: loop_output tl end)%list.
  rewrite string_of_bytes_app, hex_digits_of_byte.
  destruct tl as [|d tl'].
  - reflexivity.
  - change (" "%byte :: loop_output (d :: tl'))
      with ([" "%byte] ++ loop_output (d :: tl'))%list.
    rewrite string_of_bytes_app, IH. reflexivity.
Qed.

Lemma string_length_app (a b : string) :
  String.length (a ++ b) = (String.length a + String.length b)%nat.
Proof. induction a as [|x a IH]; simpl; [reflexivity | now rewrite IH]. Qed.

Lemma hex_groups_length (b : list byte) :
  String.length (hex_groups b) = (3 * List.length b - 1)%nat.
Proof.
  unfold hex_groups.
  induction b as [|c tl IH]; [reflexivity|].
  destruct tl as [|d tl'].
  - reflexivity.
  - change (String.concat " " (map hex_pair (c :: d :: tl')))
      with (hex_pair c ++ " " ++ String.concat " " (map hex_pair (d :: tl')))%string.
    rewrite !string_length_app, IH. simpl. lia.
Qed.

(** C8. [toHex] renders [{0x01, 0x02, 0xAE, 0xF1}] as ["01 02 ae f1"]; for
    every byte sequence the result is one group per byte, the groups joined
    by single spaces with none after the last (so [3 * len - 1] characters,
    and the empty string for no bytes); each group is two lowercase hex
    digits, high nibble first, that read back as the byte. *)
Theorem toHex_lowercase_space_separated :
  toHex [x01; x02; xae; xf1] = "01 02 ae f1"%string
  /\ toHex [] = ""%string
  /\ (forall b : list byte,
        toHex b = String.concat " " (map hex_pair b)
        /\ String.length (toHex b) = (3 * List.length b - 1)%nat)
  /\ (forall c : byte,
        exists hi lo : ascii,
          hex_pair c = String hi (String lo EmptyString)
          /\ hex_digit_value hi = Some (Byte.to_N c / 16)%N
          /\ hex_digit_value lo = Some (Byte.to_N c mod 16)%N).
Proof.
  assert (Hall : forall b, toHex b = hex_groups b).
  { intro b. unfold toHex.
    change (toHex_loop (S (List.length b)) b 0 [])
      with (toHex_loop (S (List.length b)) ([] ++ b) (Z.of_nat (@List.length byte [])) []).
    rewrite toHex_loop_output by lia.
    apply loop_output_groups. }
  split; [reflexivity|].
  split; [reflexivity|].
  split.
  - intro b. split.
    + apply Hall.
    + rewrite Hall. apply hex_groups_length.
  - intro c. destruct c; (do 2 eexists); repeat split; reflexivity.
Qed.

(* ===================================================================== *)
(** * Slices *)
(* ===================================================================== *)

Lemma slice_to_in_range {W : Type} (b : slice) (n : Z) :
  0 <= n <= Z.of_nat (cap b) ->
  @slice_to W b n = ret (slice_prefix b n).
Proof.
  intros [Hlo Hhi]. unfold slice_to.
  destruct (Z.leb_spec 0 n); [|lia].
  destruct (Z.leb_spec n (Z.of_nat (cap b))); [|lia].
  reflexivity.
Qed.

Lemma slice_to_out_of_range {W : Type} (b : slice) (n : Z) :
  Z.of_nat (cap b) < n ->
  @slice_to W b n = throw (SliceBoundsOutOfRange n (cap b)).
Proof.
  intros Hhi. unfold slice_to.
  destruct (Z.leb_spec n (Z.of_nat (cap b))); [lia|].
  now rewrite andb_false_r.
Qed.

Lemma slice_prefix_len (b : slice) (n : Z) :
  len (slice_prefix b n) = Z.to_nat n.
Proof. reflexivity. Qed.

Lemma slice_prefix_elems (b : slice) (n : Z) :
  n <= Z.of_nat (len b) ->
  elems (slice_prefix b n) = firstn (Z.to_nat n) (elems b).
Proof.
  intros Hn. unfold elems, slice_prefix. simpl.
  rewrite firstn_firstn. f_equal. lia.
Qed.

Lemma slice_prefix_nonempty (b : slice) (n : Z) :
  n <= Z.of_nat (cap b) -> 0 < n -> elems (slice_prefix b n) <> [].
Proof.
  intros Hcap Hpos H. apply (f_equal (@List.length byte)) in H.
  unfold elems, slice_prefix, cap in *. simpl in H.
  rewrite length_firstn in H. lia.
Qed.

Lemma slice_prefix_shorter (b : slice) (n : Z) :
  0 < n < Z.of_nat (len b) -> slice_prefix b n <> b.
Proof.
  intros [Hpos Hlt] H. apply (f_equal len) in H. simpl in H. lia.
Qed.

(* ===================================================================== *)
(** * Read, Write, Close and the deadlines (part_001) *)
(* ===================================================================== *)

Lemma bind_run {W A B : Type} (c : M W A) (k : A -> M W B) (w : W) :
  bind c k w
  = match c w with
    | (Returned a, w') => k a w'
    | (Panicked p, w') => (Panicked p, w')
    end.
Proof. reflexivity. Qed.

(** What [Write] does once the target's [Write] has returned. *)
Lemma Write_after_target {W : Type} (this : @Part001.LoggedIOProxy W)
    (b : slice) (n : Z) (err : error) (w : W) :
  n <= Z.of_nat (cap b) ->
  (when (n >? 0) (s <- slice_to b n ;; Part001.reportWriteEvent this s) ;;
   when (negb (is_nil err)) (Part001.reportErrorEvent this "Write()" err) ;;
   ret (n, err)) w
  = (invoke_all this
       ((if n >? 0 then [ReportWrite (slice_prefix b n)] else [])
        ++ (if is_nil err then [] else [ReportError "Write()" err])) ;;
     ret (n, err)) w.
Proof.
  intros Hcap.
  destruct (Z.gtb_spec n 0) as [Hpos|Hnpos].
  - cbn [when]. rewrite slice_to_in_range by lia.
    destruct err; run_callbacks.
  - destruct err; run_callbacks.
Qed.

Lemma Write_run {W : Type} (this : @Part001.LoggedIOProxy W) (writer : WriteFunc W)
    (b : slice) (n : Z) (err : error) (w w' : W) :
  method_Write (Part001.proxiedObject this) = Some writer ->
  writer b w = (Returned (n, err), w') ->
  n <= Z.of_nat (cap b) ->
  Part001.Write this b w
  = (invoke_all this
       ((if n >? 0 then [ReportWrite (slice_prefix b n)] else [])
        ++ (if is_nil err then [] else [ReportError "Write()" err])) ;;
     ret (n, err)) w'.
Proof.
  intros Hmethod Hcall Hcap.
  unfold Part001.Write, assert_Writer. rewrite Hmethod.
  unfold bind at 1 2. cbn [ret]. rewrite Hcall.
  now apply Write_after_target.
Qed.

Lemma Read_after_target {W : Type} (this : @Part001.LoggedIOProxy W)
    (b : slice) (n : Z) (err : error) (w : W) :
  n <= Z.of_nat (cap b) ->
  (when (n >? 0) (s <- slice_to b n ;; Part001.reportReadEvent this s) ;;
   when (negb (is_nil err)) (Part001.reportErrorEvent this "Read()" err) ;;
   ret (b, n, err)) w
  = (invoke_all this
       ((if n >? 0 then [ReportRead (slice_prefix b n)] else [])
        ++ (if is_nil err then [] else [ReportError "Read()" err])) ;;
     ret (b, n, err)) w.
Proof.
  intros Hcap.
  destruct (Z.gtb_spec n 0) as [Hpos|Hnpos].
  - cbn [when]. rewrite slice_to_in_range by lia.
    destruct err; run_callbacks.
  - destruct err; run_callbacks.
Qed.

Lemma Read_run {W : Type} (this : @Part001.LoggedIOProxy W) (reader : ReadFunc W)
    (b b' : slice) (n : Z) (err : error) (w w' : W) :
  method_Read (Part001.proxiedObject this) = Some reader ->
  reader b w = (Returned (b', n, err), w') ->
  n <= Z.of_nat (cap b') ->
  Part001.Read this b w
  = (invoke_all this
       ((if n >? 0 then [ReportRead (slice_prefix b' n)] else [])
        ++ (if is_nil err then [] else [ReportError "Read()" err])) ;;
     ret (b', n, err)) w'.
Proof.
  intros Hmethod Hcall Hcap.
  unfold Part001.Read, assert_Reader. rewrite Hmethod.
  unfold bind at 1 2. cbn [ret]. rewrite Hcall.
  now apply Read_after_target.
Qed.

Lemma Close_after_target {W : Type} (this : @Part001.LoggedIOProxy W)
    (err : error) (w : W) :
  (Part001.reportCloseEvent this ;;
   when (negb (is_nil err)) (Part001.reportErrorEvent this "Close()" err) ;;
   ret err) w
  = (invoke_all this
       (ReportClose :: (if is_nil err then [] else [ReportError "Close()" err])) ;;
     ret err) w.
Proof. destruct err; run_callbacks. Qed.

Lemma Close_run {W : Type} (this : @Part001.LoggedIOProxy W) (closer : CloseFunc W)
    (err : error) (w w' : W) :
  method_Close (Part001.proxiedObject this) = Some closer ->
  closer w = (Returned err, w') ->
  Part001.Close this w
  = (invoke_all this
       (ReportClose :: (if is_nil err then [] else [ReportError "Close()" err])) ;;
     ret err) w'.
Proof.
  intros Hmethod Hcall.
  unfold Part001.Close, assert_Closer. rewrite Hmethod.
  unfold bind at 1 2. cbn [ret]. rewrite Hcall.
  apply Close_after_target.
Qed.

Lemma deadline_run {W : Type} (this : @Part001.LoggedIOProxy W) (conn : Conn W)
    (t : Time) (w : W) :
  as_Conn (Part001.proxiedObject this) = Some conn ->
  (forall err w', conn_SetDeadline conn t w = (Returned err, w') ->
     Part001.SetDeadline this t w
     = (invoke_all this
          (if is_nil err then [] else [ReportError "SetDeadline()" err]) ;;
        ret err) w')
  /\ (forall err w', conn_SetReadDeadline conn t w = (Returned err, w') ->
     Part001.SetReadDeadline this t w
     = (invoke_all this
          (if is_nil err then [] else [ReportError "SetReadDeadline()" err]) ;;
        ret err) w')
  /\ (forall err w', conn_SetWriteDeadline conn t w = (Returned err, w') ->
     Part001.SetWriteDeadline this t w
     = (invoke_all this
          (if is_nil err then [] else [ReportError "SetWriteDeadline()" err]) ;;
        ret err) w').
Proof.
  intros Hconn.
  repeat split; intros err w' Hcall.
  - unfold Part001.SetDeadline, assert_Conn. rewrite Hconn.
    unfold bind at 1 2. cbn [ret]. rewrite Hcall.
    destruct err; run_callbacks.
  - unfold Part001.SetReadDeadline, assert_Conn. rewrite Hconn.
    unfold bind at 1 2. cbn [ret]. rewrite Hcall.
    destruct err; run_callbacks.
  - unfold Part001.SetWriteDeadline, assert_Conn. rewrite Hconn.
    unfold bind at 1 2. cbn [ret]. rewrite Hcall.
    destruct err; run_callbacks.
Qed.

(** Callbacks that return, return one after the other. *)
Lemma invoke_all_returns {W : Type} (this : @Part001.LoggedIOProxy W)
    (rs : list report) :
  callbacks_return this ->
  forall w, exists w', invoke_all this rs w = (Returned tt, w').
Proof.
  intros Hcb. induction rs as [|r rs IH]; intros w.
  - exists w. reflexivity.
  - cbn [invoke_all]. rewrite bind_run.
    destruct (Hcb r w) as [w1 H1]. rewrite H1. apply IH.
Qed.

Lemma reports_then_return_when_callbacks_return {W A : Type}
    (this : @Part001.LoggedIOProxy W) (rs : list report) (x : A) (w : W) :
  callbacks_return this ->
  exists w', (invoke_all this rs ;; ret x) w = (Returned x, w').
Proof.
  intros Hcb. rewrite bind_run.
  destruct (invoke_all_returns this rs Hcb w) as [w' H]. rewrite H.
  exists w'. reflexivity.
Qed.

(** C1. [Read] on a proxy whose target has a [Read] method hands the caller's
    buffer to it (once); when it returns [n] bytes (within the buffer's
    capacity, as the runtime requires of [b[:n]]) and [err], the proxy calls
    [reportReadEvent] with [b[0:n]] exactly when [n > 0], then
    [reportErrorEvent] with ["Read()"] and [err] exactly when [err] is not
    nil, and returns [n] and [err] as the target gave them. The reported
    slice has [n] elements, the first [n] of the buffer as the target left
    it: it is never empty, and it is not the whole buffer when [n] is less
    than the buffer's length. *)
Theorem Read_reports_bytes_then_error :
  forall (W : Type) (this : @Part001.LoggedIOProxy W) (reader : ReadFunc W)
         (b b' : slice) (n : Z) (err : error) (w w' : W),
    method_Read (Part001.proxiedObject this) = Some reader ->
    reader b w = (Returned (b', n, err), w') ->
    n <= Z.of_nat (cap b') ->
    Part001.Read this b w
    = (invoke_all this
         ((if n >? 0 then [ReportRead (slice_prefix b' n)] else [])
          ++ (if is_nil err then [] else [ReportError "Read()" err])) ;;
       ret (b', n, err)) w'
    /\ len (slice_prefix b' n) = Z.to_nat n
    /\ (n <= Z.of_nat (len b') ->
        elems (slice_prefix b' n) = firstn (Z.to_nat n) (elems b'))
    /\ (0 < n -> elems (slice_prefix b' n) <> [])
    /\ (0 < n < Z.of_nat (len b') -> slice_prefix b' n <> b').
Proof.
  intros W this reader b b' n err w w' Hmethod Hcall Hcap.
  split; [|split; [reflexivity|split; [apply slice_prefix_elems|split]]];
    [| intros Hpos; now apply slice_prefix_nonempty
     | intros Hlt; now apply slice_prefix_shorter].
  unfold Part001.Read, assert_Reader. rewrite Hmethod.
  unfold bind at 1 2. cbn [ret]. rewrite Hcall.
  destruct (Z.gtb_spec n 0) as [Hpos|Hnpos].
  - rewrite slice_to_in_range by lia.
    destruct err; run_callbacks.
  - destruct err; run_callbacks.
Qed.

(** A run of C1: the target stores two bytes into a three-byte buffer and
    fails; the read callback sees ["ab"], then the error callback runs. *)
Lemma Read_reports_bytes_then_error_witness :
  Part001.Read (Mocks.recording "p" Mocks.MockIO_object)
    (slice_of [x00; x00; x00]) Mocks.short_reads
  = (Returned (mkSlice ["a"%byte; "b"%byte; x00] 3, 2, Some "ERROR!"%string),
     Mocks.mkWorld (Mocks.mock Mocks.short_reads) [] []
       [("p"%string, ReportRead (mkSlice ["a"%byte; "b"%byte; x00] 2));
        ("p"%string, ReportError "Read()" (Some "ERROR!"%string))])
  /\ elems (mkSlice ["a"%byte; "b"%byte; x00] 2) = ["a"%byte; "b"%byte].
Proof.
  destruct (Read_reports_bytes_then_error Mocks.World
              (Mocks.recording "p" Mocks.MockIO_object) Mocks.MockIO_Read
              (slice_of [x00; x00; x00]) (mkSlice ["a"%byte; "b"%byte; x00] 3)
              2 (Some "ERROR!"%string) Mocks.short_reads Mocks.short_reads
              eq_refl eq_refl ltac:(vm_compute; discriminate))
    as [Hrun [_ [Helems _]]].
  split.
  - rewrite Hrun. reflexivity.
  - apply Helems. vm_compute. discriminate.
Defined.

(** C2. [Write] on a proxy whose target has a [Write] method hands the data
    to it (once); when it returns [n] (within the capacity of the data) and
    [err], the proxy calls [reportWriteEvent] with the prefix [b[0:n]]
    exactly when [n > 0], then [reportErrorEvent] with ["Write()"] and [err]
    exactly when [err] is not nil, and returns [n] and [err] unchanged. *)
Theorem Write_reports_prefix_then_error :
  forall (W : Type) (this : @Part001.LoggedIOProxy W) (writer : WriteFunc W)
         (b : slice) (n : Z) (err : error) (w w' : W),
    method_Write (Part001.proxiedObject this) = Some writer ->
    writer b w = (Returned (n, err), w') ->
    n <= Z.of_nat (cap b) ->
    Part001.Write this b w
    = (invoke_all this
         ((if n >? 0 then [ReportWrite (slice_prefix b n)] else [])
          ++ (if is_nil err then [] else [ReportError "Write()" err])) ;;
       ret (n, err)) w'
    /\ len (slice_prefix b n) = Z.to_nat n
    /\ (n <= Z.of_nat (len b) ->
        elems (slice_prefix b n) = firstn (Z.to_nat n) (elems b)).
Proof.
  intros W this writer b n err w w' Hmethod Hcall Hcap.
  split; [|split; [reflexivity|apply slice_prefix_elems]].
  now apply Write_run with (writer := writer) (w := w).
Qed.

(** A run of C2: the target accepts two of the four bytes of ["test"] and
    fails; the write callback sees ["te"], then the error callback runs. *)
Lemma Write_reports_prefix_then_error_witness :
  Part001.Write (Mocks.recording "p" Mocks.MockIO_object)
    Mocks.test_bytes Mocks.short_writes
  = (Returned (2, Some "ERROR!"%string),
     Mocks.mkWorld
       (Mocks.mkMockIO ["t"%byte; "e"%byte] 0 0 0 0 0 0 2 0 false) [] []
       [("p"%string, ReportWrite (slice_prefix Mocks.test_bytes 2));
        ("p"%string, ReportError "Write()" (Some "ERROR!"%string))])
  /\ elems (slice_prefix Mocks.test_bytes 2) = ["t"%byte; "e"%byte].
Proof.
  destruct (Write_reports_prefix_then_error Mocks.World
              (Mocks.recording "p" Mocks.MockIO_object) Mocks.MockIO_Write
              Mocks.test_bytes 2 (Some "ERROR!"%string) Mocks.short_writes
              (Mocks.mkWorld
                 (Mocks.mkMockIO ["t"%byte; "e"%byte] 0 0 0 0 0 0 2 0 false) [] [] [])
              eq_refl eq_refl ltac:(vm_compute; discriminate))
    as [Hrun [_ Helems]].
  split.
  - rewrite Hrun. reflexivity.
  - rewrite Helems; [reflexivity | vm_compute; discriminate].
Defined.

(** C3. [Close] on a proxy whose target has a [Close] method calls it
    (once), then calls [reportCloseEvent] once whatever the result, then
    [reportErrorEvent] with ["Close()"] and the error exactly when the error
    is not nil, and returns the target's error unchanged. *)
Theorem Close_reports_close_then_error :
  forall (W : Type) (this : @Part001.LoggedIOProxy W) (closer : CloseFunc W)
         (err : error) (w w' : W),
    method_Close (Part001.proxiedObject this) = Some closer ->
    closer w = (Returned err, w') ->
    Part001.Close this w
    = (invoke_all this
         (ReportClose :: (if is_nil err then [] else [ReportError "Close()" err])) ;;
       ret err) w'.
Proof.
  intros W this closer err w w' Hmethod Hcall.
  unfold Part001.Close, assert_Closer. rewrite Hmethod.
  unfold bind at 1 2. cbn [ret]. rewrite Hcall.
  destruct err; run_callbacks.
Qed.

(** A run of C3: the target's [Close] fails; the close callback runs, then
    the error callback. *)
Lemma Close_reports_close_then_error_witness :
  Part001.Close (Mocks.recording "p" Mocks.MockIO_object) Mocks.failing
  = (Returned (Some "ERROR!"%string),
     Mocks.mkWorld (Mocks.mkMockIO [] 1 0 0 0 0 0 0 0 true) [] []
       [("p"%string, ReportClose);
        ("p"%string, ReportError "Close()" (Some "ERROR!"%string))]).
Proof.
  rewrite (Close_reports_close_then_error Mocks.World
             (Mocks.recording "p" Mocks.MockIO_object) Mocks.MockIO_Close
             (Some "ERROR!"%string) Mocks.failing
             (Mocks.mkWorld (Mocks.mkMockIO [] 1 0 0 0 0 0 0 0 true) [] [] [])
             eq_refl eq_refl).
  reflexivity.
Defined.

(** C9. On a proxy whose target is a [net.Conn], [SetDeadline],
    [SetReadDeadline] and [SetWriteDeadline] each call the target's method
    of the same name with [t] (once), call [reportErrorEvent] with the
    operation's own location tag and the error exactly when the error is not
    nil, call no other callback, and return the target's error unchanged. *)
Theorem deadline_operations_report_errors_only :
  forall (W : Type) (this : @Part001.LoggedIOProxy W) (conn : Conn W)
         (t : Time) (w : W),
    as_Conn (Part001.proxiedObject this) = Some conn ->
    (forall err w', conn_SetDeadline conn t w = (Returned err, w') ->
       Part001.SetDeadline this t w
       = (invoke_all this
            (if is_nil err then [] else [ReportError "SetDeadline()" err]) ;;
          ret err) w')
    /\ (forall err w', conn_SetReadDeadline conn t w = (Returned err, w') ->
       Part001.SetReadDeadline this t w
       = (invoke_all this
            (if is_nil err then [] else [ReportError "SetReadDeadline()" err]) ;;
          ret err) w')
    /\ (forall err w', conn_SetWriteDeadline conn t w = (Returned err, w') ->
       Part001.SetWriteDeadline this t w
       = (invoke_all this
            (if is_nil err then [] else [ReportError "SetWriteDeadline()" err]) ;;
          ret err) w').
Proof.
  intros W this conn t w Hconn.
  repeat split; intros err w' Hcall.
  - unfold Part001.SetDeadline, assert_Conn. rewrite Hconn.
    unfold bind at 1 2. cbn [ret]. rewrite Hcall.
    destruct err; run_callbacks.
  - unfold Part001.SetReadDeadline, assert_Conn. rewrite Hconn.
    unfold bind at 1 2. cbn [ret]. rewrite Hcall.
    destruct err; run_callbacks.
  - unfold Part001.SetWriteDeadline, assert_Conn. rewrite Hconn.
    unfold bind at 1 2. cbn [ret]. rewrite Hcall.
    destruct err; run_callbacks.
Qed.

(** A run of C9: the three deadline calls on a failing target each record
    one error report under their own tag, and nothing else. *)
Lemma deadline_operations_report_errors_only_witness :
  Mocks.calls (snd (Part001.SetDeadline
                      (Mocks.recording "p" Mocks.MockIO_object) 7 Mocks.failing))
  = [("p"%string, ReportError "SetDeadline()" (Some "ERROR!"%string))]
  /\ Mocks.calls (snd (Part001.SetReadDeadline
                         (Mocks.recording "p" Mocks.MockIO_object) 7 Mocks.failing))
     = [("p"%string, ReportError "SetReadDeadline()" (Some "ERROR!"%string))]
  /\ Mocks.calls (snd (Part001.SetWriteDeadline
                         (Mocks.recording "p" Mocks.MockIO_object) 7 Mocks.failing))
     = [("p"%string, ReportError "SetWriteDeadline()" (Some "ERROR!"%string))]
  /\ Mocks.calls (snd (Part001.SetDeadline
                         (Mocks.recording "p" Mocks.MockIO_object) 7 Mocks.fresh))
     = [].
Proof.
  destruct (deadline_operations_report_errors_only Mocks.World
              (Mocks.recording "p" Mocks.MockIO_object) Mocks.MockIO_conn
              7 Mocks.failing eq_refl)
    as [Hd [Hr Hw]].
  destruct (deadline_operations_report_errors_only Mocks.World
              (Mocks.recording "p" Mocks.MockIO_object) Mocks.MockIO_conn
              7 Mocks.fresh eq_refl)
    as [Hd' _].
  split; [|split; [|split]].
  - rewrite (Hd _ _ eq_refl). reflexivity.
  - rewrite (Hr _ _ eq_refl). reflexivity.
  - rewrite (Hw _ _ eq_refl). reflexivity.
  - rewrite (Hd' _ _ eq_refl). reflexivity.
Defined.

(* ===================================================================== *)
(** * Outside the contract of the target *)
(* ===================================================================== *)

(** A target that claims more bytes than the buffer can hold makes [b[:n]]
    fail: the proxy panics after the target's call and before any callback. *)
Lemma Read_count_beyond_capacity_panics :
  forall (W : Type) (this : @Part001.LoggedIOProxy W) (reader : ReadFunc W)
         (b b' : slice) (n : Z) (err : error) (w w' : W),
    method_Read (Part001.proxiedObject this) = Some reader ->
    reader b w = (Returned (b', n, err), w') ->
    Z.of_nat (cap b') < n ->
    Part001.Read this b w = (Panicked (SliceBoundsOutOfRange n (cap b')), w').
Proof.
  intros W this reader b b' n err w w' Hmethod Hcall Hbig.
  unfold Part001.Read, assert_Reader. rewrite Hmethod.
  unfold bind at 1 2. cbn [ret]. rewrite Hcall.
  assert (Hn : (n >? 0) = true) by (apply Z.gtb_lt; lia).
  rewrite Hn. cbn [when]. rewrite slice_to_out_of_range by exact Hbig.
  reflexivity.
Qed.

(** A panic of the target's method passes through the proxy; no callback
    runs. *)
Lemma Read_target_panic_propagates :
  forall (W : Type) (this : @Part001.LoggedIOProxy W) (reader : ReadFunc W)
         (b : slice) (p : panic) (w w' : W),
    method_Read (Part001.proxiedObject this) = Some reader ->
    reader b w = (Panicked p, w') ->
    Part001.Read this b w = (Panicked p, w').
Proof.
  intros W this reader b p w w' Hmethod Hcall.
  unfold Part001.Read, assert_Reader. rewrite Hmethod.
  unfold bind at 1 2. cbn [ret]. now rewrite Hcall.
Qed.

(* ===================================================================== *)
(** * Type assertions at the call *)
(* ===================================================================== *)

(** C4. Each of the eight operations asserts, at the call, the interface it
    needs: when the proxied object lacks it the operation panics with an
    interface-conversion failure before anything else happens (the state is
    untouched: no target method and no callback has run), which is no
    returned error. The assertion of [Read], [Write] and [Close] looks at
    that one method only, so an object with the method passes it whatever
    else it lacks; the address and deadline operations need all of
    [net.Conn]. [Generic] stores the object as given and checks nothing.
    An operation whose interface the object has succeeds, whatever else the
    object lacks: when the target's method returns (for [Read] and [Write],
    a count within the buffer's capacity) and the callbacks return, [Read],
    [Write], [Close] and the three deadline operations return the target's
    result; [LocalAddr] and [RemoteAddr] are the target's own. *)
Theorem missing_capability_panics_at_the_call :
  forall (W : Type) (this : @Part001.LoggedIOProxy W) (w : W),
    (method_Read (Part001.proxiedObject this) = None ->
     forall b, Part001.Read this b w = (Panicked (InterfaceConversion "io.Reader"), w))
    /\ (method_Write (Part001.proxiedObject this) = None ->
        forall b, Part001.Write this b w = (Panicked (InterfaceConversion "io.Writer"), w))
    /\ (method_Close (Part001.proxiedObject this) = None ->
        Part001.Close this w = (Panicked (InterfaceConversion "io.Closer"), w))
    /\ (as_Conn (Part001.proxiedObject this) = None ->
        Part001.LocalAddr this w = (Panicked (InterfaceConversion "net.Conn"), w)
        /\ Part001.RemoteAddr this w = (Panicked (InterfaceConversion "net.Conn"), w)
        /\ (forall t, Part001.SetDeadline this t w
                      = (Panicked (InterfaceConversion "net.Conn"), w))
        /\ (forall t, Part001.SetReadDeadline this t w
                      = (Panicked (InterfaceConversion "net.Conn"), w))
        /\ (forall t, Part001.SetWriteDeadline this t w
                      = (Panicked (InterfaceConversion "net.Conn"), w)))
    /\ (forall f, method_Read (Part001.proxiedObject this) = Some f ->
          assert_Reader (Part001.proxiedObject this) w = (Returned f, w))
    /\ (forall f, method_Write (Part001.proxiedObject this) = Some f ->
          assert_Writer (Part001.proxiedObject this) w = (Returned f, w))
    /\ (forall f, method_Close (Part001.proxiedObject this) = Some f ->
          assert_Closer (Part001.proxiedObject this) w = (Returned f, w))
    /\ (forall c, as_Conn (Part001.proxiedObject this) = Some c ->
          assert_Conn (Part001.proxiedObject this) w = (Returned c, w))
    /\ (forall (o : Object W) r wr e c,
          Part001.proxiedObject (Part001.Generic o r wr e c) = o)
    /\ (forall reader b b' n err w1,
          method_Read (Part001.proxiedObject this) = Some reader ->
          reader b w = (Returned (b', n, err), w1) ->
          n <= Z.of_nat (cap b') ->
          callbacks_return this ->
          exists w2, Part001.Read this b w = (Returned (b', n, err), w2))
    /\ (forall writer b n err w1,
          method_Write (Part001.proxiedObject this) = Some writer ->
          writer b w = (Returned (n, err), w1) ->
          n <= Z.of_nat (cap b) ->
          callbacks_return this ->
          exists w2, Part001.Write this b w = (Returned (n, err), w2))
    /\ (forall closer err w1,
          method_Close (Part001.proxiedObject this) = Some closer ->
          closer w = (Returned err, w1) ->
          callbacks_return this ->
          exists w2, Part001.Close this w = (Returned err, w2))
    /\ (forall conn,
          as_Conn (Part001.proxiedObject this) = Some conn ->
          Part001.LocalAddr this w = conn_LocalAddr conn w
          /\ Part001.RemoteAddr this w = conn_RemoteAddr conn w
          /\ (forall t err w1,
                conn_SetDeadline conn t w = (Returned err, w1) ->
                callbacks_return this ->
                exists w2, Part001.SetDeadline this t w = (Returned err, w2))
          /\ (forall t err w1,
                conn_SetReadDeadline conn t w = (Returned err, w1) ->
                callbacks_return this ->
                exists w2, Part001.SetReadDeadline this t w = (Returned err, w2))
          /\ (forall t err w1,
                conn_SetWriteDeadline conn t w = (Returned err, w1) ->
                callbacks_return this ->
                exists w2, Part001.SetWriteDeadline this t w = (Returned err, w2))).
Proof.
  intros W this w.
  split; [intros H b; unfold Part001.Read, assert_Reader, bind; now rewrite H|].
  split; [intros H b; unfold Part001.Write, assert_Writer, bind; now rewrite H|].
  split; [intros H; unfold Part001.Close, assert_Closer, bind; now rewrite H|].
  split.
  { intros H.
    unfold Part001.LocalAddr, Part001.RemoteAddr, Part001.SetDeadline,
      Part001.SetReadDeadline, Part001.SetWriteDeadline, assert_Conn, bind.
    rewrite H. repeat split. }
  split; [intros f H; unfold assert_Reader; now rewrite H|].
  split; [intros f H; unfold assert_Writer; now rewrite H|].
  split; [intros f H; unfold assert_Closer; now rewrite H|].
  split; [intros c H; unfold assert_Conn; now rewrite H|].
  split; [reflexivity|].
  split.
  { intros reader b b' n err w1 Hmethod Hcall Hn Hcb.
    rewrite (Read_run this reader b b' n err w w1 Hmethod Hcall Hn).
    now apply reports_then_return_when_callbacks_return. }
  split.
  { intros writer b n err w1 Hmethod Hcall Hn Hcb.
    rewrite (Write_run this writer b n err w w1 Hmethod Hcall Hn).
    now apply reports_then_return_when_callbacks_return. }
  split.
  { intros closer err w1 Hmethod Hcall Hcb.
    rewrite (Close_run this closer err w w1 Hmethod Hcall).
    now apply reports_then_return_when_callbacks_return. }
  intros conn Hconn.
  split; [unfold Part001.LocalAddr, assert_Conn; now rewrite Hconn|].
  split; [unfold Part001.RemoteAddr, assert_Conn; now rewrite Hconn|].
  split; [|split]; intros t err w1 Hcall Hcb;
    destruct (deadline_run this conn t w Hconn) as [H1 [H2 H3]].
  - rewrite (H1 _ _ Hcall). now apply reports_then_return_when_callbacks_return.
  - rewrite (H2 _ _ Hcall). now apply reports_then_return_when_callbacks_return.
  - rewrite (H3 _ _ Hcall). now apply reports_then_return_when_callbacks_return.
Qed.

(** The callbacks [StringToWriter] installs around a [NullWriter] return. *)
Lemma TestWrongInterface_logged_callbacks_return (intf : Object Mocks.World) :
  callbacks_return (Mocks.TestWrongInterface_logged intf).
Proof.
  intros r w. destruct r as [b|b|location err|]; eexists; reflexivity.
Qed.

(** A run of C4, after [TestWrongInterface]: around a [MockReader] the
    proxy's [Read] returns and the seven other operations panic; around a
    [MockWriter] it is [Write] that returns, around a [MockCloser] it is
    [Close]; around a [MockIO], which has all eight methods, a deadline
    operation returns. *)
Lemma missing_capability_panics_at_the_call_witness :
  (fst (Part001.Read (Mocks.TestWrongInterface_logged Mocks.MockReader_object)
          (slice_of [x00]) Mocks.fresh)
   = Returned (slice_of ["a"%byte], 1, None)
   /\ Part001.Write (Mocks.TestWrongInterface_logged Mocks.MockReader_object)
        (slice_of [x01]) Mocks.fresh
      = (Panicked (InterfaceConversion "io.Writer"), Mocks.fresh)
   /\ Part001.LocalAddr (Mocks.TestWrongInterface_logged Mocks.MockReader_object)
        Mocks.fresh
      = (Panicked (InterfaceConversion "net.Conn"), Mocks.fresh)
   /\ Part001.RemoteAddr (Mocks.TestWrongInterface_logged Mocks.MockReader_object)
        Mocks.fresh
      = (Panicked (InterfaceConversion "net.Conn"), Mocks.fresh)
   /\ Part001.SetDeadline (Mocks.TestWrongInterface_logged Mocks.MockReader_object)
        7 Mocks.fresh
      = (Panicked (InterfaceConversion "net.Conn"), Mocks.fresh)
   /\ Part001.SetReadDeadline
        (Mocks.TestWrongInterface_logged Mocks.MockReader_object) 7 Mocks.fresh
      = (Panicked (InterfaceConversion "net.Conn"), Mocks.fresh)
   /\ Part001.SetWriteDeadline
        (Mocks.TestWrongInterface_logged Mocks.MockReader_object) 7 Mocks.fresh
      = (Panicked (InterfaceConversion "net.Conn"), Mocks.fresh)
   /\ Part001.Close (Mocks.TestWrongInterface_logged Mocks.MockReader_object)
        Mocks.fresh
      = (Panicked (InterfaceConversion "io.Closer"), Mocks.fresh))
  /\ (Part001.Read (Mocks.TestWrongInterface_logged Mocks.MockWriter_object)
        (slice_of [x00]) Mocks.fresh
      = (Panicked (InterfaceConversion "io.Reader"), Mocks.fresh)
      /\ fst (Part001.Write (Mocks.TestWrongInterface_logged Mocks.MockWriter_object)
                (slice_of [x01]) Mocks.fresh)
         = Returned (1, None)
      /\ Part001.LocalAddr (Mocks.TestWrongInterface_logged Mocks.MockWriter_object)
           Mocks.fresh
         = (Panicked (InterfaceConversion "net.Conn"), Mocks.fresh)
      /\ Part001.RemoteAddr (Mocks.TestWrongInterface_logged Mocks.MockWriter_object)
           Mocks.fresh
         = (Panicked (InterfaceConversion "net.Conn"), Mocks.fresh)
      /\ Part001.SetDeadline (Mocks.TestWrongInterface_logged Mocks.MockWriter_object)
           7 Mocks.fresh
         = (Panicked (InterfaceConversion "net.Conn"), Mocks.fresh)
      /\ Part001.SetReadDeadline
           (Mocks.TestWrongInterface_logged Mocks.MockWriter_object) 7 Mocks.fresh
         = (Panicked (InterfaceConversion "net.Conn"), Mocks.fresh)
      /\ Part001.SetWriteDeadline
           (Mocks.TestWrongInterface_logged Mocks.MockWriter_object) 7 Mocks.fresh
         = (Panicked (InterfaceConversion "net.Conn"), Mocks.fresh)
      /\ Part001.Close (Mocks.TestWrongInterface_logged Mocks.MockWriter_object)
           Mocks.fresh
         = (Panicked (InterfaceConversion "io.Closer"), Mocks.fresh))
  /\ (Part001.Read (Mocks.TestWrongInterface_logged Mocks.MockCloser_object)
        (slice_of [x00]) Mocks.fresh
      = (Panicked (InterfaceConversion "io.Reader"), Mocks.fresh)
      /\ Part001.Write (Mocks.TestWrongInterface_logged Mocks.MockCloser_object)
           (slice_of [x01]) Mocks.fresh
         = (Panicked (InterfaceConversion "io.Writer"), Mocks.fresh)
      /\ Part001.LocalAddr (Mocks.TestWrongInterface_logged Mocks.MockCloser_object)
           Mocks.fresh
         = (Panicked (InterfaceConversion "net.Conn"), Mocks.fresh)
      /\ Part001.RemoteAddr (Mocks.TestWrongInterface_logged Mocks.MockCloser_object)
           Mocks.fresh
         = (Panicked (InterfaceConversion "net.Conn"), Mocks.fresh)
      /\ Part001.SetDeadline (Mocks.TestWrongInterface_logged Mocks.MockCloser_object)
           7 Mocks.fresh
         = (Panicked (InterfaceConversion "net.Conn"), Mocks.fresh)
      /\ Part001.SetReadDeadline
           (Mocks.TestWrongInterface_logged Mocks.MockCloser_object) 7 Mocks.fresh
         = (Panicked (InterfaceConversion "net.Conn"), Mocks.fresh)
      /\ Part001.SetWriteDeadline
           (Mocks.TestWrongInterface_logged Mocks.MockCloser_object) 7 Mocks.fresh
         = (Panicked (InterfaceConversion "net.Conn"), Mocks.fresh)
      /\ fst (Part001.Close (Mocks.TestWrongInterface_logged Mocks.MockCloser_object)
                Mocks.fresh)
         = Returned None)
  /\ fst (Part001.SetDeadline (Mocks.TestWrongInterface_logged Mocks.MockIO_object)
            7 Mocks.fresh)
     = Returned None.
Proof.
  destruct (missing_capability_panics_at_the_call Mocks.World
              (Mocks.TestWrongInterface_logged Mocks.MockReader_object) Mocks.fresh)
    as [_ [Rwrite [Rclose [Rconn [_ [_ [_ [_ [_ [Rread _]]]]]]]]]].
  destruct (missing_capability_panics_at_the_call Mocks.World
              (Mocks.TestWrongInterface_logged Mocks.MockWriter_object) Mocks.fresh)
    as [Wread [_ [Wclose [Wconn [_ [_ [_ [_ [_ [_ [Wwrite _]]]]]]]]]]].
  destruct (missing_capability_panics_at_the_call Mocks.World
              (Mocks.TestWrongInterface_logged Mocks.MockCloser_object) Mocks.fresh)
    as [Cread [Cwrite [_ [Cconn [_ [_ [_ [_ [_ [_ [_ [Cclose _]]]]]]]]]]]].
  destruct (missing_capability_panics_at_the_call Mocks.World
              (Mocks.TestWrongInterface_logged Mocks.MockIO_object) Mocks.fresh)
    as [_ [_ [_ [_ [_ [_ [_ [_ [_ [_ [_ [_ Mconn]]]]]]]]]]]].
  destruct (Rconn eq_refl) as [Rl [Rr [Rd [Rrd Rwd]]]].
  destruct (Wconn eq_refl) as [Wl [Wr [Wd [Wrd Wwd]]]].
  destruct (Cconn eq_refl) as [Cl [Cr [Cd [Crd Cwd]]]].
  destruct (Rread Mocks.MockIO_Read (slice_of [x00]) (slice_of ["a"%byte]) 1 None
              Mocks.fresh eq_refl eq_refl ltac:(vm_compute; discriminate)
              (TestWrongInterface_logged_callbacks_return _))
    as [wr Hread].
  destruct (Wwrite Mocks.MockIO_Write (slice_of [x01]) 1 None
              (Mocks.mkWorld (Mocks.mkMockIO [x01] 0 0 0 0 0 0 0 0 false) [] [] [])
              eq_refl eq_refl ltac:(vm_compute; discriminate)
              (TestWrongInterface_logged_callbacks_return _))
    as [ww Hwrite].
  destruct (Cclose Mocks.MockIO_Close None
              (Mocks.mkWorld (Mocks.mkMockIO [] 1 0 0 0 0 0 0 0 false) [] [] [])
              eq_refl eq_refl
              (TestWrongInterface_logged_callbacks_return _))
    as [wc Hclose].
  destruct (Mconn Mocks.MockIO_conn eq_refl) as [_ [_ [Md _]]].
  destruct (Md 7 None
              (Mocks.mkWorld (Mocks.mkMockIO [] 0 0 0 1 0 0 0 0 false) [] [] [])
              eq_refl (TestWrongInterface_logged_callbacks_return _))
    as [wd Hdeadline].
  split; [|split; [|split]].
  - split; [now rewrite Hread|].
    split; [exact (Rwrite eq_refl _)|].
    split; [exact Rl|]. split; [exact Rr|]. split; [exact (Rd 7)|].
    split; [exact (Rrd 7)|]. split; [exact (Rwd 7)|]. exact (Rclose eq_refl).
  - split; [exact (Wread eq_refl _)|].
    split; [now rewrite Hwrite|].
    split; [exact Wl|]. split; [exact Wr|]. split; [exact (Wd 7)|].
    split; [exact (Wrd 7)|]. split; [exact (Wwd 7)|]. exact (Wclose eq_refl).
  - split; [exact (Cread eq_refl _)|].
    split; [exact (Cwrite eq_refl _)|].
    split; [exact Cl|]. split; [exact Cr|]. split; [exact (Cd 7)|].
    split; [exact (Crd 7)|]. split; [exact (Cwd 7)|]. now rewrite Hclose.
  - now rewrite Hdeadline.
Defined.

(* ===================================================================== *)
(** * The two revisions *)
(* ===================================================================== *)

(** C10. The eight operations of the proxy of [src/loggedio.go] and of the
    proxy of [src/unnamed/part_001], built by the two [Generic]s from the
    same object and the same four callbacks, are the same computations: on
    every input and from every state they call the same target methods and
    callbacks with the same arguments in the same order and give the same
    result. *)
Theorem revisions_agree_on_the_eight_operations :
  forall (W : Type) (o : Object W)
         (onRead onWrite : slice -> M W unit)
         (onError : string -> error -> M W unit) (onClose : M W unit),
    (forall b, LoggedioGo.Read (LoggedioGo.Generic o onRead onWrite onError onClose) b
               = Part001.Read (Part001.Generic o onRead onWrite onError onClose) b)
    /\ (forall b, LoggedioGo.Write (LoggedioGo.Generic o onRead onWrite onError onClose) b
                  = Part001.Write (Part001.Generic o onRead onWrite onError onClose) b)
    /\ LoggedioGo.Close (LoggedioGo.Generic o onRead onWrite onError onClose)
       = Part001.Close (Part001.Generic o onRead onWrite onError onClose)
    /\ LoggedioGo.LocalAddr (LoggedioGo.Generic o onRead onWrite onError onClose)
       = Part001.LocalAddr (Part001.Generic o onRead onWrite onError onClose)
    /\ LoggedioGo.RemoteAddr (LoggedioGo.Generic o onRead onWrite onError onClose)
       = Part001.RemoteAddr (Part001.Generic o onRead onWrite onError onClose)
    /\ (forall t, LoggedioGo.SetDeadline (LoggedioGo.Generic o onRead onWrite onError onClose) t
                  = Part001.SetDeadline (Part001.Generic o onRead onWrite onError onClose) t)
    /\ (forall t, LoggedioGo.SetReadDeadline (LoggedioGo.Generic o onRead onWrite onError onClose) t
                  = Part001.SetReadDeadline (Part001.Generic o onRead onWrite onError onClose) t)
    /\ (forall t, LoggedioGo.SetWriteDeadline (LoggedioGo.Generic o onRead onWrite onError onClose) t
                  = Part001.SetWriteDeadline (Part001.Generic o onRead onWrite onError onClose) t).
Proof.
  intros W o onRead onWrite onError onClose.
  repeat split; intros; reflexivity.
Qed.

(* ===================================================================== *)
(** * Chained proxies *)
(* ===================================================================== *)

(** C6, as the code has it. When [outer] wraps [inner] and the target
    accepts [n > 0] bytes of one [Write] on [outer], each proxy reports the
    accepted prefix once, from the inside out: first [inner] (its data
    report, then its error report if the target failed), then [outer] (the
    same two), and the target's [n] and [err] come back unchanged. *)
Theorem chained_Write_reports_inner_then_outer :
  forall (W : Type) (inner outer : @Part001.LoggedIOProxy W) (writer : WriteFunc W)
         (b : slice) (n : Z) (err : error) (w w' : W),
    Part001.proxiedObject outer = Part001.as_Object inner ->
    method_Write (Part001.proxiedObject inner) = Some writer ->
    writer b w = (Returned (n, err), w') ->
    0 < n <= Z.of_nat (cap b) ->
    Part001.Write outer b w
    = (invoke_all inner
         (ReportWrite (slice_prefix b n)
          :: (if is_nil err then [] else [ReportError "Write()" err])) ;;
       invoke_all outer
         (ReportWrite (slice_prefix b n)
          :: (if is_nil err then [] else [ReportError "Write()" err])) ;;
       ret (n, err)) w'.
Proof.
  intros W inner outer writer b n err w w' Houter Hmethod Hcall [Hpos Hcap].
  assert (Hn : (n >? 0) = true) by (apply Z.gtb_lt; lia).
  unfold Part001.Write at 1. rewrite Houter.
  cbn [Part001.as_Object method_Write assert_Writer].
  unfold bind at 1 2. cbn [ret].
  rewrite (Write_run inner writer b n err w w' Hmethod Hcall Hcap).
  rewrite Hn. cbn [app].
  unfold bind at 1.
  rewrite (bind_run (invoke_all inner _) _ w').
  destruct (invoke_all inner _ w') as [[[]|p] w1]; [|reflexivity].
  cbn [ret].
  rewrite (Write_after_target outer b n err w1 Hcap).
  rewrite Hn. reflexivity.
Qed.

(** A run of C6: the target accepts two bytes of ["test"] and fails. *)
Lemma chained_Write_reports_inner_then_outer_witness :
  Part001.Write
    (Mocks.recording "outer"
       (Part001.as_Object (Mocks.recording "inner" Mocks.MockIO_object)))
    Mocks.test_bytes Mocks.short_writes
  = (Returned (2, Some "ERROR!"%string),
     Mocks.mkWorld
       (Mocks.mkMockIO ["t"%byte; "e"%byte] 0 0 0 0 0 0 2 0 false) [] []
       [("inner"%string, ReportWrite (slice_prefix Mocks.test_bytes 2));
        ("inner"%string, ReportError "Write()" (Some "ERROR!"%string));
        ("outer"%string, ReportWrite (slice_prefix Mocks.test_bytes 2));
        ("outer"%string, ReportError "Write()" (Some "ERROR!"%string))]).
Proof.
  rewrite (chained_Write_reports_inner_then_outer Mocks.World
             (Mocks.recording "inner" Mocks.MockIO_object)
             (Mocks.recording "outer"
                (Part001.as_Object (Mocks.recording "inner" Mocks.MockIO_object)))
             Mocks.MockIO_Write Mocks.test_bytes 2 (Some "ERROR!"%string)
             Mocks.short_writes
             (Mocks.mkWorld
                (Mocks.mkMockIO ["t"%byte; "e"%byte] 0 0 0 0 0 0 2 0 false) [] [] [])
             eq_refl eq_refl eq_refl).
  - reflexivity.
  - vm_compute. split; [reflexivity | discriminate].
Defined.

(** The counterexample to C6 as the spec words it ("outer proxy's report
    first"): with recording proxies around a [MockIO], one [Write] on the
    outer proxy is seen by the inner proxy's callback first; the same order
    shows in the README's chain, whose string-mode inner proxy prints before
    the hex-mode outer one; and a [Write] of no bytes is reported by
    neither. *)
Lemma chained_Write_outer_report_is_not_first :
  Mocks.calls (snd (Part001.Write
                 (Mocks.recording "outer"
                    (Part001.as_Object (Mocks.recording "inner" Mocks.MockIO_object)))
                 Mocks.Testing_bytes Mocks.fresh))
  = [("inner"%string, ReportWrite Mocks.Testing_bytes);
     ("outer"%string, ReportWrite Mocks.Testing_bytes)]
  /\ Mocks.calls (snd (Part001.Write
                    (Mocks.recording "outer"
                       (Part001.as_Object (Mocks.recording "inner" Mocks.MockIO_object)))
                    Mocks.Testing_bytes Mocks.fresh))
     <> [("outer"%string, ReportWrite Mocks.Testing_bytes);
         ("inner"%string, ReportWrite Mocks.Testing_bytes)]
  /\ string_of_bytes (Mocks.buffer (snd (Part001.Write Mocks.hexProxy
                                           Mocks.Testing_bytes Mocks.fresh)))
     = "WS [Testing]WH [54 65 73 74 69 6e 67]"%string
  /\ Mocks.calls (snd (Part001.Write
                    (Mocks.recording "outer"
                       (Part001.as_Object (Mocks.recording "inner" Mocks.MockIO_object)))
                    (slice_of []) Mocks.fresh))
     = [].
Proof.
  split; [reflexivity|].
  split; [vm_compute; discriminate|].
  split; reflexivity.
Qed.

(* ===================================================================== *)
(** * The template guards of the formatting constructors *)
(* ===================================================================== *)

Lemma byteFunc_guard {W : Type} (format : string) (function : slice -> M W unit) :
  Part001.byteFunc format function
  = if String.eqb format "" then (fun _ => ret tt) else function.
Proof. reflexivity. Qed.

Lemma log_grows (l : list string) (s : string) : (l ++ [s])%list <> l.
Proof.
  intros H. apply (f_equal (@List.length string)) in H.
  rewrite length_app in H. simpl in H. lia.
Qed.

(** C7. In [HexToLog] the write callback is guarded by [readFmt]: it is the
    no-op exactly when [readFmt] is empty, and otherwise logs the hex dump
    formatted with [writeFmt], whatever [writeFmt] is. So a [Write] that
    moved [n > 0] bytes without error logs one line when [readFmt] is not
    empty and nothing when it is; with a logger that keeps its lines, the
    write callback leaves a trace if and only if [readFmt] is not empty. *)
Theorem HexToLog_write_reports_follow_readFmt :
  (forall (W : Type) (Sprintf : string -> list arg -> string)
          (Output : string -> M W unit) (o : Object W)
          (readFmt writeFmt errorFmt closeMsg : string),
     Part001.reportWriteEvent
       (Part001.HexToLog Sprintf Output o readFmt writeFmt errorFmt closeMsg)
     = if String.eqb readFmt ""
       then (fun _ => ret tt)
       else (fun b => log_Printf Sprintf Output writeFmt [ArgString (toHex (elems b))]))
  /\ (forall (W : Type) (Sprintf : string -> list arg -> string)
             (Output : string -> M W unit) (o : Object W)
             (readFmt writeFmt errorFmt closeMsg : string)
             (writer : WriteFunc W) (b : slice) (n : Z) (w w' : W),
        method_Write o = Some writer ->
        writer b w = (Returned (n, None), w') ->
        0 < n <= Z.of_nat (cap b) ->
        Part001.Write
          (Part001.HexToLog Sprintf Output o readFmt writeFmt errorFmt closeMsg) b w
        = ((if String.eqb readFmt "" then ret tt
            else Output (Sprintf writeFmt
                           [ArgString (toHex (firstn (Z.to_nat n) (arr b)))])) ;;
           ret (n, None)) w')
  /\ (forall (o : Object Mocks.World) (readFmt writeFmt errorFmt closeMsg : string)
             (b : slice) (w : Mocks.World),
        Mocks.stdlog
          (snd (Part001.reportWriteEvent
                  (Part001.HexToLog Mocks.Sprintf Mocks.Logger_Output o
                     readFmt writeFmt errorFmt closeMsg) b w))
        <> Mocks.stdlog w
        <-> readFmt <> ""%string).
Proof.
  split; [reflexivity|].
  split.
  - intros W Sprintf Output o readFmt writeFmt errorFmt closeMsg writer b n w w'
      Hmethod Hcall [Hpos Hcap].
    assert (Hn : (n >? 0) = true) by (apply Z.gtb_lt; lia).
    rewrite (Write_run
               (Part001.HexToLog Sprintf Output o readFmt writeFmt errorFmt closeMsg)
               writer b n None w w' Hmethod Hcall Hcap).
    rewrite Hn. cbn [is_nil app invoke_all invoke].
    cbn [Part001.HexToLog Part001.Generic Part001.reportWriteEvent].
    rewrite byteFunc_guard.
    destruct (String.eqb readFmt ""); unfold bind, ret, log_Printf;
      change (elems (slice_prefix b n)) with (firstn (Z.to_nat n) (arr b));
      by_cases_on_calls; reflexivity.
  - intros o readFmt writeFmt errorFmt closeMsg b w.
    cbn [Part001.HexToLog Part001.Generic Part001.reportWriteEvent].
    rewrite byteFunc_guard.
    destruct (String.eqb_spec readFmt "") as [Heq|Hne].
    + subst. cbn. split; intros H; exfalso; now apply H.
    + cbn. split; [intros _; exact Hne | intros _; apply log_grows].
Qed.

(** A run of C7: with an empty read template and ["W [%v]"] for writes the
    log stays empty; with ["R [%v]"] and an empty write template the write is
    logged, through the empty template. *)
Lemma HexToLog_write_reports_follow_readFmt_witness :
  Part001.Write
    (Part001.HexToLog Mocks.Sprintf Mocks.Logger_Output Mocks.MockIO_object
       "" "W [%v]" "E [%v: %v]" "C")
    Mocks.test_bytes Mocks.fresh
  = (Returned (4, None),
     Mocks.mkWorld
       (Mocks.mkMockIO (elems Mocks.test_bytes) 0 0 0 0 0 0 0 0 false) [] [] [])
  /\ Part001.Write
       (Part001.HexToLog Mocks.Sprintf Mocks.Logger_Output Mocks.MockIO_object
          "R [%v]" "" "E [%v: %v]" "C")
       Mocks.test_bytes Mocks.fresh
     = (Returned (4, None),
        Mocks.mkWorld
          (Mocks.mkMockIO (elems Mocks.test_bytes) 0 0 0 0 0 0 0 0 false) []
          ["%!(EXTRA string=74 65 73 74)"%string] []).
Proof.
  destruct HexToLog_write_reports_follow_readFmt as [_ [Hwrite _]].
  split.
  - rewrite (Hwrite Mocks.World Mocks.Sprintf Mocks.Logger_Output Mocks.MockIO_object
               ""%string "W [%v]"%string "E [%v: %v]"%string "C"%string
               Mocks.MockIO_Write Mocks.test_bytes 4 Mocks.fresh
               (Mocks.mkWorld
                  (Mocks.mkMockIO (elems Mocks.test_bytes) 0 0 0 0 0 0 0 0 false)
                  [] [] [])
               eq_refl eq_refl ltac:(vm_compute; split; [reflexivity | discriminate])).
    reflexivity.
  - rewrite (Hwrite Mocks.World Mocks.Sprintf Mocks.Logger_Output Mocks.MockIO_object
               "R [%v]"%string ""%string "E [%v: %v]"%string "C"%string
               Mocks.MockIO_Write Mocks.test_bytes 4 Mocks.fresh
               (Mocks.mkWorld
                  (Mocks.mkMockIO (elems Mocks.test_bytes) 0 0 0 0 0 0 0 0 false)
                  [] [] [])
               eq_refl eq_refl ltac:(vm_compute; split; [reflexivity | discriminate])).
    reflexivity.
Defined.

(** C5, where the code departs from it. [StringToWriter], [HexToWriter] and
    [HexToLog] guard the write callback with [readFmt]: an empty read
    template installs the no-op for writes whatever the write template, and
    an empty write template beside a read template leaves the write callback
    installed. On the test doubles: [StringToWriter] with templates [""] and
    ["W [%v]"] prints nothing for a [Write] of ["test"], where [StringToLog]
    with the same templates logs ["W [test]"]; and with templates ["R [%v]"]
    and [""] the write is printed through the empty template. *)
Theorem write_reporting_is_guarded_by_the_read_template :
  (forall (W : Type) (Sprintf : string -> list arg -> string) (o : Object W)
          (writer : WriteFunc W) (writeFmt errorFmt closeMsg : string),
     Part001.reportWriteEvent
       (Part001.StringToWriter Sprintf o writer "" writeFmt errorFmt closeMsg)
     = (fun _ => ret tt)
     /\ Part001.reportWriteEvent
          (Part001.HexToWriter Sprintf o writer "" writeFmt errorFmt closeMsg)
        = (fun _ => ret tt))
  /\ (forall (W : Type) (Sprintf : string -> list arg -> string)
             (Output : string -> M W unit) (o : Object W)
             (writeFmt errorFmt closeMsg : string),
        Part001.reportWriteEvent
          (Part001.HexToLog Sprintf Output o "" writeFmt errorFmt closeMsg)
        = (fun _ => ret tt))
  /\ Mocks.buffer
       (snd (Part001.Write
               (Part001.StringToWriter Mocks.Sprintf Mocks.MockIO_object
                  Mocks.Buffer_Write "" "W [%v]" "E [%v: %v]" "C")
               Mocks.test_bytes Mocks.fresh))
     = []
  /\ Mocks.stdlog
       (snd (Part001.Write
               (Part001.StringToLog Mocks.Sprintf Mocks.Logger_Output
                  Mocks.MockIO_object "" "W [%v]" "E [%v: %v]" "C")
               Mocks.test_bytes Mocks.fresh))
     = ["W [test]"%string]
  /\ string_of_bytes
       (Mocks.buffer
          (snd (Part001.Write
                  (Part001.StringToWriter Mocks.Sprintf Mocks.MockIO_object
                     Mocks.Buffer_Write "R [%v]" "" "E [%v: %v]" "C")
                  Mocks.test_bytes Mocks.fresh)))
     = "%!(EXTRA string=test)"%string.
Proof.
  split; [intros; split; reflexivity|].
  split; [intros; reflexivity|].
  repeat split.
Qed.

(** Each channel other than the write channel of [StringToWriter],
    [HexToWriter] and [HexToLog] is guarded by its own template: an empty
    template installs the no-op for that channel. *)
Lemma empty_template_disables_its_own_channel :
  forall (W : Type) (Sprintf : string -> list arg -> string)
         (Output : string -> M W unit) (o : Object W)
         (writer readWriter writeWriter notifyWriter : WriteFunc W)
         (readFmt writeFmt errorFmt closeMsg : string),
    (** read *)
    Part001.reportReadEvent
      (Part001.StringToLog Sprintf Output o "" writeFmt errorFmt closeMsg)
    = (fun _ => ret tt)
    /\ Part001.reportReadEvent
         (Part001.HexToLog Sprintf Output o "" writeFmt errorFmt closeMsg)
       = (fun _ => ret tt)
    /\ Part001.reportReadEvent
         (Part001.StringToWriter Sprintf o writer "" writeFmt errorFmt closeMsg)
       = (fun _ => ret tt)
    /\ Part001.reportReadEvent
         (Part001.HexToWriter Sprintf o writer "" writeFmt errorFmt closeMsg)
       = (fun _ => ret tt)
    (** write, in [StringToLog] *)
    /\ Part001.reportWriteEvent
         (Part001.StringToLog Sprintf Output o readFmt "" errorFmt closeMsg)
       = (fun _ => ret tt)
    (** error *)
    /\ Part001.reportErrorEvent
         (Part001.StringToLog Sprintf Output o readFmt writeFmt "" closeMsg)
       = (fun _ _ => ret tt)
    /\ Part001.reportErrorEvent
         (Part001.HexToLog Sprintf Output o readFmt writeFmt "" closeMsg)
       = (fun _ _ => ret tt)
    /\ Part001.reportErrorEvent
         (Part001.StringToWriter Sprintf o writer readFmt writeFmt "" closeMsg)
       = (fun _ _ => ret tt)
    /\ Part001.reportErrorEvent
         (Part001.HexToWriter Sprintf o writer readFmt writeFmt "" closeMsg)
       = (fun _ _ => ret tt)
    /\ Part001.reportErrorEvent
         (Part001.DumpToWriters Sprintf o readWriter writeWriter notifyWriter "" closeMsg)
       = (fun _ _ => ret tt)
    (** close *)
    /\ Part001.reportCloseEvent
         (Part001.StringToLog Sprintf Output o readFmt writeFmt errorFmt "")
       = ret tt
    /\ Part001.reportCloseEvent
         (Part001.HexToLog Sprintf Output o readFmt writeFmt errorFmt "")
       = ret tt
    /\ Part001.reportCloseEvent
         (Part001.StringToWriter Sprintf o writer readFmt writeFmt errorFmt "")
       = ret tt
    /\ Part001.reportCloseEvent
         (Part001.HexToWriter Sprintf o writer readFmt writeFmt errorFmt "")
       = ret tt
    /\ Part001.reportCloseEvent
         (Part001.DumpToWriters Sprintf o readWriter writeWriter notifyWriter errorFmt "")
       = ret tt.
Proof. intros. repeat split. Qed.

(* ===================================================================== *)
(** * The package's tests and README, replayed *)
(* ===================================================================== *)

Example replay_TestReadWriteString :
  let logged := Part001.StringToWriter Mocks.Sprintf Mocks.MockIO_object
                  Mocks.Buffer_Write "R [%v]" "W [%v]" "E [%v: %v]" "C" in
  let r := Part001.Read logged (slice_of (Mocks.generateBytes 3)) Mocks.fresh in
  let w := Part001.Write logged Mocks.test_bytes Mocks.fresh in
  fst r = Returned (slice_of (Mocks.generateBytes 3), 3, None)
  /\ string_of_bytes (Mocks.buffer (snd r)) = "R [abc]"%string
  /\ fst w = Returned (4, None)
  /\ string_of_bytes (Mocks.buffer (snd w)) = "W [test]"%string.
Proof. repeat split. Qed.

Example replay_TestReadWriteHex :
  let logged := Part001.HexToWriter Mocks.Sprintf Mocks.MockIO_object
                  Mocks.Buffer_Write "R [%v]" "W [%v]" "E [%v: %v]" "C" in
  let r := Part001.Read logged (slice_of (Mocks.generateBytes 3)) Mocks.fresh in
  let w := Part001.Write logged (slice_of [x01; x02; x03]) Mocks.fresh in
  string_of_bytes (Mocks.buffer (snd r)) = "R [61 62 63]"%string
  /\ fst w = Returned (3, None)
  /\ string_of_bytes (Mocks.buffer (snd w)) = "W [01 02 03]"%string.
Proof. repeat split. Qed.

Example replay_TestClose :
  let logged := Part001.HexToWriter Mocks.Sprintf Mocks.MockIO_object
                  Mocks.Buffer_Write "R [%v]" "W [%v]" "E [%v: %v]" "C" in
  let c := Part001.Close logged Mocks.fresh in
  fst c = Returned None
  /\ string_of_bytes (Mocks.buffer (snd c)) = "C"%string
  /\ Mocks.CloseCallCount (Mocks.mock (snd c)) = 1.
Proof. repeat split. Qed.

Example replay_TestFail :
  let logged := Part001.StringToWriter Mocks.Sprintf Mocks.MockIO_object
                  Mocks.Buffer_Write "R [%v]" "W [%v]" "E [%v: %v]" "C" in
  let printed {A : Type} (run : outcome A * Mocks.World) :=
    string_of_bytes (Mocks.buffer (snd run)) in
  printed (Part001.Read logged (slice_of [x01]) Mocks.failing)
  = "E [Read(): ERROR!]"%string
  /\ printed (Part001.Write logged (slice_of [x01]) Mocks.failing)
     = "E [Write(): ERROR!]"%string
  /\ printed (Part001.Close logged Mocks.failing)
     = "CE [Close(): ERROR!]"%string
  /\ printed (Part001.SetDeadline logged 0 Mocks.failing)
     = "E [SetDeadline(): ERROR!]"%string
  /\ printed (Part001.SetReadDeadline logged 0 Mocks.failing)
     = "E [SetReadDeadline(): ERROR!]"%string
  /\ printed (Part001.SetWriteDeadline logged 0 Mocks.failing)
     = "E [SetWriteDeadline(): ERROR!]"%string.
Proof. repeat split. Qed.

Example replay_TestOtherOps :
  let logged := Part001.StringToWriter Mocks.Sprintf Mocks.MockIO_object
                  Mocks.Buffer_Write "R [%v]" "W [%v]" "E [%v: %v]" "C" in
  Mocks.LocalAddrCallCount (Mocks.mock (snd (Part001.LocalAddr logged Mocks.fresh))) = 1
  /\ Mocks.RemoteAddrCallCount (Mocks.mock (snd (Part001.RemoteAddr logged Mocks.fresh))) = 1
  /\ Part001.SetDeadline logged 0 Mocks.fresh
     = (Returned None,
        Mocks.mkWorld (Mocks.mkMockIO [] 0 0 0 1 0 0 0 0 false) [] [] []).
Proof. repeat split. Qed.

(** The README's chained run: ["WS [Testing]"] from the inner string-mode
    proxy, then ["WH [54 65 73 74 69 6e 67]"] from the outer hex-mode one. *)
Example replay_README_chain :
  string_of_bytes
    (Mocks.buffer (snd (Part001.Write Mocks.hexProxy Mocks.Testing_bytes Mocks.fresh)))
  = "WS [Testing]WH [54 65 73 74 69 6e 67]"%string.
Proof. reflexivity. Qed.

(* ===================================================================== *)
(** * More on toHex *)
(* ===================================================================== *)

Lemma toHex_groups (b : list byte) : toHex b = hex_groups b.
Proof.
  unfold toHex.
  change (toHex_loop (S (List.length b)) b 0 [])
    with (toHex_loop (S (List.length b)) ([] ++ b) (Z.of_nat (@List.length byte [])) []).
  rewrite toHex_loop_output by lia.
  apply loop_output_groups.
Qed.

Lemma hex_groups_cons (c : byte) (tl : list byte) :
  hex_groups (c :: tl)
  = (hex_pair c ++ match tl with
                   | [] => ""
                   | _ :: _ => " " ++ hex_groups tl
                   end)%string.
Proof. destruct tl; reflexivity. Qed.

Lemma string_app_assoc (a b c : string) :
  ((a ++ b) ++ c = a ++ (b ++ c))%string.
Proof. induction a as [|x a IH]; simpl; [reflexivity | now rewrite IH]. Qed.

Lemma hex_pair_digits (c : byte) :
  exists h l : ascii,
    hex_pair c = String h (String l EmptyString)
    /\ byte_of_hex_digits h l = Some c.
Proof. destruct c; (do 2 eexists); split; reflexivity. Qed.

(** X1. Dumps concatenate: the dump of two non-empty byte sequences one after
    the other is the two dumps with one space between them. *)
Theorem toHex_app :
  forall a b : list byte,
    a <> [] -> b <> [] ->
    toHex (a ++ b) = (toHex a ++ " " ++ toHex b)%string.
Proof.
  intros a b Ha Hb. rewrite !toHex_groups.
  induction a as [|c tl IH]; [contradiction|].
  destruct tl as [|d tl'].
  - simpl app. rewrite hex_groups_cons.
    destruct b as [|e b']; [contradiction|].
    change (hex_groups [c]) with (hex_pair c ++ "")%string.
    rewrite string_app_assoc. reflexivity.
  - change ((c :: d :: tl') ++ b)%list with (c :: (d :: tl') ++ b)%list.
    rewrite hex_groups_cons. simpl app at 1.
    rewrite IH by discriminate.
    rewrite (hex_groups_cons c (d :: tl')).
    rewrite !string_app_assoc. reflexivity.
Qed.

Lemma toHex_app_witness :
  toHex ([x01; x02] ++ [xae; xf1]) = "01 02 ae f1"%string.
Proof.
  rewrite (toHex_app [x01; x02] [xae; xf1]) by discriminate.
  reflexivity.
Defined.

(** X2. A dump reads back: decoding the output of [toHex] gives the bytes it
    was made from, so two byte sequences with the same dump are equal. *)
Theorem toHex_reads_back :
  (forall b : list byte, fromHex (toHex b) = Some b)
  /\ (forall a b : list byte, toHex a = toHex b -> a = b).
Proof.
  assert (Hback : forall b, fromHex (toHex b) = Some b).
  { intro b. rewrite toHex_groups.
    induction b as [|c tl IH]; [reflexivity|].
    rewrite hex_groups_cons.
    destruct (hex_pair_digits c) as [h [l [Hpair Hbyte]]].
    rewrite Hpair.
    destruct tl as [|d tl'].
    - simpl. rewrite Hbyte. reflexivity.
    - rewrite hex_groups_cons in *.
      destruct (hex_pair_digits d) as [h' [l' [Hpair' _]]].
      rewrite Hpair' in *.
      cbn [String.append fromHex]. rewrite Hbyte.
      cbn [Ascii.eqb Bool.eqb].
      cbn [String.append fromHex] in IH. rewrite IH. reflexivity. }
  split; [exact Hback|].
  intros a b Heq.
  pose proof (Hback a) as Ha. rewrite Heq, Hback in Ha. congruence.
Qed.

(* ===================================================================== *)
(** * What every proxy keeps, whatever its callbacks *)
(* ===================================================================== *)

(** X3. A proxy never makes up or alters a result: whenever one of its eight
    operations returns, the proxied object has the method, the method
    returned, and the operation returns exactly the method's result
    (for [Read], with the buffer as the method left it), whatever the four
    callbacks do. *)
Theorem operations_return_the_target_result :
  forall (W : Type) (this : @Part001.LoggedIOProxy W) (w w2 : W),
    (forall b r, Part001.Read this b w = (Returned r, w2) ->
       exists reader w1, method_Read (Part001.proxiedObject this) = Some reader
                         /\ reader b w = (Returned r, w1))
    /\ (forall b r, Part001.Write this b w = (Returned r, w2) ->
       exists writer w1, method_Write (Part001.proxiedObject this) = Some writer
                         /\ writer b w = (Returned r, w1))
    /\ (forall r, Part001.Close this w = (Returned r, w2) ->
       exists closer w1, method_Close (Part001.proxiedObject this) = Some closer
                         /\ closer w = (Returned r, w1))
    /\ (forall r, Part001.LocalAddr this w = (Returned r, w2) ->
       exists conn, as_Conn (Part001.proxiedObject this) = Some conn
                    /\ conn_LocalAddr conn w = (Returned r, w2))
    /\ (forall r, Part001.RemoteAddr this w = (Returned r, w2) ->
       exists conn, as_Conn (Part001.proxiedObject this) = Some conn
                    /\ conn_RemoteAddr conn w = (Returned r, w2))
    /\ (forall t r, Part001.SetDeadline this t w = (Returned r, w2) ->
       exists conn w1, as_Conn (Part001.proxiedObject this) = Some conn
                       /\ conn_SetDeadline conn t w = (Returned r, w1))
    /\ (forall t r, Part001.SetReadDeadline this t w = (Returned r, w2) ->
       exists conn w1, as_Conn (Part001.proxiedObject this) = Some conn
                       /\ conn_SetReadDeadline conn t w = (Returned r, w1))
    /\ (forall t r, Part001.SetWriteDeadline this t w = (Returned r, w2) ->
       exists conn w1, as_Conn (Part001.proxiedObject this) = Some conn
                       /\ conn_SetWriteDeadline conn t w = (Returned r, w1)).
Proof.
  intros W this w w2.
  repeat split.
  - intros b r H. unfold Part001.Read, assert_Reader, bind, when, slice_to, throw in H.
    destruct (method_Read (Part001.proxiedObject this)) as [reader|]; [|discriminate H].
    cbn [ret] in H.
    destruct (reader b w) as [[[[b' n] err]|p] w1] eqn:Hcall; [|discriminate H].
    exists reader, w1. split; [reflexivity|].
    rewrite Hcall. invert_run H; inversion H; reflexivity.
  - intros b r H. unfold Part001.Write, assert_Writer, bind, when, slice_to, throw in H.
    destruct (method_Write (Part001.proxiedObject this)) as [writer|]; [|discriminate H].
    cbn [ret] in H.
    destruct (writer b w) as [[[n err]|p] w1] eqn:Hcall; [|discriminate H].
    exists writer, w1. split; [reflexivity|].
    rewrite Hcall. invert_run H; inversion H; reflexivity.
  - intros r H. unfold Part001.Close, assert_Closer, bind, when, throw in H.
    destruct (method_Close (Part001.proxiedObject this)) as [closer|]; [|discriminate H].
    cbn [ret] in H.
    destruct (closer w) as [[err|p] w1] eqn:Hcall; [|discriminate H].
    exists closer, w1. split; [reflexivity|].
    rewrite Hcall. invert_run H; inversion H; reflexivity.
  - intros r H. unfold Part001.LocalAddr, assert_Conn, bind, throw in H.
    destruct (as_Conn (Part001.proxiedObject this)) as [conn|]; [|discriminate H].
    exists conn. split; [reflexivity | exact H].
  - intros r H. unfold Part001.RemoteAddr, assert_Conn, bind, throw in H.
    destruct (as_Conn (Part001.proxiedObject this)) as [conn|]; [|discriminate H].
    exists conn. split; [reflexivity | exact H].
  - intros t r H. unfold Part001.SetDeadline, assert_Conn, bind, when, throw in H.
    destruct (as_Conn (Part001.proxiedObject this)) as [conn|]; [|discriminate H].
    cbn [ret] in H.
    destruct (conn_SetDeadline conn t w) as [[err|p] w1] eqn:Hcall; [|discriminate H].
    exists conn, w1. split; [reflexivity|].
    rewrite Hcall. invert_run H; inversion H; reflexivity.
  - intros t r H. unfold Part001.SetReadDeadline, assert_Conn, bind, when, throw in H.
    destruct (as_Conn (Part001.proxiedObject this)) as [conn|]; [|discriminate H].
    cbn [ret] in H.
    destruct (conn_SetReadDeadline conn t w) as [[err|p] w1] eqn:Hcall; [|discriminate H].
    exists conn, w1. split; [reflexivity|].
    rewrite Hcall. invert_run H; inversion H; reflexivity.
  - intros t r H. unfold Part001.SetWriteDeadline, assert_Conn, bind, when, throw in H.
    destruct (as_Conn (Part001.proxiedObject this)) as [conn|]; [|discriminate H].
    cbn [ret] in H.
    destruct (conn_SetWriteDeadline conn t w) as [[err|p] w1] eqn:Hcall; [|discriminate H].
    exists conn, w1. split; [reflexivity|].
    rewrite Hcall. invert_run H; inversion H; reflexivity.
Qed.

Lemma bind_ret_same {W A : Type} (c : M W A) (w : W) :
  (x <- c ;; ret x) w = c w.
Proof. unfold bind, ret. destruct (c w) as [[a|p] w']; reflexivity. Qed.

Lemma quiet_proxy_is_transparent {W : Type} (this : @Part001.LoggedIOProxy W) (w : W) :
  quiet this ->
  (forall reader b,
     method_Read (Part001.proxiedObject this) = Some reader ->
     (forall b' n err w1, reader b w = (Returned (b', n, err), w1) ->
                          n <= Z.of_nat (cap b')) ->
     Part001.Read this b w = reader b w)
  /\ (forall writer b,
        method_Write (Part001.proxiedObject this) = Some writer ->
        (forall n err w1, writer b w = (Returned (n, err), w1) ->
                          n <= Z.of_nat (cap b)) ->
        Part001.Write this b w = writer b w)
  /\ (forall closer,
        method_Close (Part001.proxiedObject this) = Some closer ->
        Part001.Close this w = closer w)
  /\ (forall conn,
        as_Conn (Part001.proxiedObject this) = Some conn ->
        Part001.LocalAddr this w = conn_LocalAddr conn w
        /\ Part001.RemoteAddr this w = conn_RemoteAddr conn w
        /\ (forall t, Part001.SetDeadline this t w = conn_SetDeadline conn t w)
        /\ (forall t, Part001.SetReadDeadline this t w = conn_SetReadDeadline conn t w)
        /\ (forall t, Part001.SetWriteDeadline this t w = conn_SetWriteDeadline conn t w)).
Proof.
  intros [Hr [Hw [He Hc]]].
  split; [|split; [|split]].
  - intros reader b Hmethod Hcontract.
    destruct (reader b w) as [[[[b' n] err]|p] w1] eqn:Hcall.
    + rewrite (Read_run this reader b b' n err w w1 Hmethod Hcall
                 (Hcontract _ _ _ _ eq_refl)).
      destruct (n >? 0); destruct err;
        cbn [app is_nil invoke_all invoke]; rewrite ?Hr, ?He; reflexivity.
    + unfold Part001.Read, assert_Reader. rewrite Hmethod.
      unfold bind at 1 2. cbn [ret]. now rewrite Hcall.
  - intros writer b Hmethod Hcontract.
    destruct (writer b w) as [[[n err]|p] w1] eqn:Hcall.
    + rewrite (Write_run this writer b n err w w1 Hmethod Hcall
                 (Hcontract _ _ _ eq_refl)).
      destruct (n >? 0); destruct err;
        cbn [app is_nil invoke_all invoke]; rewrite ?Hw, ?He; reflexivity.
    + unfold Part001.Write, assert_Writer. rewrite Hmethod.
      unfold bind at 1 2. cbn [ret]. now rewrite Hcall.
  - intros closer Hmethod.
    destruct (closer w) as [[err|p] w1] eqn:Hcall.
    + rewrite (Close_run this closer err w w1 Hmethod Hcall).
      destruct err; cbn [is_nil invoke_all invoke]; rewrite ?Hc, ?He; reflexivity.
    + unfold Part001.Close, assert_Closer. rewrite Hmethod.
      unfold bind at 1 2. cbn [ret]. now rewrite Hcall.
  - intros conn Hconn.
    unfold Part001.LocalAddr, Part001.RemoteAddr, Part001.SetDeadline,
      Part001.SetReadDeadline, Part001.SetWriteDeadline, assert_Conn.
    rewrite Hconn, He.
    split; [apply bind_run|]. split; [apply bind_run|].
    split; [|split]; intros t; unfold bind at 1 2; cbn [ret].
    + destruct (conn_SetDeadline conn t w) as [[[e|]|p] w1]; reflexivity.
    + destruct (conn_SetReadDeadline conn t w) as [[[e|]|p] w1]; reflexivity.
    + destruct (conn_SetWriteDeadline conn t w) as [[[e|]|p] w1]; reflexivity.
Qed.

(** X4. With every template empty the log and writer constructors build a
    proxy that cannot be told from its target: each operation runs the
    target's method and nothing else, with the same result and the same
    final state (for [Read] and [Write], as long as the target keeps its
    count within the buffer's capacity). *)
Theorem silent_proxy_is_transparent :
  forall (W : Type) (Sprintf : string -> list arg -> string)
         (Output : string -> M W unit) (o : Object W) (sink : WriteFunc W)
         (this : @Part001.LoggedIOProxy W) (w : W),
    In this [Part001.StringToLog Sprintf Output o "" "" "" "";
             Part001.HexToLog Sprintf Output o "" "" "" "";
             Part001.StringToWriter Sprintf o sink "" "" "" "";
             Part001.HexToWriter Sprintf o sink "" "" "" ""] ->
    (forall reader b,
       method_Read o = Some reader ->
       (forall b' n err w1, reader b w = (Returned (b', n, err), w1) ->
                            n <= Z.of_nat (cap b')) ->
       Part001.Read this b w = reader b w)
    /\ (forall writer b,
          method_Write o = Some writer ->
          (forall n err w1, writer b w = (Returned (n, err), w1) ->
                            n <= Z.of_nat (cap b)) ->
          Part001.Write this b w = writer b w)
    /\ (forall closer,
          method_Close o = Some closer ->
          Part001.Close this w = closer w)
    /\ (forall conn,
          as_Conn o = Some conn ->
          Part001.LocalAddr this w = conn_LocalAddr conn w
          /\ Part001.RemoteAddr this w = conn_RemoteAddr conn w
          /\ (forall t, Part001.SetDeadline this t w = conn_SetDeadline conn t w)
          /\ (forall t, Part001.SetReadDeadline this t w = conn_SetReadDeadline conn t w)
          /\ (forall t, Part001.SetWriteDeadline this t w = conn_SetWriteDeadline conn t w)).
Proof.
  intros W Sprintf Output o sink this w Hin.
  assert (Hquiet : quiet this /\ Part001.proxiedObject this = o).
  { cbn [In] in Hin.
    destruct Hin as [H|[H|[H|[H|[]]]]]; subst this; repeat split. }
  destruct Hquiet as [Hquiet Hobj].
  pose proof (quiet_proxy_is_transparent this w Hquiet) as H.
  rewrite Hobj in H. exact H.
Qed.

(** A run of X4: a silent writer-mode proxy around a [MockIO] that accepts
    two bytes and fails leaves the sink empty and gives the mock's result. *)
Lemma silent_proxy_is_transparent_witness :
  Part001.Write
    (Part001.StringToWriter Mocks.Sprintf Mocks.MockIO_object Mocks.Buffer_Write
       "" "" "" "")
    Mocks.test_bytes Mocks.short_writes
  = (Returned (2, Some "ERROR!"%string),
     Mocks.mkWorld
       (Mocks.mkMockIO ["t"%byte; "e"%byte] 0 0 0 0 0 0 2 0 false) [] [] []).
Proof.
  destruct (silent_proxy_is_transparent Mocks.World Mocks.Sprintf Mocks.Logger_Output
              Mocks.MockIO_object Mocks.Buffer_Write
              (Part001.StringToWriter Mocks.Sprintf Mocks.MockIO_object
                 Mocks.Buffer_Write "" "" "" "")
              Mocks.short_writes
              (or_intror (or_intror (or_introl eq_refl))))
    as [_ [Hwrite _]].
  rewrite (Hwrite Mocks.MockIO_Write Mocks.test_bytes eq_refl).
  - reflexivity.
  - intros n err w1 Hcall. vm_compute in Hcall.
    inversion Hcall. vm_compute. discriminate.
Defined.

(* ===================================================================== *)
(** * Counts out of range, and panics *)
(* ===================================================================== *)

(** X5. A count beyond the buffer's capacity is caught by the slice
    expression: when the target's [Read] or [Write] returns such a count the
    operation panics with the bounds failure, in the state the target left,
    before any callback runs and whatever the error beside the count. *)
Theorem count_beyond_capacity_panics :
  forall (W : Type) (this : @Part001.LoggedIOProxy W) (b : slice) (w w' : W),
    (forall reader b' n err,
       method_Read (Part001.proxiedObject this) = Some reader ->
       reader b w = (Returned (b', n, err), w') ->
       Z.of_nat (cap b') < n ->
       Part001.Read this b w = (Panicked (SliceBoundsOutOfRange n (cap b')), w'))
    /\ (forall writer n err,
          method_Write (Part001.proxiedObject this) = Some writer ->
          writer b w = (Returned (n, err), w') ->
          Z.of_nat (cap b) < n ->
          Part001.Write this b w = (Panicked (SliceBoundsOutOfRange n (cap b)), w')).
Proof.
  intros W this b w w'. split.
  - intros reader b' n err Hmethod Hcall Hbig.
    unfold Part001.Read, assert_Reader. rewrite Hmethod.
    unfold bind at 1 2. cbn [ret]. rewrite Hcall.
    assert (Hn : (n >? 0) = true) by (apply Z.gtb_lt; lia).
    rewrite Hn. cbn [when]. rewrite slice_to_out_of_range by exact Hbig.
    reflexivity.
  - intros writer n err Hmethod Hcall Hbig.
    unfold Part001.Write, assert_Writer. rewrite Hmethod.
    unfold bind at 1 2. cbn [ret]. rewrite Hcall.
    assert (Hn : (n >? 0) = true) by (apply Z.gtb_lt; lia).
    rewrite Hn. cbn [when]. rewrite slice_to_out_of_range by exact Hbig.
    reflexivity.
Qed.

(** A run of X5: a reader and a writer claiming five bytes of a four-byte
    buffer; nothing is recorded. *)
Lemma count_beyond_capacity_panics_witness :
  Part001.Read (Mocks.recording "p" Doubles.Greedy_object)
    Mocks.test_bytes Mocks.fresh
  = (Panicked (SliceBoundsOutOfRange 5 4), Mocks.fresh)
  /\ Part001.Write (Mocks.recording "p" Doubles.Greedy_object)
       Mocks.test_bytes Mocks.fresh
     = (Panicked (SliceBoundsOutOfRange 5 4), Mocks.fresh).
Proof.
  destruct (count_beyond_capacity_panics Mocks.World
              (Mocks.recording "p" Doubles.Greedy_object)
              Mocks.test_bytes Mocks.fresh Mocks.fresh)
    as [Hread Hwrite].
  split.
  - exact (Hread Doubles.Greedy_Read Mocks.test_bytes 5 None eq_refl eq_refl
             ltac:(vm_compute; reflexivity)).
  - exact (Hwrite Doubles.Greedy_Write 5 None eq_refl eq_refl
             ltac:(vm_compute; reflexivity)).
Defined.

(** X6. The proxy recovers from nothing: a panic of the target's method
    leaves each of the eight operations with the same panic value in the
    state the target left, and no callback runs. *)
Theorem target_panic_passes_through :
  forall (W : Type) (this : @Part001.LoggedIOProxy W) (p : panic) (w w' : W),
    (forall reader b,
       method_Read (Part001.proxiedObject this) = Some reader ->
       reader b w = (Panicked p, w') ->
       Part001.Read this b w = (Panicked p, w'))
    /\ (forall writer b,
          method_Write (Part001.proxiedObject this) = Some writer ->
          writer b w = (Panicked p, w') ->
          Part001.Write this b w = (Panicked p, w'))
    /\ (forall closer,
          method_Close (Part001.proxiedObject this) = Some closer ->
          closer w = (Panicked p, w') ->
          Part001.Close this w = (Panicked p, w'))
    /\ (forall conn,
          as_Conn (Part001.proxiedObject this) = Some conn ->
          (conn_LocalAddr conn w = (Panicked p, w') ->
           Part001.LocalAddr this w = (Panicked p, w'))
          /\ (conn_RemoteAddr conn w = (Panicked p, w') ->
              Part001.RemoteAddr this w = (Panicked p, w'))
          /\ (forall t, conn_SetDeadline conn t w = (Panicked p, w') ->
                        Part001.SetDeadline this t w = (Panicked p, w'))
          /\ (forall t, conn_SetReadDeadline conn t w = (Panicked p, w') ->
                        Part001.SetReadDeadline this t w = (Panicked p, w'))
          /\ (forall t, conn_SetWriteDeadline conn t w = (Panicked p, w') ->
                        Part001.SetWriteDeadline this t w = (Panicked p, w'))).
Proof.
  intros W this p w w'.
  split; [|split; [|split]].
  - intros reader b Hmethod Hcall.
    unfold Part001.Read, assert_Reader. rewrite Hmethod.
    unfold bind at 1 2. cbn [ret]. now rewrite Hcall.
  - intros writer b Hmethod Hcall.
    unfold Part001.Write, assert_Writer. rewrite Hmethod.
    unfold bind at 1 2. cbn [ret]. now rewrite Hcall.
  - intros closer Hmethod Hcall.
    unfold Part001.Close, assert_Closer. rewrite Hmethod.
    unfold bind at 1 2. cbn [ret]. now rewrite Hcall.
  - intros conn Hconn.
    unfold Part001.LocalAddr, Part001.RemoteAddr, Part001.SetDeadline,
      Part001.SetReadDeadline, Part001.SetWriteDeadline, assert_Conn.
    rewrite Hconn.
    split; [intros Hcall; rewrite bind_run; cbn [ret]; exact Hcall|].
    split; [intros Hcall; rewrite bind_run; cbn [ret]; exact Hcall|].
    split; [|split]; intros t Hcall; unfold bind at 1 2; cbn [ret];
      now rewrite Hcall.
Qed.

(** A run of X6 on a connection whose methods all panic. *)
Lemma target_panic_passes_through_witness :
  Part001.Read (Mocks.recording "p" Doubles.Broken_object)
    Mocks.test_bytes Mocks.fresh
  = (Panicked (PanicValue "boom"), Mocks.fresh)
  /\ Part001.Close (Mocks.recording "p" Doubles.Broken_object) Mocks.fresh
     = (Panicked (PanicValue "boom"), Mocks.fresh)
  /\ Part001.SetDeadline (Mocks.recording "p" Doubles.Broken_object) 7 Mocks.fresh
     = (Panicked (PanicValue "boom"), Mocks.fresh).
Proof.
  destruct (target_panic_passes_through Mocks.World
              (Mocks.recording "p" Doubles.Broken_object)
              (PanicValue "boom") Mocks.fresh Mocks.fresh)
    as [Hread [_ [Hclose Hconn]]].
  split; [exact (Hread _ Mocks.test_bytes eq_refl eq_refl)|].
  split; [exact (Hclose _ eq_refl eq_refl)|].
  destruct (Hconn _ eq_refl) as [_ [_ [Hdeadline _]]].
  exact (Hdeadline 7 eq_refl).
Defined.

(** X7. A callback that panics ends the operation there: when the data
    callback of [Read] or [Write], or the close callback of [Close], panics,
    the operation panics with the callback's value in the state the callback
    left, and the error callback is not called even if the target also
    returned an error. *)
Theorem callback_panic_ends_the_operation :
  forall (W : Type) (this : @Part001.LoggedIOProxy W) (p : panic) (w w1 w2 : W),
    (forall reader b b' n err,
       method_Read (Part001.proxiedObject this) = Some reader ->
       reader b w = (Returned (b', n, err), w1) ->
       0 < n <= Z.of_nat (cap b') ->
       Part001.reportReadEvent this (slice_prefix b' n) w1 = (Panicked p, w2) ->
       Part001.Read this b w = (Panicked p, w2))
    /\ (forall writer b n err,
          method_Write (Part001.proxiedObject this) = Some writer ->
          writer b w = (Returned (n, err), w1) ->
          0 < n <= Z.of_nat (cap b) ->
          Part001.reportWriteEvent this (slice_prefix b n) w1 = (Panicked p, w2) ->
          Part001.Write this b w = (Panicked p, w2))
    /\ (forall closer err,
          method_Close (Part001.proxiedObject this) = Some closer ->
          closer w = (Returned err, w1) ->
          Part001.reportCloseEvent this w1 = (Panicked p, w2) ->
          Part001.Close this w = (Panicked p, w2)).
Proof.
  intros W this p w w1 w2.
  split; [|split].
  - intros reader b b' n err Hmethod Hcall [Hpos Hcap] Hcb.
    rewrite (Read_run this reader b b' n err w w1 Hmethod Hcall Hcap).
    assert (Hn : (n >? 0) = true) by (apply Z.gtb_lt; lia).
    rewrite Hn. cbn [app invoke_all invoke].
    unfold bind at 1 2. now rewrite Hcb.
  - intros writer b n err Hmethod Hcall [Hpos Hcap] Hcb.
    rewrite (Write_run this writer b n err w w1 Hmethod Hcall Hcap).
    assert (Hn : (n >? 0) = true) by (apply Z.gtb_lt; lia).
    rewrite Hn. cbn [app invoke_all invoke].
    unfold bind at 1 2. now rewrite Hcb.
  - intros closer err Hmethod Hcall Hcb.
    rewrite (Close_run this closer err w w1 Hmethod Hcall).
    cbn [invoke_all invoke].
    unfold bind at 1 2. now rewrite Hcb.
Qed.

(** A run of X7: the target stores two bytes and fails; the read callback
    panics, and the recording error callback is never reached. *)
Lemma callback_panic_ends_the_operation_witness :
  Part001.Read (Doubles.fragile Mocks.MockIO_object)
    (slice_of [x00; x00; x00]) Mocks.short_reads
  = (Panicked (PanicValue "read callback"), Mocks.short_reads)
  /\ Part001.Close (Doubles.fragile Mocks.MockIO_object) Mocks.failing
     = (Panicked (PanicValue "close callback"),
        Mocks.mkWorld (Mocks.mkMockIO [] 1 0 0 0 0 0 0 0 true) [] [] []).
Proof.
  destruct (callback_panic_ends_the_operation Mocks.World
              (Doubles.fragile Mocks.MockIO_object)
              (PanicValue "read callback")
              Mocks.short_reads Mocks.short_reads Mocks.short_reads)
    as [Hread _].
  destruct (callback_panic_ends_the_operation Mocks.World
              (Doubles.fragile Mocks.MockIO_object)
              (PanicValue "close callback") Mocks.failing
              (Mocks.mkWorld (Mocks.mkMockIO [] 1 0 0 0 0 0 0 0 true) [] [] [])
              (Mocks.mkWorld (Mocks.mkMockIO [] 1 0 0 0 0 0 0 0 true) [] [] []))
    as [_ [_ Hclose]].
  split.
  - exact (Hread Mocks.MockIO_Read (slice_of [x00; x00; x00])
             (mkSlice ["a"%byte; "b"%byte; x00] 3) 2 (Some "ERROR!"%string)
             eq_refl eq_refl
             ltac:(vm_compute; split; [reflexivity | discriminate]) eq_refl).
  - exact (Hclose Mocks.MockIO_Close (Some "ERROR!"%string) eq_refl eq_refl eq_refl).
Defined.

(* ===================================================================== *)
(** * More on chained proxies *)
(* ===================================================================== *)

(** X8. Chained reads report from the inside out: when [outer] wraps [inner]
    and the target's [Read] returns [n] (within capacity) and [err], [inner]
    makes its reports (data if [n > 0], then error if any), then [outer]
    makes the same reports, and the caller gets the target's result. *)
Theorem chained_Read_reports_inner_then_outer :
  forall (W : Type) (inner outer : @Part001.LoggedIOProxy W) (reader : ReadFunc W)
         (b b' : slice) (n : Z) (err : error) (w w' : W),
    Part001.proxiedObject outer = Part001.as_Object inner ->
    method_Read (Part001.proxiedObject inner) = Some reader ->
    reader b w = (Returned (b', n, err), w') ->
    n <= Z.of_nat (cap b') ->
    Part001.Read outer b w
    = (invoke_all inner
         ((if n >? 0 then [ReportRead (slice_prefix b' n)] else [])
          ++ (if is_nil err then [] else [ReportError "Read()" err])) ;;
       invoke_all outer
         ((if n >? 0 then [ReportRead (slice_prefix b' n)] else [])
          ++ (if is_nil err then [] else [ReportError "Read()" err])) ;;
       ret (b', n, err)) w'.
Proof.
  intros W inner outer reader b b' n err w w' Houter Hmethod Hcall Hcap.
  unfold Part001.Read at 1. rewrite Houter.
  cbn [Part001.as_Object method_Read assert_Reader].
  unfold bind at 1 2. cbn [ret].
  rewrite (Read_run inner reader b b' n err w w' Hmethod Hcall Hcap).
  unfold bind at 1.
  rewrite (bind_run (invoke_all inner _) _ w').
  destruct (invoke_all inner _ w') as [[[]|p] w1]; [|reflexivity].
  cbn [ret].
  apply (Read_after_target outer b' n err w1 Hcap).
Qed.

(** A run of X8: the target stores two bytes and fails. *)
Lemma chained_Read_reports_inner_then_outer_witness :
  Mocks.calls
    (snd (Part001.Read
            (Mocks.recording "outer"
               (Part001.as_Object (Mocks.recording "inner" Mocks.MockIO_object)))
            (slice_of [x00; x00; x00]) Mocks.short_reads))
  = [("inner"%string, ReportRead (mkSlice ["a"%byte; "b"%byte; x00] 2));
     ("inner"%string, ReportError "Read()" (Some "ERROR!"%string));
     ("outer"%string, ReportRead (mkSlice ["a"%byte; "b"%byte; x00] 2));
     ("outer"%string, ReportError "Read()" (Some "ERROR!"%string))].
Proof.
  rewrite (chained_Read_reports_inner_then_outer Mocks.World
             (Mocks.recording "inner" Mocks.MockIO_object)
             (Mocks.recording "outer"
                (Part001.as_Object (Mocks.recording "inner" Mocks.MockIO_object)))
             Mocks.MockIO_Read (slice_of [x00; x00; x00])
             (mkSlice ["a"%byte; "b"%byte; x00] 3) 2 (Some "ERROR!"%string)
             Mocks.short_reads Mocks.short_reads
             eq_refl eq_refl eq_refl ltac:(vm_compute; discriminate)).
  reflexivity.
Defined.

(** X9. Chained closes report from the inside out: the target is closed
    once, then [inner] reports the close (and the error, if any), then
    [outer] does, and the caller gets the target's error. *)
Theorem chained_Close_reports_inner_then_outer :
  forall (W : Type) (inner outer : @Part001.LoggedIOProxy W) (closer : CloseFunc W)
         (err : error) (w w' : W),
    Part001.proxiedObject outer = Part001.as_Object inner ->
    method_Close (Part001.proxiedObject inner) = Some closer ->
    closer w = (Returned err, w') ->
    Part001.Close outer w
    = (invoke_all inner
         (ReportClose :: (if is_nil err then [] else [ReportError "Close()" err])) ;;
       invoke_all outer
         (ReportClose :: (if is_nil err then [] else [ReportError "Close()" err])) ;;
       ret err) w'.
Proof.
  intros W inner outer closer err w w' Houter Hmethod Hcall.
  unfold Part001.Close at 1. rewrite Houter.
  cbn [Part001.as_Object method_Close assert_Closer].
  unfold bind at 1 2. cbn [ret].
  rewrite (Close_run inner closer err w w' Hmethod Hcall).
  unfold bind at 1.
  rewrite (bind_run (invoke_all inner _) _ w').
  destruct (invoke_all inner _ w') as [[[]|p] w1]; [|reflexivity].
  cbn [ret].
  apply (Close_after_target outer err w1).
Qed.

(** A run of X9: one close of the mock, two close reports, two error
    reports. *)
Lemma chained_Close_reports_inner_then_outer_witness :
  Part001.Close
    (Mocks.recording "outer"
       (Part001.as_Object (Mocks.recording "inner" Mocks.MockIO_object)))
    Mocks.failing
  = (Returned (Some "ERROR!"%string),
     Mocks.mkWorld (Mocks.mkMockIO [] 1 0 0 0 0 0 0 0 true) [] []
       [("inner"%string, ReportClose);
        ("inner"%string, ReportError "Close()" (Some "ERROR!"%string));
        ("outer"%string, ReportClose);
        ("outer"%string, ReportError "Close()" (Some "ERROR!"%string))]).
Proof.
  rewrite (chained_Close_reports_inner_then_outer Mocks.World
             (Mocks.recording "inner" Mocks.MockIO_object)
             (Mocks.recording "outer"
                (Part001.as_Object (Mocks.recording "inner" Mocks.MockIO_object)))
             Mocks.MockIO_Close (Some "ERROR!"%string) Mocks.failing
             (Mocks.mkWorld (Mocks.mkMockIO [] 1 0 0 0 0 0 0 0 true) [] [] [])
             eq_refl eq_refl eq_refl).
  reflexivity.
Defined.

(** X10. A proxy satisfies all four interfaces whatever it wraps, so
    wrapping a proxy moves the capability check inwards: every type
    assertion on a proxy succeeds, and an operation of [outer] whose
    capability the innermost object lacks panics with the interface
    conversion raised inside [inner], before any target method or callback
    of either proxy runs. *)
Theorem wrapped_proxy_defers_the_capability_check :
  forall (W : Type) (inner outer : @Part001.LoggedIOProxy W) (w : W),
    Part001.proxiedObject outer = Part001.as_Object inner ->
    as_Conn (Part001.proxiedObject outer) <> None
    /\ (method_Read (Part001.proxiedObject inner) = None ->
        forall b, Part001.Read outer b w
                  = (Panicked (InterfaceConversion "io.Reader"), w))
    /\ (method_Write (Part001.proxiedObject inner) = None ->
        forall b, Part001.Write outer b w
                  = (Panicked (InterfaceConversion "io.Writer"), w))
    /\ (method_Close (Part001.proxiedObject inner) = None ->
        Part001.Close outer w = (Panicked (InterfaceConversion "io.Closer"), w))
    /\ (as_Conn (Part001.proxiedObject inner) = None ->
        Part001.LocalAddr outer w = (Panicked (InterfaceConversion "net.Conn"), w)
        /\ Part001.RemoteAddr outer w = (Panicked (InterfaceConversion "net.Conn"), w)
        /\ (forall t, Part001.SetDeadline outer t w
                      = (Panicked (InterfaceConversion "net.Conn"), w))
        /\ (forall t, Part001.SetReadDeadline outer t w
                      = (Panicked (InterfaceConversion "net.Conn"), w))
        /\ (forall t, Part001.SetWriteDeadline outer t w
                      = (Panicked (InterfaceConversion "net.Conn"), w))).
Proof.
  intros W inner outer w Houter.
  split; [rewrite Houter; discriminate|].
  split; [intros H b; unfold Part001.Read at 1; rewrite Houter;
          cbn [Part001.as_Object method_Read assert_Reader];
          unfold bind at 1 2; cbn [ret];
          unfold Part001.Read, assert_Reader, bind; now rewrite H|].
  split; [intros H b; unfold Part001.Write at 1; rewrite Houter;
          cbn [Part001.as_Object method_Write assert_Writer];
          unfold bind at 1 2; cbn [ret];
          unfold Part001.Write, assert_Writer, bind; now rewrite H|].
  split; [intros H; unfold Part001.Close at 1; rewrite Houter;
          cbn [Part001.as_Object method_Close assert_Closer];
          unfold bind at 1 2; cbn [ret];
          unfold Part001.Close, assert_Closer, bind; now rewrite H|].
  intros H.
  assert (Hconn : as_Conn (Part001.as_Object inner)
                  = Some (mkConn (Part001.Read inner) (Part001.Write inner)
                            (Part001.Close inner) (Part001.LocalAddr inner)
                            (Part001.RemoteAddr inner) (Part001.SetDeadline inner)
                            (Part001.SetReadDeadline inner)
                            (Part001.SetWriteDeadline inner))) by reflexivity.
  unfold Part001.LocalAddr at 1, Part001.RemoteAddr at 1, Part001.SetDeadline at 1,
    Part001.SetReadDeadline at 1, Part001.SetWriteDeadline at 1.
  rewrite Houter. unfold assert_Conn at 1 2 3 4 5. rewrite Hconn.
  repeat split; intros;
    unfold bind at 1; cbn [ret conn_LocalAddr conn_RemoteAddr conn_SetDeadline
                             conn_SetReadDeadline conn_SetWriteDeadline];
    unfold Part001.LocalAddr, Part001.RemoteAddr, Part001.SetDeadline,
      Part001.SetReadDeadline, Part001.SetWriteDeadline, assert_Conn, bind;
    now rewrite H.
Qed.

(** A run of X10: a proxy around a proxy around a [MockReader] can be asked
    for anything; [Write] and [LocalAddr] fail inside, untouched state. *)
Lemma wrapped_proxy_defers_the_capability_check_witness :
  (forall b,
     Part001.Write
       (Mocks.recording "outer"
          (Part001.as_Object (Mocks.recording "inner" Mocks.MockReader_object)))
       b Mocks.fresh
     = (Panicked (InterfaceConversion "io.Writer"), Mocks.fresh))
  /\ Part001.LocalAddr
       (Mocks.recording "outer"
          (Part001.as_Object (Mocks.recording "inner" Mocks.MockReader_object)))
       Mocks.fresh
     = (Panicked (InterfaceConversion "net.Conn"), Mocks.fresh).
Proof.
  destruct (wrapped_proxy_defers_the_capability_check Mocks.World
              (Mocks.recording "inner" Mocks.MockReader_object)
              (Mocks.recording "outer"
                 (Part001.as_Object (Mocks.recording "inner" Mocks.MockReader_object)))
              Mocks.fresh eq_refl)
    as [_ [_ [Hwrite [_ Hconn]]]].
  split; [exact (Hwrite eq_refl) | exact (proj1 (Hconn eq_refl))].
Defined.

(* ===================================================================== *)
(** * The dump constructors *)
(* ===================================================================== *)

(** X11. [DumpToWriters] keeps the three streams apart. A [Read] that moved
    [n > 0] bytes hands exactly those bytes, unformatted, to [readWriter] in
    one [Write]; a [Write] hands the accepted prefix to [writeWriter]; the
    other data writer is not touched. If the data writer fails, that error is
    sent to [notifyWriter] under ["LoggedIO readWriter"] (or
    ["LoggedIO writeWriter"]) before the target's own error, and the caller
    still gets the target's result. *)
Theorem DumpToWriters_routes_the_streams :
  forall (W : Type) (Sprintf : string -> list arg -> string) (o : Object W)
         (readWriter writeWriter notifyWriter : WriteFunc W)
         (errorFmt closeMsg : string) (w w1 w2 : W),
    (forall reader b b' n err k sinkErr,
       method_Read o = Some reader ->
       reader b w = (Returned (b', n, err), w1) ->
       0 < n <= Z.of_nat (cap b') ->
       readWriter (slice_prefix b' n) w1 = (Returned (k, sinkErr), w2) ->
       Part001.Read
         (Part001.DumpToWriters Sprintf o readWriter writeWriter notifyWriter
            errorFmt closeMsg) b w
       = (notification Sprintf notifyWriter errorFmt "LoggedIO readWriter" sinkErr ;;
          notification Sprintf notifyWriter errorFmt "Read()" err ;;
          ret (b', n, err)) w2)
    /\ (forall writer b n err k sinkErr,
          method_Write o = Some writer ->
          writer b w = (Returned (n, err), w1) ->
          0 < n <= Z.of_nat (cap b) ->
          writeWriter (slice_prefix b n) w1 = (Returned (k, sinkErr), w2) ->
          Part001.Write
            (Part001.DumpToWriters Sprintf o readWriter writeWriter notifyWriter
               errorFmt closeMsg) b w
          = (notification Sprintf notifyWriter errorFmt "LoggedIO writeWriter" sinkErr ;;
             notification Sprintf notifyWriter errorFmt "Write()" err ;;
             ret (n, err)) w2).
Proof.
  intros W Sprintf o readWriter writeWriter notifyWriter errorFmt closeMsg w w1 w2.
  split.
  - intros reader b b' n err k sinkErr Hmethod Hcall [Hpos Hcap] Hsink.
    assert (Hn : (n >? 0) = true) by (apply Z.gtb_lt; lia).
    rewrite (Read_run
               (Part001.DumpToWriters Sprintf o readWriter writeWriter notifyWriter
                  errorFmt closeMsg)
               reader b b' n err w w1 Hmethod Hcall Hcap).
    rewrite Hn.
    cbn [app invoke_all invoke Part001.DumpToWriters Part001.Generic
           Part001.reportReadEvent Part001.reportErrorEvent].
    unfold bind at 1 2 3. rewrite Hsink.
    unfold notification, when.
    destruct sinkErr, err;
      cbn [is_nil negb orb app invoke_all invoke Part001.reportErrorEvent
             Part001.DumpToWriters Part001.Generic];
      unfold Part001.errFunc, Fprintf;
      destruct (String.eqb errorFmt "");
      unfold Part001.discard, bind, ret; by_cases_on_calls; reflexivity.
  - intros writer b n err k sinkErr Hmethod Hcall [Hpos Hcap] Hsink.
    assert (Hn : (n >? 0) = true) by (apply Z.gtb_lt; lia).
    rewrite (Write_run
               (Part001.DumpToWriters Sprintf o readWriter writeWriter notifyWriter
                  errorFmt closeMsg)
               writer b n err w w1 Hmethod Hcall Hcap).
    rewrite Hn.
    cbn [app invoke_all invoke Part001.DumpToWriters Part001.Generic
           Part001.reportWriteEvent Part001.reportErrorEvent].
    unfold bind at 1 2 3. rewrite Hsink.
    unfold notification, when.
    destruct sinkErr, err;
      cbn [is_nil negb orb app invoke_all invoke Part001.reportErrorEvent
             Part001.DumpToWriters Part001.Generic];
      unfold Part001.errFunc, Fprintf;
      destruct (String.eqb errorFmt "");
      unfold Part001.discard, bind, ret; by_cases_on_calls; reflexivity.
Qed.

(** A run of X11: the read sink is full and the target fails after two
    bytes; the notify writer gets the sink's error, then the target's. *)
Lemma DumpToWriters_routes_the_streams_witness :
  Part001.Read
    (Part001.DumpToWriters Mocks.Sprintf Mocks.MockIO_object
       Doubles.Full_Write Mocks.NullWriter_Write Mocks.Buffer_Write
       "E [%v: %v]" "C")
    (slice_of [x00; x00; x00]) Mocks.short_reads
  = (Returned (mkSlice ["a"%byte; "b"%byte; x00] 3, 2, Some "ERROR!"%string),
     Mocks.mkWorld (Mocks.mock Mocks.short_reads)
       (bytes_of_string "E [LoggedIO readWriter: disk full]E [Read(): ERROR!]")
       [] [])
  /\ Part001.Write
       (Part001.DumpToWriters Mocks.Sprintf Mocks.MockIO_object
          Mocks.NullWriter_Write Mocks.Buffer_Write Mocks.NullWriter_Write
          "E [%v: %v]" "C")
       Mocks.test_bytes Mocks.fresh
     = (Returned (4, None),
        Mocks.mkWorld
          (Mocks.mkMockIO (elems Mocks.test_bytes) 0 0 0 0 0 0 0 0 false)
          (elems Mocks.test_bytes) [] []).
Proof.
  split.
  - destruct (DumpToWriters_routes_the_streams Mocks.World Mocks.Sprintf
                Mocks.MockIO_object Doubles.Full_Write Mocks.NullWriter_Write
                Mocks.Buffer_Write "E [%v: %v]" "C"
                Mocks.short_reads Mocks.short_reads Mocks.short_reads)
      as [Hread _].
    rewrite (Hread Mocks.MockIO_Read (slice_of [x00; x00; x00])
               (mkSlice ["a"%byte; "b"%byte; x00] 3) 2 (Some "ERROR!"%string)
               0 (Some "disk full"%string) eq_refl eq_refl
               ltac:(vm_compute; split; [reflexivity | discriminate]) eq_refl).
    reflexivity.
  - destruct (DumpToWriters_routes_the_streams Mocks.World Mocks.Sprintf
                Mocks.MockIO_object Mocks.NullWriter_Write Mocks.Buffer_Write
                Mocks.NullWriter_Write "E [%v: %v]" "C" Mocks.fresh
                (Mocks.mkWorld
                   (Mocks.mkMockIO (elems Mocks.test_bytes) 0 0 0 0 0 0 0 0 false)
                   [] [] [])
                (Mocks.mkWorld
                   (Mocks.mkMockIO (elems Mocks.test_bytes) 0 0 0 0 0 0 0 0 false)
                   (elems Mocks.test_bytes) [] []))
      as [_ Hwrite].
    rewrite (Hwrite Mocks.MockIO_Write Mocks.test_bytes 4 None 4 None
               eq_refl eq_refl
               ltac:(vm_compute; split; [reflexivity | discriminate]) eq_refl).
    reflexivity.
Defined.

(* ===================================================================== *)
(** * What the writer constructors print *)
(* ===================================================================== *)

(** X12. Through [StringToWriter] and [HexToWriter] a [Read] that moved
    [n > 0] bytes sends the sink one line, [readFmt] applied to the bytes as
    a string (or to their hex dump), then one line for the target's error if
    any, [errorFmt] applied to ["Read()"] and the error; a [Close] sends the
    close message as it is, unformatted, then the error line. An empty
    template sends nothing. What the sink's [Write] returns, even an error,
    is dropped: the caller gets the target's result. *)
Theorem writer_constructors_print_reads_and_closes :
  forall (W : Type) (Sprintf : string -> list arg -> string) (o : Object W)
         (sink : WriteFunc W) (readFmt writeFmt errorFmt closeMsg : string)
         (w w1 : W),
    (forall reader b b' n err,
       method_Read o = Some reader ->
       reader b w = (Returned (b', n, err), w1) ->
       0 < n <= Z.of_nat (cap b') ->
       Part001.Read
         (Part001.StringToWriter Sprintf o sink readFmt writeFmt errorFmt closeMsg) b w
       = (print Sprintf sink readFmt
            [ArgString (string_of_bytes (firstn (Z.to_nat n) (arr b')))] ;;
          print_error Sprintf sink errorFmt "Read()" err ;;
          ret (b', n, err)) w1
       /\ Part001.Read
            (Part001.HexToWriter Sprintf o sink readFmt writeFmt errorFmt closeMsg) b w
          = (print Sprintf sink readFmt
               [ArgString (toHex (firstn (Z.to_nat n) (arr b')))] ;;
             print_error Sprintf sink errorFmt "Read()" err ;;
             ret (b', n, err)) w1)
    /\ (forall closer err,
          method_Close o = Some closer ->
          closer w = (Returned err, w1) ->
          forall this,
            In this
              [Part001.StringToWriter Sprintf o sink readFmt writeFmt errorFmt closeMsg;
               Part001.HexToWriter Sprintf o sink readFmt writeFmt errorFmt closeMsg] ->
            Part001.Close this w
            = ((if String.eqb closeMsg "" then ret tt
                else Part001.discard (sink (slice_of (bytes_of_string closeMsg)))) ;;
               print_error Sprintf sink errorFmt "Close()" err ;;
               ret err) w1).
Proof.
  intros W Sprintf o sink readFmt writeFmt errorFmt closeMsg w w1.
  split.
  - intros reader b b' n err Hmethod Hcall [Hpos Hcap].
    assert (Hn : (n >? 0) = true) by (apply Z.gtb_lt; lia).
    split.
    + rewrite (Read_run
                 (Part001.StringToWriter Sprintf o sink readFmt writeFmt errorFmt closeMsg)
                 reader b b' n err w w1 Hmethod Hcall Hcap).
      rewrite Hn. unfold print_error, print.
      destruct err;
        cbn [is_nil app invoke_all invoke Part001.StringToWriter Part001.Generic
               Part001.reportReadEvent Part001.reportErrorEvent];
        unfold Part001.byteFunc, Part001.errFunc;
        destruct (String.eqb readFmt ""); destruct (String.eqb errorFmt "");
        unfold Part001.discard, bind, ret;
        try change (elems (slice_prefix b' n)) with (firstn (Z.to_nat n) (arr b'));
        by_cases_on_calls; reflexivity.
    + rewrite (Read_run
                 (Part001.HexToWriter Sprintf o sink readFmt writeFmt errorFmt closeMsg)
                 reader b b' n err w w1 Hmethod Hcall Hcap).
      rewrite Hn. unfold print_error, print.
      destruct err;
        cbn [is_nil app invoke_all invoke Part001.HexToWriter Part001.Generic
               Part001.reportReadEvent Part001.reportErrorEvent];
        unfold Part001.byteFunc, Part001.errFunc;
        destruct (String.eqb readFmt ""); destruct (String.eqb errorFmt "");
        unfold Part001.discard, bind, ret;
        try change (elems (slice_prefix b' n)) with (firstn (Z.to_nat n) (arr b'));
        by_cases_on_calls; reflexivity.
  - intros closer err Hmethod Hcall this Hin.
    cbn [In] in Hin. destruct Hin as [H|[H|[]]]; subst this.
    + rewrite (Close_run
                 (Part001.StringToWriter Sprintf o sink readFmt writeFmt errorFmt closeMsg)
                 closer err w w1 Hmethod Hcall).
      unfold print_error, print.
      destruct err;
        cbn [is_nil invoke_all invoke Part001.StringToWriter Part001.Generic
               Part001.reportCloseEvent Part001.reportErrorEvent];
        unfold Part001.closeFunc, Part001.errFunc;
        destruct (String.eqb closeMsg ""); destruct (String.eqb errorFmt "");
        unfold Part001.discard, bind, ret; by_cases_on_calls; reflexivity.
    + rewrite (Close_run
                 (Part001.HexToWriter Sprintf o sink readFmt writeFmt errorFmt closeMsg)
                 closer err w w1 Hmethod Hcall).
      unfold print_error, print.
      destruct err;
        cbn [is_nil invoke_all invoke Part001.HexToWriter Part001.Generic
               Part001.reportCloseEvent Part001.reportErrorEvent];
        unfold Part001.closeFunc, Part001.errFunc;
        destruct (String.eqb closeMsg ""); destruct (String.eqb errorFmt "");
        unfold Part001.discard, bind, ret; by_cases_on_calls; reflexivity.
Qed.

(** A run of X12: the sink is full; the read still returns the mock's two
    bytes and error. *)
Lemma writer_constructors_print_reads_and_closes_witness :
  Part001.Read
    (Part001.HexToWriter Mocks.Sprintf Mocks.MockIO_object Doubles.Full_Write
       "R [%v]" "W [%v]" "E [%v: %v]" "C")
    (slice_of [x00; x00; x00]) Mocks.short_reads
  = (Returned (mkSlice ["a"%byte; "b"%byte; x00] 3, 2, Some "ERROR!"%string),
     Mocks.short_reads)
  /\ string_of_bytes
       (Mocks.buffer
          (snd (Part001.Close
                  (Part001.StringToWriter Mocks.Sprintf Mocks.MockIO_object
                     Mocks.Buffer_Write "R [%v]" "W [%v]" "E [%v: %v]" "100%")
                  Mocks.failing)))
     = "100%E [Close(): ERROR!]"%string.
Proof.
  split.
  - destruct (writer_constructors_print_reads_and_closes Mocks.World Mocks.Sprintf
                Mocks.MockIO_object Doubles.Full_Write
                "R [%v]" "W [%v]" "E [%v: %v]" "C"
                Mocks.short_reads Mocks.short_reads)
      as [Hread _].
    destruct (Hread Mocks.MockIO_Read (slice_of [x00; x00; x00])
                (mkSlice ["a"%byte; "b"%byte; x00] 3) 2 (Some "ERROR!"%string)
                eq_refl eq_refl
                ltac:(vm_compute; split; [reflexivity | discriminate]))
      as [_ Hhex].
    rewrite Hhex. reflexivity.
  - destruct (writer_constructors_print_reads_and_closes Mocks.World Mocks.Sprintf
                Mocks.MockIO_object Mocks.Buffer_Write
                "R [%v]" "W [%v]" "E [%v: %v]" "100%"
                Mocks.failing
                (Mocks.mkWorld (Mocks.mkMockIO [] 1 0 0 0 0 0 0 0 true) [] [] []))
      as [_ Hclose].
    rewrite (Hclose Mocks.MockIO_Close (Some "ERROR!"%string) eq_refl eq_refl
               _ (or_introl eq_refl)).
    reflexivity.
Defined.

(* ===================================================================== *)
(** * The constructors of the two revisions *)
(* ===================================================================== *)

Lemma same_fields_same_operations {W : Type} (old : @LoggedioGo.LoggedIOProxy W)
    (new : @Part001.LoggedIOProxy W) :
  LoggedioGo.proxiedObject old = Part001.proxiedObject new ->
  LoggedioGo.reportReadEvent old = Part001.reportReadEvent new ->
  LoggedioGo.reportWriteEvent old = Part001.reportWriteEvent new ->
  LoggedioGo.reportErrorEvent old = Part001.reportErrorEvent new ->
  LoggedioGo.reportCloseEvent old = Part001.reportCloseEvent new ->
  same_operations old new.
Proof.
  destruct old as [r1 w1 c1 e1 o1 l1], new as [r2 w2 c2 e2 o2 l2].
  cbn. intros -> -> -> -> ->.
  repeat split.
Qed.

Lemma template_not_empty (s : string) : s <> ""%string -> String.eqb s "" = false.
Proof. intros H. now apply String.eqb_neq. Qed.

(** X13. Where no template is empty the constructors of the two revisions
    build the same proxy: [StringToLog] when all four templates are
    non-empty, [HexToLog] when [readFmt], [errorFmt] and [closeMsg] are, and
    [StringToWriter] and [HexToWriter] under the same three conditions for a
    formatter that renders ["%v"] of a string as the string (part_001 writes
    the close message itself, loggedio.go formats it with ["%v"]). *)
Theorem constructors_agree_on_nonempty_templates :
  forall (W : Type) (Sprintf : string -> list arg -> string)
         (Output : string -> M W unit) (o : Object W) (sink : WriteFunc W)
         (readFmt writeFmt errorFmt closeMsg : string),
    readFmt <> ""%string -> errorFmt <> ""%string -> closeMsg <> ""%string ->
    (writeFmt <> ""%string ->
     same_operations
       (LoggedioGo.StringToLog Sprintf Output o readFmt writeFmt errorFmt closeMsg)
       (Part001.StringToLog Sprintf Output o readFmt writeFmt errorFmt closeMsg))
    /\ same_operations
         (LoggedioGo.HexToLog Sprintf Output o readFmt writeFmt errorFmt closeMsg)
         (Part001.HexToLog Sprintf Output o readFmt writeFmt errorFmt closeMsg)
    /\ (Sprintf "%v"%string [ArgString closeMsg] = closeMsg ->
        same_operations
          (LoggedioGo.StringToWriter Sprintf o sink readFmt writeFmt errorFmt closeMsg)
          (Part001.StringToWriter Sprintf o sink readFmt writeFmt errorFmt closeMsg)
        /\ same_operations
             (LoggedioGo.HexToWriter Sprintf o sink readFmt writeFmt errorFmt closeMsg)
             (Part001.HexToWriter Sprintf o sink readFmt writeFmt errorFmt closeMsg)).
Proof.
  intros W Sprintf Output o sink readFmt writeFmt errorFmt closeMsg Hr He Hc.
  apply template_not_empty in Hr, He, Hc.
  split; [|split].
  - intros Hw. apply template_not_empty in Hw.
    apply same_fields_same_operations; cbn;
      unfold Part001.byteFunc, Part001.errFunc, Part001.closeFunc;
      rewrite ?Hr, ?Hw, ?He, ?Hc; reflexivity.
  - apply same_fields_same_operations; cbn;
      unfold Part001.byteFunc, Part001.errFunc, Part001.closeFunc;
      rewrite ?Hr, ?He, ?Hc; reflexivity.
  - intros Hv.
    split; apply same_fields_same_operations; cbn;
      unfold Part001.byteFunc, Part001.errFunc, Part001.closeFunc, Fprintf;
      rewrite ?Hr, ?He, ?Hc, ?Hv; reflexivity.
Qed.

Lemma Mocks_Sprintf_v (s : string) : Mocks.Sprintf "%v" [ArgString s] = s.
Proof.
  cbn. induction s as [|c s IH]; [reflexivity|].
  cbn. now rewrite IH.
Qed.

(** A run of X13 with the templates of the package's tests. *)
Lemma constructors_agree_on_nonempty_templates_witness :
  same_operations
    (LoggedioGo.StringToWriter Mocks.Sprintf Mocks.MockIO_object Mocks.Buffer_Write
       "R [%v]" "W [%v]" "E [%v: %v]" "C")
    (Part001.StringToWriter Mocks.Sprintf Mocks.MockIO_object Mocks.Buffer_Write
       "R [%v]" "W [%v]" "E [%v: %v]" "C").
Proof.
  destruct (constructors_agree_on_nonempty_templates Mocks.World Mocks.Sprintf
              Mocks.Logger_Output Mocks.MockIO_object Mocks.Buffer_Write
              "R [%v]" "W [%v]" "E [%v: %v]" "C"
              ltac:(discriminate) ltac:(discriminate) ltac:(discriminate))
    as [_ [_ Hwriters]].
  exact (proj1 (Hwriters (Mocks_Sprintf_v "C"))).
Defined.

(** X14. In [src/loggedio.go] no template switches a channel off: through
    its [StringToWriter] and [HexToWriter] every [Write] that moved
    [n > 0] bytes sends the sink [writeFmt] applied to the accepted bytes
    (as a string, or as a hex dump), and every [Close] sends ["%v"] applied
    to the close message, also when the template is empty; the line for the
    target's error follows if there is one. *)
Theorem loggedio_go_writer_constructors_always_print :
  forall (W : Type) (Sprintf : string -> list arg -> string) (o : Object W)
         (sink : WriteFunc W) (readFmt writeFmt errorFmt closeMsg : string)
         (w w1 : W),
    (forall writer b n err,
       method_Write o = Some writer ->
       writer b w = (Returned (n, err), w1) ->
       0 < n <= Z.of_nat (cap b) ->
       LoggedioGo.Write
         (LoggedioGo.StringToWriter Sprintf o sink readFmt writeFmt errorFmt closeMsg) b w
       = (LoggedioGo.discard
            (Fprintf Sprintf sink writeFmt
               [ArgString (string_of_bytes (firstn (Z.to_nat n) (arr b)))]) ;;
          (if is_nil err then ret tt
           else LoggedioGo.discard
                  (Fprintf Sprintf sink errorFmt [ArgString "Write()"; ArgError err])) ;;
          ret (n, err)) w1
       /\ LoggedioGo.Write
            (LoggedioGo.HexToWriter Sprintf o sink readFmt writeFmt errorFmt closeMsg) b w
          = (LoggedioGo.discard
               (Fprintf Sprintf sink writeFmt
                  [ArgString (toHex (firstn (Z.to_nat n) (arr b)))]) ;;
             (if is_nil err then ret tt
              else LoggedioGo.discard
                     (Fprintf Sprintf sink errorFmt [ArgString "Write()"; ArgError err])) ;;
             ret (n, err)) w1)
    /\ (forall closer err,
          method_Close o = Some closer ->
          closer w = (Returned err, w1) ->
          forall this,
            In this
              [LoggedioGo.StringToWriter Sprintf o sink readFmt writeFmt errorFmt closeMsg;
               LoggedioGo.HexToWriter Sprintf o sink readFmt writeFmt errorFmt closeMsg] ->
            LoggedioGo.Close this w
            = (LoggedioGo.discard (Fprintf Sprintf sink "%v" [ArgString closeMsg]) ;;
               (if is_nil err then ret tt
                else LoggedioGo.discard
                       (Fprintf Sprintf sink errorFmt [ArgString "Close()"; ArgError err])) ;;
               ret err) w1).
Proof.
  intros W Sprintf o sink readFmt writeFmt errorFmt closeMsg w w1.
  split.
  - intros writer b n err Hmethod Hcall [Hpos Hcap].
    assert (Hn : (n >? 0) = true) by (apply Z.gtb_lt; lia).
    assert (Hslice : @slice_to W b n = ret (slice_prefix b n))
      by (apply slice_to_in_range; lia).
    split;
      unfold LoggedioGo.Write, LoggedioGo.StringToWriter, LoggedioGo.HexToWriter,
        assert_Writer;
      cbn [LoggedioGo.Generic LoggedioGo.proxiedObject LoggedioGo.reportWriteEvent
             LoggedioGo.reportErrorEvent];
      rewrite Hmethod; unfold bind at 1 2; cbn [ret]; rewrite Hcall, Hn;
      cbn [when]; rewrite Hslice;
      destruct err; cbn [is_nil negb when];
      unfold LoggedioGo.discard, bind, ret;
      change (elems (slice_prefix b n)) with (firstn (Z.to_nat n) (arr b));
      by_cases_on_calls; reflexivity.
  - intros closer err Hmethod Hcall this Hin.
    cbn [In] in Hin. destruct Hin as [H|[H|[]]]; subst this;
      unfold LoggedioGo.Close, LoggedioGo.StringToWriter, LoggedioGo.HexToWriter,
        assert_Closer;
      cbn [LoggedioGo.Generic LoggedioGo.proxiedObject LoggedioGo.reportCloseEvent
             LoggedioGo.reportErrorEvent];
      rewrite Hmethod; unfold bind at 1 2; cbn [ret]; rewrite Hcall;
      destruct err; cbn [is_nil negb when];
      unfold LoggedioGo.discard, bind, ret;
      by_cases_on_calls; reflexivity.
Qed.

(** A run of X14: with an empty write template the write is still sent to
    the sink, as [fmt] renders operands the format does not use. *)
Lemma loggedio_go_writer_constructors_always_print_witness :
  string_of_bytes
    (Mocks.buffer
       (snd (LoggedioGo.Write
               (LoggedioGo.StringToWriter Mocks.Sprintf Mocks.MockIO_object
                  Mocks.Buffer_Write "R [%v]" "" "E [%v: %v]" "C")
               Mocks.test_bytes Mocks.fresh)))
  = "%!(EXTRA string=test)"%string.
Proof.
  destruct (loggedio_go_writer_constructors_always_print Mocks.World Mocks.Sprintf
              Mocks.MockIO_object Mocks.Buffer_Write "R [%v]" "" "E [%v: %v]" "C"
              Mocks.fresh
              (Mocks.mkWorld
                 (Mocks.mkMockIO (elems Mocks.test_bytes) 0 0 0 0 0 0 0 0 false)
                 [] [] []))
    as [Hwrite _].
  destruct (Hwrite Mocks.MockIO_Write Mocks.test_bytes 4 None eq_refl eq_refl
              ltac:(vm_compute; split; [reflexivity | discriminate]))
    as [Hstring _].
  rewrite Hstring. reflexivity.
Defined.

(* ===================================================================== *)
(** * DumpToFiles *)
(* ===================================================================== *)

Lemma writerForFile_run (Sprintf : string -> list arg -> string)
    (creatable : string -> bool) (filename : string) (w : Files.World) :
  Part001.writerForFile Sprintf Files.Output
    (Files.handle_Write Files.Stdout) (Files.handle_Write Files.Stderr)
    Files.Discard_Write (Files.Create creatable) filename w
  = (Returned (writer_named creatable filename),
     Files.mkWorld
       (Files.attempts w ++ created_paths [filename])
       (Files.warnings w ++ creation_warnings Sprintf creatable [filename])
       (Files.journal w)).
Proof.
  unfold Part001.writerForFile, writer_named, created_paths, creation_warnings,
    special_name.
  destruct w as [att warn jour]. cbn [filter map].
  destruct (String.eqb filename "stdout");
    [cbn; now rewrite !app_nil_r|].
  destruct (String.eqb filename "stderr");
    [cbn; now rewrite !app_nil_r|].
  destruct (String.eqb filename "null");
    [cbn; now rewrite !app_nil_r|].
  cbn [orb negb andb].
  unfold bind, Files.Create, log_Printf, Files.Output.
  destruct (creatable filename); cbn; now rewrite ?app_nil_r.
Qed.

Lemma created_paths_app (a b : list string) :
  created_paths (a ++ b) = (created_paths a ++ created_paths b)%list.
Proof. apply filter_app. Qed.

Lemma creation_warnings_app (Sprintf : string -> list arg -> string)
    (creatable : string -> bool) (a b : list string) :
  creation_warnings Sprintf creatable (a ++ b)
  = (creation_warnings Sprintf creatable a
     ++ creation_warnings Sprintf creatable b)%list.
Proof. unfold creation_warnings. now rewrite filter_app, map_app. Qed.

(** X15. [DumpToFiles] always returns a proxy. It calls [os.Create] exactly
    for those of its three file names that are not ["stdout"], ["stderr"] or
    ["null"], in the order read, write, notify (a name given twice is created
    twice); for each path that cannot be created it logs one warning and
    uses a discarding writer instead; it writes nothing itself. The proxy is
    the one [DumpToWriters] builds from the three writers the names stand
    for. *)
Theorem DumpToFiles_creates_the_ordinary_names :
  forall (Sprintf : string -> list arg -> string) (creatable : string -> bool)
         (o : Object Files.World)
         (readFilename writeFilename notifyFilename errorFmt closeMsg : string)
         (w : Files.World),
    DumpToFiles_on Sprintf creatable o readFilename writeFilename notifyFilename
      errorFmt closeMsg w
    = (Returned
         (Part001.DumpToWriters Sprintf o
            (writer_named creatable readFilename)
            (writer_named creatable writeFilename)
            (writer_named creatable notifyFilename)
            errorFmt closeMsg),
       Files.mkWorld
         (Files.attempts w
          ++ created_paths [readFilename; writeFilename; notifyFilename])
         (Files.warnings w
          ++ creation_warnings Sprintf creatable
               [readFilename; writeFilename; notifyFilename])
         (Files.journal w)).
Proof.
  intros Sprintf creatable o r wr n errorFmt closeMsg w.
  unfold DumpToFiles_on, Part001.DumpToFiles.
  rewrite bind_run, writerForFile_run.
  rewrite bind_run, writerForFile_run.
  rewrite bind_run, writerForFile_run.
  cbn [ret Files.attempts Files.warnings Files.journal].
  change [r; wr; n] with ([r] ++ [wr] ++ [n])%list.
  rewrite !created_paths_app, !creation_warnings_app, <- !app_assoc.
  reflexivity.
Qed.

(** X16. The bytes of a read reach the file named for reads and nothing
    else: with the writers [DumpToFiles] resolves its names to, a [Read]
    that moved [n > 0] bytes without error appends exactly those [n] bytes,
    in one write, to the standard stream or created file the read file name
    stands for; for ["null"] or a path that could not be created it leaves
    no trace. The write and notify files are not touched. *)
Theorem DumpToFiles_read_stream_lands_in_the_read_file :
  forall (Sprintf : string -> list arg -> string) (creatable : string -> bool)
         (o : Object Files.World) (reader : ReadFunc Files.World)
         (readFilename writeFilename notifyFilename errorFmt closeMsg : string)
         (b b' : slice) (n : Z) (w w1 : Files.World),
    method_Read o = Some reader ->
    reader b w = (Returned (b', n, None), w1) ->
    0 < n <= Z.of_nat (cap b') ->
    Part001.Read
      (Part001.DumpToWriters Sprintf o
         (writer_named creatable readFilename)
         (writer_named creatable writeFilename)
         (writer_named creatable notifyFilename) errorFmt closeMsg) b w
    = (Returned (b', n, None),
       match lands_in creatable readFilename with
       | Some h =>
           Files.mkWorld (Files.attempts w1) (Files.warnings w1)
             (Files.journal w1 ++ [(h, firstn (Z.to_nat n) (arr b'))])
       | None => w1
       end).
Proof.
  intros Sprintf creatable o reader r wr nf errorFmt closeMsg b b' n w w1
    Hmethod Hcall [Hpos Hcap].
  assert (Hn : (n >? 0) = true) by (apply Z.gtb_lt; lia).
  rewrite (Read_run
             (Part001.DumpToWriters Sprintf o (writer_named creatable r)
                (writer_named creatable wr) (writer_named creatable nf)
                errorFmt closeMsg)
             reader b b' n None w w1 Hmethod Hcall Hcap).
  rewrite Hn.
  cbn [is_nil app invoke_all invoke Part001.DumpToWriters Part001.Generic
         Part001.reportReadEvent].
  unfold writer_named at 1, lands_in.
  destruct w1 as [att warn jour].
  destruct (String.eqb r "stdout"); [reflexivity|].
  destruct (String.eqb r "stderr"); [reflexivity|].
  destruct (String.eqb r "null"); [reflexivity|].
  destruct (creatable r); reflexivity.
Qed.

(** A run of X15 and X16: the write file cannot be created, notifications
    go to [stderr], reads to a file; then one read of three bytes. *)
Lemma DumpToFiles_read_stream_lands_in_the_read_file_witness :
  snd (DumpToFiles_on Mocks.Sprintf Files.outside_ro Files.three_bytes_object
         "reads.bin" "/ro/writes.bin" "stderr" "E [%v: %v]" "C" Files.untouched)
  = Files.mkWorld ["reads.bin"; "/ro/writes.bin"]%string
      ["LoggedIO: Error creating /ro/writes.bin: open /ro/writes.bin: permission denied"%string]
      []
  /\ Part001.Read
       (Part001.DumpToWriters Mocks.Sprintf Files.three_bytes_object
          (writer_named Files.outside_ro "reads.bin")
          (writer_named Files.outside_ro "/ro/writes.bin")
          (writer_named Files.outside_ro "stderr") "E [%v: %v]" "C")
       (slice_of [x00; x00; x00]) Files.untouched
     = (Returned (slice_of (Mocks.generateBytes 3), 3, None),
        Files.mkWorld [] []
          [(Files.File "reads.bin", Mocks.generateBytes 3)]).
Proof.
  split; [reflexivity|].
  rewrite (DumpToFiles_read_stream_lands_in_the_read_file Mocks.Sprintf
             Files.outside_ro Files.three_bytes_object Files.three_bytes_Read
             "reads.bin" "/ro/writes.bin" "stderr" "E [%v: %v]" "C"
             (slice_of [x00; x00; x00]) (slice_of (Mocks.generateBytes 3)) 3
             Files.untouched Files.untouched eq_refl eq_refl
             ltac:(vm_compute; split; [reflexivity | discriminate])).
  reflexivity.
Defined.

(* ===================================================================== *)
(** * The test doubles keep the contracts of io.Reader and io.Writer *)
(* ===================================================================== *)

Lemma generateBytes_length (n : Z) :
  List.length (Mocks.generateBytes n) = Z.to_nat n.
Proof. unfold Mocks.generateBytes. now rewrite length_map, length_seq. Qed.

Lemma copy_prefix (b : slice) (src : list byte) :
  (List.length src <= len b)%nat -> (len b <= cap b)%nat ->
  len (Mocks.copy b src) = len b
  /\ cap (Mocks.copy b src) = cap b
  /\ firstn (List.length src) (arr (Mocks.copy b src)) = src
  /\ skipn (List.length src) (arr (Mocks.copy b src))
     = skipn (List.length src) (arr b).
Proof.
  intros Hsrc Hwf. unfold Mocks.copy, cap in *. cbn [arr len].
  rewrite (Nat.min_r _ _ Hsrc).
  rewrite firstn_all.
  split; [reflexivity|]. split; [|split].
  - rewrite length_app, length_skipn. lia.
  - rewrite firstn_app, firstn_all, Nat.sub_diag. cbn. apply app_nil_r.
  - rewrite skipn_app, skipn_all, Nat.sub_diag. reflexivity.
Qed.

(** X17. [MockIO] is a well-behaved reader and writer. On a buffer whose
    length is within its capacity, [Read] never panics, leaves the mock
    unchanged, returns a count between 0 and the buffer's length, keeps the
    buffer's length and capacity, has filled exactly that many leading
    bytes with the generated pattern, and has left every byte of the backing
    array after them as it was; [Write] never panics, returns a count
    between 0 and the data's length, appends exactly the accepted prefix to
    [WriteContents], and returns an error whenever it accepts less than all
    the data. *)
Theorem MockIO_keeps_the_io_contracts :
  forall (b : slice) (w : Mocks.World),
    (len b <= cap b)%nat ->
    (exists b' n err,
       Mocks.MockIO_Read b w = (Returned (b', n, err), w)
       /\ 0 <= n <= Z.of_nat (len b)
       /\ len b' = len b /\ cap b' = cap b
       /\ firstn (Z.to_nat n) (arr b') = Mocks.generateBytes n
       /\ skipn (Z.to_nat n) (arr b') = skipn (Z.to_nat n) (arr b))
    /\ (exists n err w',
          Mocks.MockIO_Write b w = (Returned (n, err), w')
          /\ 0 <= n <= Z.of_nat (len b)
          /\ Mocks.WriteContents (Mocks.mock w')
             = (Mocks.WriteContents (Mocks.mock w)
                ++ firstn (Z.to_nat n) (elems b))%list
          /\ (n < Z.of_nat (len b) -> err <> None)).
Proof.
  intros b w Hwf. destruct w as [m buf log cs]. split.
  - unfold Mocks.MockIO_Read, bind, Mocks.get_mock. cbn [Mocks.mock ret].
    destruct (Mocks.FailNextOperations m).
    + exists b, 0, Mocks.generateError.
      repeat split; try reflexivity; lia.
    + set (F := Mocks.FailAfterReadByteCount m).
      destruct ((Z.of_nat (len b) >=? F) && (F >? 0)) eqn:Hcond.
      * apply andb_prop in Hcond. destruct Hcond as [Hge Hpos].
        apply Z.geb_le in Hge. apply Z.gtb_lt in Hpos.
        assert (Hsrc : (List.length (Mocks.generateBytes F) <= len b)%nat)
          by (rewrite generateBytes_length; lia).
        destruct (copy_prefix b (Mocks.generateBytes F) Hsrc Hwf)
          as [Hl [Hc [Hf Hs]]].
        rewrite generateBytes_length in Hf, Hs.
        assert (Hagain : (F >=? F) && (F >? 0) = true).
        { apply andb_true_intro. split; [apply Z.geb_le; lia | apply Z.gtb_lt; lia]. }
        rewrite Hagain.
        eexists _, F, _. split; [reflexivity|].
        repeat split; try assumption; lia.
      * assert (Hsrc : (List.length (Mocks.generateBytes (Z.of_nat (len b)))
                        <= len b)%nat)
          by (rewrite generateBytes_length; lia).
        destruct (copy_prefix b _ Hsrc Hwf) as [Hl [Hc [Hf Hs]]].
        rewrite generateBytes_length in Hf, Hs.
        eexists _, (Z.of_nat (len b)), _. split; [reflexivity|].
        repeat split; try assumption; lia.
  - unfold Mocks.MockIO_Write. rewrite bind_run.
    unfold Mocks.get_mock. cbn [Mocks.mock].
    destruct (Mocks.FailNextOperations m) eqn:Hfail.
    + exists 0, Mocks.generateError, (Mocks.mkWorld m buf log cs).
      split; [reflexivity|]. split; [lia|].
      split; [cbn; now rewrite app_nil_r | discriminate].
    + set (F := Mocks.FailAfterWriteByteCount m).
      destruct ((Z.of_nat (len b) >=? F) && (F >? 0)) eqn:Hcond.
      * apply andb_prop in Hcond. destruct Hcond as [Hge Hpos].
        apply Z.geb_le in Hge. apply Z.gtb_lt in Hpos.
        assert (Hagain : (F >=? F) && (F >? 0) = true).
        { apply andb_true_intro. split; [apply Z.geb_le; lia | apply Z.gtb_lt; lia]. }
        rewrite Hagain.
        rewrite bind_run, (slice_to_in_range b F) by (unfold cap in *; lia).
        cbn [ret]. rewrite bind_run. unfold Mocks.set_mock. cbn [ret].
        eexists F, _, _. split; [reflexivity|]. split; [lia|].
        split; [|discriminate].
        cbn [Mocks.mock Mocks.WriteContents]. f_equal.
        apply slice_prefix_elems. lia.
      * rewrite bind_run, (slice_to_in_range b (Z.of_nat (len b)))
          by (unfold cap in *; lia).
        cbn [ret]. rewrite bind_run. unfold Mocks.set_mock. cbn [ret].
        eexists (Z.of_nat (len b)), _, _. split; [reflexivity|]. split; [lia|].
        split; [|lia].
        cbn [Mocks.mock Mocks.WriteContents]. f_equal.
        apply slice_prefix_elems. lia.
Qed.

(** A run of X17 on a three-byte buffer that holds other bytes, the mock
    failing after two bytes: the third byte is still there. *)
Lemma MockIO_keeps_the_io_contracts_witness :
  Mocks.MockIO_Read (slice_of [xff; xfe; xfd]) Mocks.short_reads
  = (Returned (mkSlice ["a"%byte; "b"%byte; xfd] 3, 2, Some "ERROR!"%string),
     Mocks.short_reads)
  /\ fst (Mocks.MockIO_Write Mocks.test_bytes Mocks.short_writes)
     = Returned (2, Some "ERROR!"%string).
Proof.
  destruct (MockIO_keeps_the_io_contracts (slice_of [xff; xfe; xfd])
              Mocks.short_reads ltac:(vm_compute; reflexivity))
    as [[b' [n [err [Hread [_ [_ [_ [Hfirst Hskip]]]]]]]] _].
  destruct (MockIO_keeps_the_io_contracts Mocks.test_bytes
              Mocks.short_writes ltac:(vm_compute; reflexivity))
    as [_ [n' [err' [w' [Hwrite _]]]]].
  split.
  - rewrite Hread. vm_compute in Hread. inversion Hread. reflexivity.
  - rewrite Hwrite. vm_compute in Hwrite. inversion Hwrite. reflexivity.
Defined.

(* ===================================================================== *)
(** * What StringToLog logs *)
(* ===================================================================== *)

(** X18. [StringToLog] guards every channel by its own template. A [Read]
    that moved [n > 0] bytes logs [readFmt] applied to the bytes as a string,
    a [Write] logs [writeFmt] applied to the accepted prefix, a [Close] logs
    the close message through ["%v"]; each is followed by [errorFmt] applied
    to the operation's tag and the target's error, if there is one. A
    channel whose template is empty logs nothing, and the other channels are
    not affected. *)
Theorem StringToLog_logs_each_channel_through_its_own_template :
  forall (W : Type) (Sprintf : string -> list arg -> string)
         (Output : string -> M W unit) (o : Object W)
         (readFmt writeFmt errorFmt closeMsg : string) (w w1 : W),
    (forall reader b b' n err,
       method_Read o = Some reader ->
       reader b w = (Returned (b', n, err), w1) ->
       0 < n <= Z.of_nat (cap b') ->
       Part001.Read
         (Part001.StringToLog Sprintf Output o readFmt writeFmt errorFmt closeMsg) b w
       = (log_line Sprintf Output readFmt
            [ArgString (string_of_bytes (firstn (Z.to_nat n) (arr b')))] ;;
          log_error Sprintf Output errorFmt "Read()" err ;;
          ret (b', n, err)) w1)
    /\ (forall writer b n err,
          method_Write o = Some writer ->
          writer b w = (Returned (n, err), w1) ->
          0 < n <= Z.of_nat (cap b) ->
          Part001.Write
            (Part001.StringToLog Sprintf Output o readFmt writeFmt errorFmt closeMsg) b w
          = (log_line Sprintf Output writeFmt
               [ArgString (string_of_bytes (firstn (Z.to_nat n) (arr b)))] ;;
             log_error Sprintf Output errorFmt "Write()" err ;;
             ret (n, err)) w1)
    /\ (forall closer err,
          method_Close o = Some closer ->
          closer w = (Returned err, w1) ->
          Part001.Close
            (Part001.StringToLog Sprintf Output o readFmt writeFmt errorFmt closeMsg) w
          = ((if String.eqb closeMsg "" then ret tt
              else Output (Sprintf "%v"%string [ArgString closeMsg])) ;;
             log_error Sprintf Output errorFmt "Close()" err ;;
             ret err) w1).
Proof.
  intros W Sprintf Output o readFmt writeFmt errorFmt closeMsg w w1.
  split; [|split].
  - intros reader b b' n err Hmethod Hcall [Hpos Hcap].
    assert (Hn : (n >? 0) = true) by (apply Z.gtb_lt; lia).
    rewrite (Read_run
               (Part001.StringToLog Sprintf Output o readFmt writeFmt errorFmt closeMsg)
               reader b b' n err w w1 Hmethod Hcall Hcap).
    rewrite Hn. unfold log_error, log_line.
    destruct err;
      cbn [is_nil app invoke_all invoke Part001.StringToLog Part001.Generic
             Part001.reportReadEvent Part001.reportErrorEvent];
      unfold Part001.byteFunc, Part001.errFunc, log_Printf;
      destruct (String.eqb readFmt ""); destruct (String.eqb errorFmt "");
      unfold bind, ret;
      try change (elems (slice_prefix b' n)) with (firstn (Z.to_nat n) (arr b'));
      by_cases_on_calls; reflexivity.
  - intros writer b n err Hmethod Hcall [Hpos Hcap].
    assert (Hn : (n >? 0) = true) by (apply Z.gtb_lt; lia).
    rewrite (Write_run
               (Part001.StringToLog Sprintf Output o readFmt writeFmt errorFmt closeMsg)
               writer b n err w w1 Hmethod Hcall Hcap).
    rewrite Hn. unfold log_error, log_line.
    destruct err;
      cbn [is_nil app invoke_all invoke Part001.StringToLog Part001.Generic
             Part001.reportWriteEvent Part001.reportErrorEvent];
      unfold Part001.byteFunc, Part001.errFunc, log_Printf;
      destruct (String.eqb writeFmt ""); destruct (String.eqb errorFmt "");
      unfold bind, ret;
      try change (elems (slice_prefix b n)) with (firstn (Z.to_nat n) (arr b));
      by_cases_on_calls; reflexivity.
  - intros closer err Hmethod Hcall.
    rewrite (Close_run
               (Part001.StringToLog Sprintf Output o readFmt writeFmt errorFmt closeMsg)
               closer err w w1 Hmethod Hcall).
    unfold log_error, log_line.
    destruct err;
      cbn [is_nil invoke_all invoke Part001.StringToLog Part001.Generic
             Part001.reportCloseEvent Part001.reportErrorEvent];
      unfold Part001.closeFunc, Part001.errFunc, log_Printf;
      destruct (String.eqb closeMsg ""); destruct (String.eqb errorFmt "");
      unfold bind, ret; by_cases_on_calls; reflexivity.
Qed.

(** A run of X18: an empty read template beside a write template; the write
    of ["test"], cut short after two bytes, is logged with its error. *)
Lemma StringToLog_logs_each_channel_through_its_own_template_witness :
  Mocks.stdlog
    (snd (Part001.Write
            (Part001.StringToLog Mocks.Sprintf Mocks.Logger_Output
               Mocks.MockIO_object "" "W [%v]" "E [%v: %v]" "C")
            Mocks.test_bytes Mocks.short_writes))
  = ["W [te]"; "E [Write(): ERROR!]"]%string.
Proof.
  destruct (StringToLog_logs_each_channel_through_its_own_template Mocks.World
              Mocks.Sprintf Mocks.Logger_Output Mocks.MockIO_object
              "" "W [%v]" "E [%v: %v]" "C" Mocks.short_writes
              (Mocks.mkWorld
                 (Mocks.mkMockIO ["t"%byte; "e"%byte] 0 0 0 0 0 0 2 0 false) [] [] []))
    as [_ [Hwrite _]].
  rewrite (Hwrite Mocks.MockIO_Write Mocks.test_bytes 2 (Some "ERROR!"%string)
             eq_refl eq_refl
             ltac:(vm_compute; split; [reflexivity | discriminate])).
  reflexivity.
Defined.

(* ===================================================================== *)
(** * Each operation reaches the target once *)
(* ===================================================================== *)

Lemma invoke_all_leaves_mock_alone (this : @Part001.LoggedIOProxy Mocks.World) :
  leaves_mock_alone this ->
  forall (rs : list report) (w : Mocks.World),
    Mocks.mock (snd (invoke_all this rs w)) = Mocks.mock w.
Proof.
  intros Halone rs. induction rs as [|r rs IH]; intros w; [reflexivity|].
  cbn [invoke_all]. rewrite bind_run.
  pose proof (Halone r w) as Hr.
  destruct (invoke this r w) as [[[]|p] w1]; cbn [snd] in *.
  - now rewrite IH.
  - exact Hr.
Qed.

Lemma reports_then_return_leave_mock_alone {A : Type}
    (this : @Part001.LoggedIOProxy Mocks.World) (rs : list report) (a : A)
    (w : Mocks.World) :
  leaves_mock_alone this ->
  Mocks.mock (snd ((invoke_all this rs ;; ret a) w)) = Mocks.mock w.
Proof.
  intros Halone. rewrite bind_run.
  pose proof (invoke_all_leaves_mock_alone this Halone rs w) as H.
  destruct (invoke_all this rs w) as [[[]|p] w1]; exact H.
Qed.

(** X19. No operation is forwarded twice or to the wrong method: through a
    proxy around a [MockIO] whose callbacks leave the mock alone, [Close],
    [LocalAddr], [RemoteAddr], [SetDeadline], [SetReadDeadline] and
    [SetWriteDeadline] each apply one [++] to the mock's counter of that
    method and leave the five other counters as they were, whether the mock
    fails or not. One [++] adds exactly one to a counter below the largest
    [int], and takes the largest [int] to the smallest. *)
Theorem each_operation_calls_the_target_once :
  forall (this : @Part001.LoggedIOProxy Mocks.World) (w : Mocks.World),
    Part001.proxiedObject this = Mocks.MockIO_object ->
    leaves_mock_alone this ->
    let before := Mocks.mock w in
    call_counts (Mocks.mock (snd (Part001.Close this w)))
    = [Mocks.incr (Mocks.CloseCallCount before);
           Mocks.LocalAddrCallCount before;
           Mocks.RemoteAddrCallCount before;
           Mocks.SetDeadlineCallCount before;
           Mocks.SetReadDeadlineCallCount before;
           Mocks.SetWriteDeadlineCallCount before]
    /\ call_counts (Mocks.mock (snd (Part001.LocalAddr this w)))
       = [Mocks.CloseCallCount before;
           Mocks.incr (Mocks.LocalAddrCallCount before);
           Mocks.RemoteAddrCallCount before;
           Mocks.SetDeadlineCallCount before;
           Mocks.SetReadDeadlineCallCount before;
           Mocks.SetWriteDeadlineCallCount before]
    /\ call_counts (Mocks.mock (snd (Part001.RemoteAddr this w)))
       = [Mocks.CloseCallCount before;
           Mocks.LocalAddrCallCount before;
           Mocks.incr (Mocks.RemoteAddrCallCount before);
           Mocks.SetDeadlineCallCount before;
           Mocks.SetReadDeadlineCallCount before;
           Mocks.SetWriteDeadlineCallCount before]
    /\ (forall t,
          call_counts (Mocks.mock (snd (Part001.SetDeadline this t w)))
          = [Mocks.CloseCallCount before;
           Mocks.LocalAddrCallCount before;
           Mocks.RemoteAddrCallCount before;
           Mocks.incr (Mocks.SetDeadlineCallCount before);
           Mocks.SetReadDeadlineCallCount before;
           Mocks.SetWriteDeadlineCallCount before])
    /\ (forall t,
          call_counts (Mocks.mock (snd (Part001.SetReadDeadline this t w)))
          = [Mocks.CloseCallCount before;
           Mocks.LocalAddrCallCount before;
           Mocks.RemoteAddrCallCount before;
           Mocks.SetDeadlineCallCount before;
           Mocks.incr (Mocks.SetReadDeadlineCallCount before);
           Mocks.SetWriteDeadlineCallCount before])
    /\ (forall t,
          call_counts (Mocks.mock (snd (Part001.SetWriteDeadline this t w)))
          = [Mocks.CloseCallCount before;
           Mocks.LocalAddrCallCount before;
           Mocks.RemoteAddrCallCount before;
           Mocks.SetDeadlineCallCount before;
           Mocks.SetReadDeadlineCallCount before;
           Mocks.incr (Mocks.SetWriteDeadlineCallCount before)])
    /\ (forall c, Mocks.int_min <= c < Mocks.int_max -> Mocks.incr c = c + 1)
    /\ Mocks.incr Mocks.int_max = Mocks.int_min.
Proof.
  intros this w Hobj Halone before. subst before.
  assert (Hclose : method_Close (Part001.proxiedObject this) = Some Mocks.MockIO_Close)
    by now rewrite Hobj.
  assert (Hconn : as_Conn (Part001.proxiedObject this) = Some Mocks.MockIO_conn)
    by now rewrite Hobj.
  destruct w as [m buf log cs]. cbn [Mocks.mock].
  split; [|split; [|split; [|split; [|split; [|split; [|split]]]]]].
  - assert (Hcall : Mocks.MockIO_Close (Mocks.mkWorld m buf log cs)
                    = (Returned (if Mocks.FailNextOperations m
                                 then Mocks.generateError else None),
                       Mocks.mkWorld
                         (Mocks.mkMockIO (Mocks.WriteContents m)
                            (Mocks.incr (Mocks.CloseCallCount m))
                            (Mocks.LocalAddrCallCount m)
                            (Mocks.RemoteAddrCallCount m)
                            (Mocks.SetDeadlineCallCount m)
                            (Mocks.SetReadDeadlineCallCount m)
                            (Mocks.SetWriteDeadlineCallCount m)
                            (Mocks.FailAfterWriteByteCount m) (Mocks.FailAfterReadByteCount m)
                            (Mocks.FailNextOperations m))
                         buf log cs)).
    { unfold Mocks.MockIO_Close, bind, Mocks.get_mock, Mocks.set_mock, ret.
      cbn [Mocks.mock Mocks.buffer Mocks.stdlog Mocks.calls].
      destruct (Mocks.FailNextOperations m); reflexivity. }
    rewrite (Close_run this _ _ _ _ Hclose Hcall).
    rewrite reports_then_return_leave_mock_alone by exact Halone. reflexivity.
  - unfold Part001.LocalAddr, assert_Conn. rewrite Hconn. reflexivity.
  - unfold Part001.RemoteAddr, assert_Conn. rewrite Hconn. reflexivity.
  - intros t.
    assert (Hcall : Mocks.MockIO_SetDeadline t (Mocks.mkWorld m buf log cs)
                    = (Returned (if Mocks.FailNextOperations m
                                 then Mocks.generateError else None),
                       Mocks.mkWorld
                         (Mocks.mkMockIO (Mocks.WriteContents m)
                            (Mocks.CloseCallCount m)
                            (Mocks.LocalAddrCallCount m)
                            (Mocks.RemoteAddrCallCount m)
                            (Mocks.incr (Mocks.SetDeadlineCallCount m))
                            (Mocks.SetReadDeadlineCallCount m)
                            (Mocks.SetWriteDeadlineCallCount m)
                            (Mocks.FailAfterWriteByteCount m) (Mocks.FailAfterReadByteCount m)
                            (Mocks.FailNextOperations m))
                         buf log cs)).
    { unfold Mocks.MockIO_SetDeadline, bind, Mocks.get_mock, Mocks.set_mock, ret.
      cbn [Mocks.mock Mocks.buffer Mocks.stdlog Mocks.calls].
      destruct (Mocks.FailNextOperations m); reflexivity. }
    destruct (deadline_run this Mocks.MockIO_conn t
                (Mocks.mkWorld m buf log cs) Hconn) as [H _].
    rewrite (H _ _ Hcall).
    rewrite reports_then_return_leave_mock_alone by exact Halone. reflexivity.
  - intros t.
    assert (Hcall : Mocks.MockIO_SetReadDeadline t (Mocks.mkWorld m buf log cs)
                    = (Returned (if Mocks.FailNextOperations m
                                 then Mocks.generateError else None),
                       Mocks.mkWorld
                         (Mocks.mkMockIO (Mocks.WriteContents m)
                            (Mocks.CloseCallCount m)
                            (Mocks.LocalAddrCallCount m)
                            (Mocks.RemoteAddrCallCount m)
                            (Mocks.SetDeadlineCallCount m)
                            (Mocks.incr (Mocks.SetReadDeadlineCallCount m))
                            (Mocks.SetWriteDeadlineCallCount m)
                            (Mocks.FailAfterWriteByteCount m) (Mocks.FailAfterReadByteCount m)
                            (Mocks.FailNextOperations m))
                         buf log cs)).
    { unfold Mocks.MockIO_SetReadDeadline, bind, Mocks.get_mock, Mocks.set_mock, ret.
      cbn [Mocks.mock Mocks.buffer Mocks.stdlog Mocks.calls].
      destruct (Mocks.FailNextOperations m); reflexivity. }
    destruct (deadline_run this Mocks.MockIO_conn t
                (Mocks.mkWorld m buf log cs) Hconn) as [_ [H _]].
    rewrite (H _ _ Hcall).
    rewrite reports_then_return_leave_mock_alone by exact Halone. reflexivity.
  - intros t.
    assert (Hcall : Mocks.MockIO_SetWriteDeadline t (Mocks.mkWorld m buf log cs)
                    = (Returned (if Mocks.FailNextOperations m
                                 then Mocks.generateError else None),
                       Mocks.mkWorld
                         (Mocks.mkMockIO (Mocks.WriteContents m)
                            (Mocks.CloseCallCount m)
                            (Mocks.LocalAddrCallCount m)
                            (Mocks.RemoteAddrCallCount m)
                            (Mocks.SetDeadlineCallCount m)
                            (Mocks.SetReadDeadlineCallCount m)
                            (Mocks.incr (Mocks.SetWriteDeadlineCallCount m))
                            (Mocks.FailAfterWriteByteCount m) (Mocks.FailAfterReadByteCount m)
                            (Mocks.FailNextOperations m))
                         buf log cs)).
    { unfold Mocks.MockIO_SetWriteDeadline, bind, Mocks.get_mock, Mocks.set_mock, ret.
      cbn [Mocks.mock Mocks.buffer Mocks.stdlog Mocks.calls].
      destruct (Mocks.FailNextOperations m); reflexivity. }
    destruct (deadline_run this Mocks.MockIO_conn t
                (Mocks.mkWorld m buf log cs) Hconn) as [_ [_ H]].
    rewrite (H _ _ Hcall).
    rewrite reports_then_return_leave_mock_alone by exact Halone. reflexivity.
  - intros c Hc. unfold Mocks.incr, Mocks.wrap_int, Mocks.int_min, Mocks.int_max in *.
    rewrite Z.mod_small by lia. lia.
  - reflexivity.
Qed.

Lemma recording_leaves_mock_alone (name : string) (o : Object Mocks.World) :
  leaves_mock_alone (Mocks.recording name o).
Proof. intros r w. destruct r; reflexivity. Qed.

(** A run of X19 on a failing mock behind a recording proxy, and on a mock
    whose [CloseCallCount] is the largest [int]. *)
Lemma each_operation_calls_the_target_once_witness :
  call_counts
    (Mocks.mock (snd (Part001.Close (Mocks.recording "p" Mocks.MockIO_object)
                        Mocks.failing)))
  = [1; 0; 0; 0; 0; 0]
  /\ call_counts
       (Mocks.mock (snd (Part001.SetReadDeadline
                           (Mocks.recording "p" Mocks.MockIO_object) 7
                           Mocks.failing)))
     = [0; 0; 0; 0; 1; 0]
  /\ call_counts
       (Mocks.mock
          (snd (Part001.Close (Mocks.recording "p" Mocks.MockIO_object)
                  (Mocks.mkWorld
                     (Mocks.mkMockIO [] 9223372036854775807 5 0 0 0 0 0 0 false)
                     [] [] []))))
     = [-9223372036854775808; 5; 0; 0; 0; 0]
  /\ Mocks.incr 41 = 42.
Proof.
  destruct (each_operation_calls_the_target_once
              (Mocks.recording "p" Mocks.MockIO_object) Mocks.failing eq_refl
              (recording_leaves_mock_alone "p" Mocks.MockIO_object))
    as [Hclose [_ [_ [_ [Hread [_ [Hincr _]]]]]]].
  destruct (each_operation_calls_the_target_once
              (Mocks.recording "p" Mocks.MockIO_object)
              (Mocks.mkWorld
                 (Mocks.mkMockIO [] 9223372036854775807 5 0 0 0 0 0 0 false)
                 [] [] [])
              eq_refl
              (recording_leaves_mock_alone "p" Mocks.MockIO_object))
    as [Hwrap _].
  split; [exact Hclose | split; [exact (Hread 7) | split; [exact Hwrap |]]].
  apply (Hincr 41). unfold Mocks.int_min, Mocks.int_max. lia.
Defined.
